(** * Truck Deal Finder: the listing store, its merge and its queries

    A shallow embedding of the reconciliation core of [deal_finder.py]:
    [apply_filters], [upsert_listing], [get_listings], [get_price_drops] and
    the processing loop of [run_full_scrape], together with the properties
    the specification states about them; and of [get_listing_by_id],
    [get_active_filters_summary] and the filter overrides of [main], with
    properties read off the code.

    Conventions of the embedding.
    - Python integers are [Z]; Python and SQLite strings are byte strings
      ([string]), so [str.lower] and SQL [LOWER] act on ASCII letters.
    - A Python value that may be [None] is an [option]; a dictionary key that
      is read with [d[k]] (and so may be missing) is an [entry].
    - The SQLite database is a record of its two tables, each a list of rows
      in rowid order.  The JSON text of the [price_history] column is
      represented by the list it encodes.
    - The clock ([datetime.now()] of Python, [CURRENT_TIMESTAMP] of SQLite)
      is an explicit argument.
    - A Python float is the rational number it denotes; every float
      operation is the exact operation followed by [binary64], the rounding
      of IEEE 754 double precision (to nearest, ties to even). *)

From Stdlib Require Import ZArith QArith List String Ascii Bool Lia.
From Stdlib Require Import DecimalString.
From Stdlib Require Import Sorting.Sorted Sorting.Permutation.
Import ListNotations.

#[local] Open Scope string_scope.
#[local] Open Scope Z_scope.

(* ===================================================================== *)
(** ** Python values *)
(* ===================================================================== *)

Module Py.

(** The three states of a key that is read with [d[key]]. *)
Inductive entry (A : Type) : Type :=
| Absent                      (* the key is not in the dictionary *)
| PyNone                      (* the key is bound to None *)
| Val (a : A).                (* the key is bound to a value *)
Arguments Absent {A}.
Arguments PyNone {A}.
Arguments Val {A} a.

(** Truth value of an optional integer: [None] and [0] are false. *)
Definition truthy (v : option Z) : bool :=
  match v with
  | Some z => negb (z =? 0)
  | None => false
  end.

(** Truth value of an optional number with a fractional part. *)
Definition truthyQ (v : option Q) : bool :=
  match v with
  | Some q => negb (Qeq_bool q 0)
  | None => false
  end.

(** Truth value of a list: the empty list is false. *)
Definition nonempty {A} (l : list A) : bool :=
  match l with
  | [] => false
  | _ :: _ => true
  end.

(** [x or ""] for an optional string. *)
Definition or_empty (s : option string) : string :=
  match s with
  | Some t => t
  | None => ""
  end.

Definition lower_ascii (c : ascii) : ascii :=
  let n := N_of_ascii c in
  if ((65 <=? n) && (n <=? 90))%N then ascii_of_N (n + 32) else c.

(** [s.lower()] *)
Fixpoint lower (s : string) : string :=
  match s with
  | EmptyString => EmptyString
  | String c r => String (lower_ascii c) (lower r)
  end.

(** [needle in hay] *)
Fixpoint contains (needle hay : string) : bool :=
  String.prefix needle hay ||
  match hay with
  | EmptyString => false
  | String _ r => contains needle r
  end.

(** [any(f(x) for x in l)] *)
Definition any {A} (f : A -> bool) (l : list A) : bool := existsb f l.

End Py.
Import Py.

(* ===================================================================== *)
(** ** Clock readings and their text forms *)
(* ===================================================================== *)

Module Clock.

Record datetime : Type := mkDatetime {
  dt_year : Z; dt_month : Z; dt_day : Z;
  dt_hour : Z; dt_minute : Z; dt_second : Z;
  dt_microsecond : Z
}.

Definition digit (n : Z) : ascii := ascii_of_N (Z.to_N (48 + n mod 10)).

(** [n] in decimal, zero-padded to [w] digits. *)
Fixpoint zpad (w : nat) (n : Z) : string :=
  match w with
  | O => ""
  | S w' => zpad w' (n / 10) ++ String (digit n) ""
  end.

Definition date_text (t : datetime) : string :=
  zpad 4 (dt_year t) ++ "-" ++ zpad 2 (dt_month t) ++ "-" ++ zpad 2 (dt_day t).

Definition time_text (t : datetime) : string :=
  zpad 2 (dt_hour t) ++ ":" ++ zpad 2 (dt_minute t) ++ ":" ++ zpad 2 (dt_second t).

(** [datetime.isoformat()]: [YYYY-MM-DDTHH:MM:SS], followed by [.ffffff]
    when the microsecond is not zero. *)
Definition isoformat (t : datetime) : string :=
  date_text t ++ "T" ++ time_text t ++
  (if dt_microsecond t =? 0 then "" else "." ++ zpad 6 (dt_microsecond t)).

(** The text SQLite stores for [CURRENT_TIMESTAMP]: [YYYY-MM-DD HH:MM:SS]. *)
Definition current_timestamp (t : datetime) : string :=
  date_text t ++ " " ++ time_text t.

(** Chronological order of two readings of one clock. *)
Definition dt_key (t : datetime) : list Z :=
  [dt_year t; dt_month t; dt_day t; dt_hour t; dt_minute t; dt_second t;
   dt_microsecond t].

Fixpoint lex_leb (a b : list Z) : bool :=
  match a, b with
  | x :: a', y :: b' => (x <? y) || ((x =? y) && lex_leb a' b')
  | [], _ => true
  | _ :: _, [] => false
  end.

Definition dt_leb (a b : datetime) : bool := lex_leb (dt_key a) (dt_key b).

(** What one call reads from the clocks: Python's [datetime.now()] and the
    instant SQLite uses for [CURRENT_TIMESTAMP]. *)
Record clock : Type := mkClock {
  py_now : datetime;
  sql_now : datetime
}.

End Clock.
Import Clock.

(* ===================================================================== *)
(** ** SQLite values and the two tables *)
(* ===================================================================== *)

Module Sql.

(** [COALESCE(?, col)] *)
Definition coalesce {A} (param col : option A) : option A :=
  match param with
  | Some v => Some v
  | None => col
  end.

(** Comparison of two TEXT values (BINARY collation). *)
Definition text_ge (a b : string) : bool :=
  match String.compare a b with
  | Lt => false
  | _ => true
  end.

(** [a = ?] on TEXT: a NULL parameter matches nothing. *)
Definition text_eq_param (col : string) (param : option string) : bool :=
  match param with
  | Some p => String.eqb col p
  | None => false
  end.

(** The rowid an AUTOINCREMENT column gives to a new row: one more than the
    largest rowid of the table (rows are never deleted). *)
Definition next_rowid (ids : list Z) : Z := 1 + fold_right Z.max 0 ids.

End Sql.
Import Sql.

(** One element of the [price_history] JSON array: [{"price": p, "date": d}]. *)
Record price_point : Type := mkPricePoint {
  pp_price : option Z;
  pp_date : string
}.

(** A row of table [listings]. *)
Record listing_row : Type := mkListing {
  l_id : Z;
  l_source : string;
  l_listing_id : string;
  l_make : string;
  l_model : string;
  l_year : Z;
  l_trim : option string;
  l_price : option Z;
  l_msrp : option Z;
  l_mileage : option Z;
  l_dealer_name : option string;
  l_dealer_phone : option string;
  l_dealer_address : option string;
  l_listing_url : option string;
  l_vin : option string;
  l_stock_number : option string;
  l_first_seen : string;
  l_last_seen : string;
  l_price_history : list price_point
}.

(** A row of table [price_alerts]. *)
Record alert_row : Type := mkAlert {
  pa_id : Z;
  pa_listing_id : Z;
  pa_old_price : option Z;
  pa_new_price : option Z;
  pa_change_date : string;
  pa_notified : Z
}.

Record db : Type := mkDb {
  listings : list listing_row;
  price_alerts : list alert_row
}.

Definition empty_db : db := mkDb [] [].

(** The dictionary a scraper hands to [upsert_listing].  The five keys read
    with [listing[...]] are entries; the others are read with [listing.get]
    and hold the value that call returns. *)
Record candidate : Type := mkCandidate {
  c_source : entry string;
  c_listing_id : entry string;
  c_make : entry string;
  c_model : entry string;
  c_year : entry Z;
  c_trim : option string;
  c_price : option Z;
  c_msrp : option Z;
  c_mileage : option Z;
  c_dealer_name : option string;
  c_dealer_phone : option string;
  c_dealer_address : option string;
  c_listing_url : option string;
  c_vin : option string;
  c_stock_number : option string
}.

(* ===================================================================== *)
(** ** Exceptions and database actions *)
(* ===================================================================== *)

Inductive exn : Type :=
| KeyError (key : string)
| IntegrityError (column : string).

Inductive result (A : Type) : Type :=
| Ok (a : A)
| Raise (e : exn).
Arguments Ok {A} a.
Arguments Raise {A} e.

(** A database action: it may raise, and it threads the database. *)
Definition DB (A : Type) : Type := db -> result A * db.

Definition ret {A} (a : A) : DB A := fun d => (Ok a, d).
Definition raise {A} (e : exn) : DB A := fun d => (Raise e, d).
Definition bind {A B} (m : DB A) (k : A -> DB B) : DB B :=
  fun d =>
    match m d with
    | (Ok a, d') => k a d'
    | (Raise e, d') => (Raise e, d')
    end.

Declare Scope db_scope.
Delimit Scope db_scope with db.
Notation "x <- m ;; k" := (bind m (fun x => k))
  (at level 100, m at next level, right associativity) : db_scope.
Notation "m ;;; k" := (bind m (fun _ => k))
  (at level 100, right associativity) : db_scope.

(** [listing[key]] *)
Definition getitem {A} (key : string) (e : entry A) : DB (option A) :=
  match e with
  | Absent => raise (KeyError key)
  | PyNone => ret None
  | Val a => ret (Some a)
  end.

(** A connection that is opened, used and committed.  The changes of a body
    that raises are never committed. *)
Definition with_commit {A} (body : DB A) : DB A :=
  fun d =>
    match body d with
    | (Ok a, d') => (Ok a, d')
    | (Raise e, _) => (Raise e, d)
    end.

(** A NOT NULL column given a parameter. *)
Definition not_null {A} (column : string) (v : option A) : DB A :=
  match v with
  | Some a => ret a
  | None => raise (IntegrityError column)
  end.

(* ===================================================================== *)
(** ** [upsert_listing] *)
(* ===================================================================== *)

(** The first component of the pair [upsert_listing] returns. *)
Inductive action : Type := inserted | updated | unchanged.

(** [a != b] on two optional integers is the negation of this. *)
Definition price_eqb (a b : option Z) : bool :=
  match a, b with
  | Some x, Some y => x =? y
  | None, None => true
  | _, _ => false
  end.

(** [old_price and new_price and old_price != new_price] *)
Definition price_change_detected (old_price new_price : option Z) : bool :=
  truthy old_price && truthy new_price && negb (price_eqb old_price new_price).

(** The row filter of [WHERE source = ? AND listing_id = ?]. *)
Definition same_identity (src lid : option string) (r : listing_row) : bool :=
  text_eq_param (l_source r) src && text_eq_param (l_listing_id r) lid.

(** [SELECT id, price, price_history FROM listings WHERE source = ? AND
    listing_id = ?] followed by [fetchone()]. *)
Definition select_existing (src lid : option string) : DB (option listing_row) :=
  fun d => (Ok (find (same_identity src lid) (listings d)), d).

(** [INSERT INTO price_alerts (listing_id, old_price, new_price)]: the id is
    the next rowid, [change_date] defaults to CURRENT_TIMESTAMP and
    [notified] to 0. *)
Definition insert_price_alert (clk : clock) (listing_id : Z)
    (old_price new_price : option Z) : DB unit :=
  fun d =>
    (Ok tt,
     mkDb (listings d)
          (price_alerts d ++
           [mkAlert (next_rowid (map pa_id (price_alerts d))) listing_id
                    old_price new_price (current_timestamp (sql_now clk)) 0])%list).

(** [UPDATE listings SET ... WHERE id = ?] *)
Definition update_where_id (id : Z) (set : listing_row -> listing_row) : DB unit :=
  fun d =>
    (Ok tt,
     mkDb (map (fun r => if l_id r =? id then set r else r) (listings d))
          (price_alerts d)).

(** The SET clause of the update of the price-change branch. *)
Definition set_price_change (new_price : option Z) (now : string)
    (price_history : list price_point) (listing : candidate)
    (r : listing_row) : listing_row :=
  mkListing (l_id r) (l_source r) (l_listing_id r) (l_make r) (l_model r) (l_year r)
    (coalesce (c_trim listing) (l_trim r))
    new_price
    (coalesce (c_msrp listing) (l_msrp r))
    (coalesce (c_mileage listing) (l_mileage r))
    (coalesce (c_dealer_name listing) (l_dealer_name r))
    (coalesce (c_dealer_phone listing) (l_dealer_phone r))
    (coalesce (c_dealer_address listing) (l_dealer_address r))
    (l_listing_url r)
    (coalesce (c_vin listing) (l_vin r))
    (coalesce (c_stock_number listing) (l_stock_number r))
    (l_first_seen r)
    now
    price_history.

(** The SET clause of the update of the other branch. *)
Definition set_last_seen (now : string) (listing : candidate)
    (r : listing_row) : listing_row :=
  mkListing (l_id r) (l_source r) (l_listing_id r) (l_make r) (l_model r) (l_year r)
    (coalesce (c_trim listing) (l_trim r))
    (l_price r)
    (coalesce (c_msrp listing) (l_msrp r))
    (coalesce (c_mileage listing) (l_mileage r))
    (coalesce (c_dealer_name listing) (l_dealer_name r))
    (coalesce (c_dealer_phone listing) (l_dealer_phone r))
    (coalesce (c_dealer_address listing) (l_dealer_address r))
    (l_listing_url r)
    (coalesce (c_vin listing) (l_vin r))
    (coalesce (c_stock_number listing) (l_stock_number r))
    (l_first_seen r)
    now
    (l_price_history r).

(** The row [INSERT INTO listings (...) VALUES (...)] adds. *)
Definition new_row (id : Z) (src lid mk md : string) (yr : Z) (now : string)
    (listing : candidate) : listing_row :=
  mkListing id src lid mk md yr
    (c_trim listing) (c_price listing) (c_msrp listing) (c_mileage listing)
    (c_dealer_name listing) (c_dealer_phone listing) (c_dealer_address listing)
    (c_listing_url listing) (c_vin listing) (c_stock_number listing)
    now now [].

(** The insert: the five NOT NULL columns refuse None.  (The UNIQUE
    constraint cannot fail here: the insert runs only after the select found
    no row of this identity.) *)
Definition insert_listing (src lid mk md : option string) (yr : option Z)
    (now : string) (listing : candidate) : DB unit :=
  (s <- not_null "source" src ;;
   l <- not_null "listing_id" lid ;;
   m <- not_null "make" mk ;;
   o <- not_null "model" md ;;
   y <- not_null "year" yr ;;
   fun d =>
     (Ok tt,
      mkDb (listings d ++
            [new_row (next_rowid (map l_id (listings d))) s l m o y now listing])%list
           (price_alerts d)))%db.

Definition upsert_listing (clk : clock) (listing : candidate) : DB (action * bool) :=
  with_commit
    (src <- getitem "source" (c_source listing) ;;
     lid <- getitem "listing_id" (c_listing_id listing) ;;
     existing <- select_existing src lid ;;
     let now := isoformat (py_now clk) in
     match existing with
     | Some ex =>
         let old_price := l_price ex in
         let new_price := c_price listing in
         if price_change_detected old_price new_price then
           let price_history :=
             (l_price_history ex ++ [mkPricePoint old_price now])%list in
           (insert_price_alert clk (l_id ex) old_price new_price ;;;
            update_where_id (l_id ex)
              (set_price_change new_price now price_history listing) ;;;
            ret (updated, true))
         else
           (update_where_id (l_id ex) (set_last_seen now listing) ;;;
            ret (unchanged, false))
     | None =>
         mk <- getitem "make" (c_make listing) ;;
         md <- getitem "model" (c_model listing) ;;
         yr <- getitem "year" (c_year listing) ;;
         insert_listing src lid mk md yr now listing ;;;
         ret (inserted, false)
     end)%db.

(** *** The processing loop of [run_full_scrape] *)

Record stats : Type := mkStats {
  n_inserted : Z;
  n_updated : Z;
  n_unchanged : Z;
  n_price_drops : Z
}.

(** [stats[action] += 1], and [stats["price_drops"] += 1] on a price change. *)
Definition count (st : stats) (r : action * bool) : stats :=
  let '(a, price_changed) := r in
  let st' :=
    match a with
    | inserted => mkStats (n_inserted st + 1) (n_updated st) (n_unchanged st) (n_price_drops st)
    | updated => mkStats (n_inserted st) (n_updated st + 1) (n_unchanged st) (n_price_drops st)
    | unchanged => mkStats (n_inserted st) (n_updated st) (n_unchanged st + 1) (n_price_drops st)
    end in
  if price_changed
  then mkStats (n_inserted st') (n_updated st') (n_unchanged st') (n_price_drops st' + 1)
  else st'.

(** [for listing in all_listings: ...]; each listing comes with the clock
    readings of its call.  An exception of [upsert_listing] is not caught:
    it ends the loop. *)
Fixpoint process_listings (all_listings : list (clock * candidate)) (st : stats)
    : DB stats :=
  match all_listings with
  | [] => ret st
  | (clk, listing) :: rest =>
      (r <- upsert_listing clk listing ;;
       process_listings rest (count st r))%db
  end.

(* ===================================================================== *)
(** ** [apply_filters] *)
(* ===================================================================== *)

(** The FILTERS dictionary.  [min_discount_percent] is a Python number, an
    integer or a float, given by its value. *)
Record filters : Type := mkFilters {
  price_min : option Z;
  price_max : option Z;
  mileage_max : option Z;
  trims_include : list string;
  trims_exclude : list string;
  dealers_include : list string;
  dealers_exclude : list string;
  keywords_exclude : list string;
  year_min : option Z;
  year_max : option Z;
  only_price_drops : bool;
  min_discount_percent : option Q
}.

(** The module-level FILTERS as the file ships it: nothing is set. *)
Definition FILTERS_default : filters :=
  mkFilters None None None [] [] [] [] [] None None false None.

(** [bound and x < bound] *)
Definition below (x : Z) (bound : option Z) : bool :=
  match bound with
  | Some b => negb (b =? 0) && (x <? b)
  | None => false
  end.

(** [bound and x > bound] *)
Definition above (x : Z) (bound : option Z) : bool :=
  match bound with
  | Some b => negb (b =? 0) && (x >? b)
  | None => false
  end.

(** Each check is true when the loop body does not [continue] at it. *)

Definition price_check (f : filters) (listing : listing_row) : bool :=
  match l_price listing with
  | Some price =>
      if negb (price =? 0) then
        if below price (price_min f) then false
        else if above price (price_max f) then false
        else true
      else true
  | None => true
  end.

Definition mileage_check (f : filters) (listing : listing_row) : bool :=
  match l_mileage listing with
  | Some mileage =>
      if truthy (mileage_max f) && negb (mileage =? 0)
         && above mileage (mileage_max f)
      then false else true
  | None => true
  end.

Definition year_check (f : filters) (listing : listing_row) : bool :=
  let year := l_year listing in
  if negb (year =? 0) then
    if below year (year_min f) then false
    else if above year (year_max f) then false
    else true
  else true.

(** [any(t.lower() in text for t in words)] *)
Definition any_in (words : list string) (text : string) : bool :=
  any (fun t => contains (lower t) text) words.

Definition trim_check (f : filters) (listing : listing_row) : bool :=
  let trim := lower (or_empty (l_trim listing)) in
  (if nonempty (trims_include f)
   then any_in (trims_include f) trim else true)
  && (if nonempty (trims_exclude f)
      then negb (any_in (trims_exclude f) trim) else true).

Definition dealer_check (f : filters) (listing : listing_row) : bool :=
  let dealer := lower (or_empty (l_dealer_name listing)) in
  (if nonempty (dealers_include f)
   then any_in (dealers_include f) dealer else true)
  && (if nonempty (dealers_exclude f)
      then negb (any_in (dealers_exclude f) dealer) else true).

Definition keyword_check (f : filters) (listing : listing_row) : bool :=
  let trim := lower (or_empty (l_trim listing)) in
  if nonempty (keywords_exclude f) then
    let text_to_check :=
      lower (trim ++ " " ++ l_make listing ++ " " ++ l_model listing) in
    negb (any_in (keywords_exclude f) text_to_check)
  else true.

(** The integer nearest to [n / d], the even one of two that are equally
    near ([0 <= n], [0 < d]). *)
Definition round_half_even (n d : Z) : Z :=
  let q := n / d in
  match 2 * (n mod d) ?= d with
  | Lt => q
  | Gt => q + 1
  | Eq => if Z.even q then q else q + 1
  end.

(** The exponent [e] with [2 ^ e <= n / d < 2 ^ (e + 1)] ([0 < n], [0 < d]). *)
Definition floor_log2 (n d : Z) : Z :=
  let e := Z.log2 n - Z.log2 d in
  if n * 2 ^ Z.max 0 (- e) <? d * 2 ^ Z.max 0 e then e - 1 else e.

(** The float that a Python operation with exact result [x] returns: [x]
    rounded to 53 significant bits (to the multiples of [2 ^ -1074] below the
    normal range), to nearest, ties to even.  The sign of a zero plays no
    part in a comparison and is not kept.  Results of [2 ^ 1024] and more, an
    [OverflowError] or [inf] in Python, are out of reach of the 64-bit
    integers of an SQLite row and are rounded like the others. *)
Definition binary64 (x : Q) : Q :=
  let n := Z.abs (Qnum x) in
  let d := Zpos (Qden x) in
  if n =? 0 then 0%Q
  else
    let q := Z.max (floor_log2 n d - 52) (-1074) in
    let m := round_half_even (n * 2 ^ Z.max 0 (- q)) (d * 2 ^ Z.max 0 q) in
    let s := Z.sgn (Qnum x) in
    if 0 <=? q then inject_Z (s * m * 2 ^ q)
    else (s * m) # Z.to_pos (2 ^ (- q)).

(** [((msrp - price) / msrp) * 100]: the true division of two integers gives
    the float nearest to their quotient, the product with [100] the float
    nearest to the product. *)
Definition discount_pct (msrp price : Z) : Q :=
  binary64 (binary64 (inject_Z (msrp - price) / inject_Z msrp) * 100).

Definition Qltb (a b : Q) : bool := negb (Qle_bool b a).

Definition discount_check (f : filters) (listing : listing_row) : bool :=
  match min_discount_percent f with
  | Some threshold =>
      if negb (Qeq_bool threshold 0) then
        match l_msrp listing, l_price listing with
        | Some msrp, Some price =>
            if negb (msrp =? 0) && negb (price =? 0) then
              if Qltb (discount_pct msrp price) threshold then false else true
            else if msrp =? 0 then true      (* elif not msrp: pass *)
            else true
        | None, _ => true                    (* elif not msrp: pass *)
        | Some _, None => true
        end
      else true
  | None => true
  end.

Definition price_drops_check (f : filters) (listing : listing_row) : bool :=
  if only_price_drops f then nonempty (l_price_history listing) else true.

(** The listing reaches [filtered.append(listing)]. *)
Definition keep (f : filters) (listing : listing_row) : bool :=
  price_check f listing && mileage_check f listing && year_check f listing
  && trim_check f listing && dealer_check f listing && keyword_check f listing
  && discount_check f listing && price_drops_check f listing.

(** [apply_filters(listings, filters=None)]; [FILTERS] is the module-level
    dictionary used when no [filters] argument is given. *)
Definition apply_filters (FILTERS : filters) (listings : list listing_row)
    (flt : option filters) : list listing_row :=
  let f := match flt with Some f => f | None => FILTERS end in
  filter (keep f) listings.

(* ===================================================================== *)
(** ** [get_listings] and [get_price_drops] *)
(* ===================================================================== *)

(** [ORDER BY]: rows are put in the order of [leb], rows that compare equal
    keep their table order. *)
Section OrderBy.
Context {A : Type} (leb : A -> A -> bool).

Fixpoint insert_sorted (x : A) (l : list A) : list A :=
  match l with
  | [] => [x]
  | y :: l' => if leb x y then x :: l else y :: insert_sorted x l'
  end.

Definition order_by (l : list A) : list A := fold_right insert_sorted [] l.

End OrderBy.

(** SQLite's order of an INTEGER column under ASC: NULL is smaller than
    every integer. *)
Definition price_asc (a b : option Z) : bool :=
  match a, b with
  | None, _ => true
  | Some _, None => false
  | Some x, Some y => x <=? y
  end.

(** [if make: query += " AND LOWER(make) = LOWER(?)"] *)
Definition lower_matches (col : string) (param : option string) : bool :=
  match param with
  | Some (String c r) => String.eqb (lower col) (lower (String c r))
  | _ => true
  end.

Definition get_listings (FILTERS : filters) (make model : option string)
    (use_filters : bool) (d : db) : list listing_row :=
  let rows :=
    order_by (fun a b => price_asc (l_price a) (l_price b))
      (filter (fun r => lower_matches (l_make r) make
                        && lower_matches (l_model r) model)
              (listings d)) in
  if use_filters then apply_filters FILTERS rows None else rows.

(** A row of the join of [get_price_drops]: [pa.*] and six columns of the
    listing. *)
Record drop_row : Type := mkDrop {
  d_id : Z;
  d_listing_id : Z;
  d_old_price : option Z;
  d_new_price : option Z;
  d_change_date : string;
  d_notified : Z;
  d_make : string;
  d_model : string;
  d_year : Z;
  d_trim : option string;
  d_dealer_name : option string;
  d_listing_url : option string
}.

Definition join_row (pa : alert_row) (l : listing_row) : drop_row :=
  mkDrop (pa_id pa) (pa_listing_id pa) (pa_old_price pa) (pa_new_price pa)
         (pa_change_date pa) (pa_notified pa)
         (l_make l) (l_model l) (l_year l) (l_trim l) (l_dealer_name l)
         (l_listing_url l).

(** [price_alerts pa JOIN listings l ON pa.listing_id = l.id] *)
Definition join_alerts (d : db) : list drop_row :=
  flat_map
    (fun pa =>
       map (join_row pa)
           (filter (fun l => pa_listing_id pa =? l_id l) (listings d)))
    (price_alerts d).

(** [get_price_drops(days)]; [cutoff] is the value of
    [datetime.now() - timedelta(days=days)]. *)
Definition get_price_drops (cutoff : datetime) (d : db) : list drop_row :=
  order_by (fun a b => text_ge (d_change_date a) (d_change_date b))
    (filter (fun r => text_ge (d_change_date r) (isoformat cutoff))
            (join_alerts d)).

(* ===================================================================== *)
(** ** Vocabulary of the statements *)
(* ===================================================================== *)

(** The stored listing of identity [(s, l)], as [upsert_listing] finds it. *)
Definition lookup (s l : string) (d : db) : option listing_row :=
  find (same_identity (Some s) (Some l)) (listings d).

(** The database after an action. *)
Definition db_after {A} (m : DB A) (d : db) : db := snd (m d).

(** What an action returned or raised. *)
Definition outcome {A} (m : DB A) (d : db) : result A := fst (m d).

(** A row with another [last_seen]. *)
Definition with_last_seen (t : string) (r : listing_row) : listing_row :=
  mkListing (l_id r) (l_source r) (l_listing_id r) (l_make r) (l_model r)
    (l_year r) (l_trim r) (l_price r) (l_msrp r) (l_mileage r)
    (l_dealer_name r) (l_dealer_phone r) (l_dealer_address r)
    (l_listing_url r) (l_vin r) (l_stock_number r) (l_first_seen r) t
    (l_price_history r).

(** The row the first merge of [c] into [d], at the text time [t], adds. *)
Definition first_row (c : candidate) (d : db) (s l mk md : string) (yr : Z)
    (t : string) : listing_row :=
  new_row (next_rowid (map l_id (listings d))) s l mk md yr t c.

(** The store [d] after that first merge, with [last_seen] of the new row
    set to [u]. *)
Definition seen_at (c : candidate) (d : db) (s l mk md : string) (yr : Z)
    (t u : string) : db :=
  mkDb (listings d ++ [with_last_seen u (first_row c d s l mk md yr t)])%list
       (price_alerts d).

(** A required key that is not there, or is bound to None. *)
Definition missing {A} (e : entry A) : Prop := e = Absent \/ e = PyNone.

(** A candidate that lacks an identity field or make, model or year. *)
Definition malformed (c : candidate) : Prop :=
  missing (c_source c) \/ missing (c_listing_id c) \/ missing (c_make c)
  \/ missing (c_model c) \/ missing (c_year c).

(** The identity of the candidate is in the store. *)
Definition stored (c : candidate) (d : db) : Prop :=
  exists s l ex,
    c_source c = Val s /\ c_listing_id c = Val l /\ lookup s l d = Some ex.

(** A filter configuration in which only the two price bounds may be set. *)
Definition price_bounds_only (mn mx : option Z) : filters :=
  mkFilters mn mx None [] [] [] [] [] None None false None.

(** The price [p] is excluded by a bound of the configuration: a bound is
    in force when it is set and not 0. *)
Definition outside_bounds (mn mx : option Z) (p : Z) : Prop :=
  (exists b, mn = Some b /\ b <> 0 /\ p < b)
  \/ (exists b, mx = Some b /\ b <> 0 /\ p > b).

(** Ascending by price, rows without a price first. *)
Definition price_le_nulls_first (a b : listing_row) : Prop :=
  match l_price a, l_price b with
  | None, _ => True
  | Some _, None => False
  | Some x, Some y => x <= y
  end.

(** Last-known-value update of one field: the candidate's value when it has
    one, the stored value otherwise. *)
Definition last_known {A} (cand old new : option A) : Prop :=
  (forall v, cand = Some v -> new = Some v) /\ (cand = None -> new = old).

(** *** The specification's reading, where it differs from the code *)

(** "both values are non-null and unequal" *)
Definition spec_price_change (old new : option Z) : Prop :=
  exists o n, old = Some o /\ new = Some n /\ o <> n.

(** "ascending by price (nulls last)" *)
Definition spec_price_le_nulls_last (a b : listing_row) : Prop :=
  match l_price a, l_price b with
  | _, None => True
  | None, Some _ => False
  | Some x, Some y => x <= y
  end.

(** "listings priced outside [min,max]": a known price below the minimum or
    above the maximum. *)
Definition spec_priced_outside (mn mx : Z) (r : listing_row) : Prop :=
  exists p, l_price r = Some p /\ (p < mn \/ mx < p).

(** *** Sample data *)

(** A Tundra of cars.com, listing 123, as a scraper builds it. *)
Definition tundra (year : entry Z) (trim : option string)
    (price msrp : option Z) : candidate :=
  mkCandidate (Val "cars.com") (Val "123") (Val "Toyota") (Val "Tundra") year
    trim price msrp None (Some "Toyota Escondido") None None None None None.

(** An F-150 of autotrader, listing 77. *)
Definition f150 (price : option Z) : candidate :=
  mkCandidate (Val "autotrader") (Val "77") (Val "Ford") (Val "F-150")
    (Val 2025) (Some "XLT") price None None None None None None None None.

(** Both clocks reading the same instant, on a whole second. *)
Definition at_instant (y mo dd h mi s : Z) : clock :=
  mkClock (mkDatetime y mo dd h mi s 0) (mkDatetime y mo dd h mi s 0).

Definition clk_oct20 : clock := at_instant 2026 10 20 9 0 0.
Definition clk_oct26 : clock := at_instant 2026 10 26 12 0 0.
Definition clk_oct27_evening : clock := at_instant 2026 10 27 18 0 0.
Definition clk_nov02 : clock := at_instant 2026 11 2 12 0 0.

(** Noon of 27 October 2026: seven days before noon of 3 November. *)
Definition cutoff_oct27_noon : datetime := mkDatetime 2026 10 27 12 0 0 0.

(** A stored row with nothing but a price and an MSRP. *)
Definition listed (id : Z) (price msrp : option Z) : listing_row :=
  mkListing id "cars.com" "x" "Toyota" "Tundra" 2025 None price msrp None
    None None None None None None "" "" [].

(** A stored row with nothing but a price. *)
Definition priced (id : Z) (price : option Z) : listing_row :=
  listed id price None.

(** A configuration that asks for at least 5 percent off the MSRP. *)
Definition five_percent_off : filters :=
  mkFilters None None None [] [] [] [] [] None None false (Some 5%Q).

Definition no_stats : stats := mkStats 0 0 0 0.

(** A candidate of the identity of the Tundra that names another make,
    model, year and URL. *)
Definition relabelled : candidate :=
  mkCandidate (Val "cars.com") (Val "123") (Val "Ford") (Val "F-150")
    (Val 1999) None (Some 43000) None None None None None
    (Some "https://example.test/other") None None.

(** A Tundra stored on 20 October at 45000 whose price then changes on
    26 October at noon, on 27 October at 18:00 and on 2 November at noon; the
    last candidate also renames the trim. *)
Definition window_store : db :=
  db_after (upsert_listing clk_nov02
              (tundra (Val 2025) (Some "Limited") (Some 42000) None))
    (db_after (upsert_listing clk_oct27_evening
                 (tundra (Val 2025) None (Some 43000) None))
       (db_after (upsert_listing clk_oct26
                    (tundra (Val 2025) None (Some 44000) None))
          (db_after (upsert_listing clk_oct20
                       (tundra (Val 2025) (Some "SR5") (Some 45000) None))
                    empty_db))).

(* ===================================================================== *)
(** ** [get_listing_by_id], and the stores the program builds *)
(* ===================================================================== *)

(** [SELECT * FROM listings WHERE id = ?] followed by [fetchone()]. *)
Definition get_listing_by_id (listing_id : Z) (d : db) : option listing_row :=
  find (fun r => l_id r =? listing_id) (listings d).

(** The stores the program can build: the tables [init_database] creates,
    empty, and then any sequence of calls of [upsert_listing], the only
    function that writes. *)
Inductive reachable : db -> Prop :=
| reachable_empty : reachable empty_db
| reachable_upsert (clk : clock) (c : candidate) (d : db) :
    reachable d -> reachable (db_after (upsert_listing clk c) d).

(** The key of the UNIQUE constraint. *)
Definition identity (r : listing_row) : string * string :=
  (l_source r, l_listing_id r).

(** The rowids [1, 2, ..., n]. *)
Definition first_rowids (n : nat) : list Z := map Z.of_nat (seq 1 n).

(** The alerts of one listing, oldest first. *)
Definition alerts_of (id : Z) (d : db) : list alert_row :=
  filter (fun pa => pa_listing_id pa =? id) (price_alerts d).

(** A price alert as the merge writes it: it points to a stored listing and
    holds two prices, non-null, not 0 and different. *)
Definition alert_ok (d : db) (pa : alert_row) : Prop :=
  (exists r, In r (listings d) /\ l_id r = pa_listing_id pa)
  /\ exists o n,
       pa_old_price pa = Some o /\ pa_new_price pa = Some n
       /\ o <> 0 /\ n <> 0 /\ o <> n.

(** The price history of a listing holds the old prices of its alerts. *)
Definition history_ok (d : db) (r : listing_row) : Prop :=
  map pp_price (l_price_history r) = map pa_old_price (alerts_of (l_id r) d).

(** A sequence of price alerts that leads from the price [p] to the price
    [q]: the old price of each alert is the price reached before it. *)
Inductive price_path : option Z -> list alert_row -> option Z -> Prop :=
| path_nil (p : option Z) : price_path p [] p
| path_cons (p q : option Z) (a : alert_row) (al : list alert_row) :
    pa_old_price a = p -> price_path (pa_new_price a) al q ->
    price_path p (a :: al) q.

Record consistent (d : db) : Prop := mkConsistent {
  listing_ids : map l_id (listings d) = first_rowids (List.length (listings d));
  alert_ids :
    map pa_id (price_alerts d) = first_rowids (List.length (price_alerts d));
  identities : NoDup (map identity (listings d));
  alerts_ok : Forall (alert_ok d) (price_alerts d);
  histories_ok : Forall (history_ok d) (listings d)
}.

(** The stored price of every listing is where its alerts lead. *)
Definition paths_ok (d : db) : Prop :=
  forall r, In r (listings d) ->
            exists p, price_path p (alerts_of (l_id r) d) (l_price r).

(* ===================================================================== *)
(** ** Vocabulary of the statements on filters *)
(* ===================================================================== *)

(** [needle] occurs in [hay]. *)
Definition occurs_in (needle hay : string) : Prop :=
  exists pre post, hay = pre ++ needle ++ post.

(** Some word of [words] occurs, in lower case, in [text]. *)
Definition some_word_in (words : list string) (text : string) : Prop :=
  exists w, In w words /\ occurs_in (lower w) text.

(** The configuration with all its words in lower case. *)
Definition lower_words (f : filters) : filters :=
  mkFilters (price_min f) (price_max f) (mileage_max f)
    (map lower (trims_include f)) (map lower (trims_exclude f))
    (map lower (dealers_include f)) (map lower (dealers_exclude f))
    (map lower (keywords_exclude f))
    (year_min f) (year_max f) (only_price_drops f) (min_discount_percent f).

(** The listing with its trim, dealer name, make and model in lower case. *)
Definition lower_texts (r : listing_row) : listing_row :=
  mkListing (l_id r) (l_source r) (l_listing_id r)
    (lower (l_make r)) (lower (l_model r)) (l_year r)
    (option_map lower (l_trim r)) (l_price r) (l_msrp r) (l_mileage r)
    (option_map lower (l_dealer_name r)) (l_dealer_phone r)
    (l_dealer_address r) (l_listing_url r) (l_vin r) (l_stock_number r)
    (l_first_seen r) (l_last_seen r) (l_price_history r).

(** No option of the configuration is in force: every one is None, 0, an
    empty list or False. *)
Definition inactive (f : filters) : Prop :=
  truthy (price_min f) = false /\ truthy (price_max f) = false
  /\ truthy (mileage_max f) = false
  /\ trims_include f = [] /\ trims_exclude f = []
  /\ dealers_include f = [] /\ dealers_exclude f = []
  /\ keywords_exclude f = []
  /\ truthy (year_min f) = false /\ truthy (year_max f) = false
  /\ only_price_drops f = false
  /\ truthyQ (min_discount_percent f) = false.

(** A stored Tundra TRD Pro of the dealer Toyota Escondido. *)
Definition trd_pro : listing_row :=
  mkListing 1 "cars.com" "9" "Toyota" "Tundra" 2025 (Some "TRD Pro")
    (Some 62000) (Some 65000) (Some 12) (Some "Toyota Escondido")
    None None None None None "" "" [].


(** A configuration that sets nothing but the mileage and year bounds. *)
Definition mileage_year_only (mileage ymin ymax : option Z) : filters :=
  mkFilters None None mileage [] [] [] [] [] ymin ymax false None.

(** A Tundra of the given model year and mileage. *)
Definition used (id year : Z) (mileage : option Z) : listing_row :=
  mkListing id "cars.com" "x" "Toyota" "Tundra" year None (Some 45000) None
    mileage None None None None None None "" "" [].

(* ===================================================================== *)
(** ** Vocabulary of the statements on time *)
(* ===================================================================== *)

(** A reading a clock can give. *)
Definition valid_datetime (t : datetime) : Prop :=
  1 <= dt_year t <= 9999 /\ 1 <= dt_month t <= 12 /\ 1 <= dt_day t <= 31
  /\ 0 <= dt_hour t <= 23 /\ 0 <= dt_minute t <= 59
  /\ 0 <= dt_second t <= 59 /\ 0 <= dt_microsecond t <= 999999.

(** The calendar day of a reading, and the reading to the second. *)
Definition day_of (t : datetime) : list Z := [dt_year t; dt_month t; dt_day t].

Definition second_of (t : datetime) : list Z :=
  [dt_year t; dt_month t; dt_day t; dt_hour t; dt_minute t; dt_second t].

(** Comparison of two lists of numbers, first difference first. *)
Fixpoint lex_compare (a b : list Z) : comparison :=
  match a, b with
  | [], [] => Eq
  | [], _ :: _ => Lt
  | _ :: _, [] => Gt
  | x :: a', y :: b' =>
      match x ?= y with
      | Eq => lex_compare a' b'
      | c => c
      end
  end.

(* ===================================================================== *)
(** ** [get_active_filters_summary] and the filter overrides of [main] *)
(* ===================================================================== *)

(** [str(n)] for an integer. *)
Definition str_int (n : Z) : string := NilZero.string_of_int (Z.to_int n).

(** A run of decimal digits with a comma before every group of three that
    follows. *)
Fixpoint thousands (digits : string) : string :=
  match digits with
  | EmptyString => EmptyString
  | String c rest =>
      String c
        (if (0 <? String.length rest)%nat
            && (String.length rest mod 3 =? 0)%nat
         then "," ++ thousands rest
         else thousands rest)
  end.

(** [f"{n:,}"] for an integer. *)
Definition format_thousands (n : Z) : string :=
  (if n <? 0 then "-" else "") ++ thousands (str_int (Z.abs n)).

(** [if FILTERS.get(key): active.append(render(FILTERS[key]))], for an
    integer option and for a list option. *)
Definition when_int (v : option Z) (render : Z -> string) : list string :=
  match v with
  | Some n => if negb (n =? 0) then [render n] else []
  | None => []
  end.

Definition when_words (v : list string) (render : list string -> string)
    : list string :=
  if nonempty v then [render v] else [].

(** [get_active_filters_summary()]; [str_number] is the text Python gives
    for the number held by [min_discount_percent]. *)
Definition get_active_filters_summary (str_number : Q -> string)
    (FILTERS : filters) : string :=
  let active :=
    (when_int (price_min FILTERS)
       (fun n => ("Price >= $" ++ format_thousands n)%string)
     ++ when_int (price_max FILTERS)
          (fun n => ("Price <= $" ++ format_thousands n)%string)
     ++ when_int (mileage_max FILTERS)
          (fun n => ("Mileage <= " ++ format_thousands n)%string)
     ++ when_int (year_min FILTERS) (fun n => ("Year >= " ++ str_int n)%string)
     ++ when_int (year_max FILTERS) (fun n => ("Year <= " ++ str_int n)%string)
     ++ when_words (trims_include FILTERS)
          (fun l => ("Trims: " ++ String.concat ", " l)%string)
     ++ when_words (trims_exclude FILTERS)
          (fun l => ("Excluding trims: " ++ String.concat ", " l)%string)
     ++ when_words (dealers_include FILTERS)
          (fun l => ("Dealers: " ++ String.concat ", " l)%string)
     ++ when_words (dealers_exclude FILTERS)
          (fun l => ("Excluding dealers: " ++ String.concat ", " l)%string)
     ++ when_words (keywords_exclude FILTERS)
          (fun l => ("Excluding: " ++ String.concat ", " l)%string)
     ++ match min_discount_percent FILTERS with
        | Some q =>
            if negb (Qeq_bool q 0)
            then [("Min " ++ str_number q ++ "% off MSRP")%string] else []
        | None => []
        end
     ++ (if only_price_drops FILTERS then ["Only price drops"] else []))%list
  in
  if nonempty active then String.concat " | " active else "None".

(** A text that starts with a character other than the letter N. *)
Definition entry_ok (s : string) : Prop :=
  exists c rest, s = String c rest /\ c <> "N"%char.

(** The characters [str.strip()] removes, among the ASCII ones. *)
Definition is_space (c : ascii) : bool :=
  let n := N_of_ascii c in
  (((9 <=? n) && (n <=? 13)) || ((28 <=? n) && (n <=? 32)))%N.

Fixpoint lstrip (s : string) : string :=
  match s with
  | EmptyString => EmptyString
  | String c rest => if is_space c then lstrip rest else s
  end.

Fixpoint rstrip (s : string) : string :=
  match s with
  | EmptyString => EmptyString
  | String c rest =>
      match rstrip rest with
      | EmptyString => if is_space c then EmptyString else String c EmptyString
      | kept => String c kept
      end
  end.

(** [s.strip()] *)
Definition strip (s : string) : string := rstrip (lstrip s).

(** [s.split(",")] *)
Fixpoint split_commas (s : string) : list string :=
  match s with
  | EmptyString => [EmptyString]
  | String c rest =>
      if Ascii.eqb c ","
      then EmptyString :: split_commas rest
      else match split_commas rest with
           | piece :: pieces => String c piece :: pieces
           | [] => [String c EmptyString]
           end
  end.

(** The filter arguments of the command line; an argument that was not
    given is None, a flag that was not given is false. *)
Record cli_args : Type := mkArgs {
  a_price_min : option Z;
  a_price_max : option Z;
  a_trim : option string;
  a_dealer : option string;
  a_year : option Z;
  a_no_filter : bool
}.

Definition truthy_text (s : option string) : bool :=
  match s with
  | Some (String _ _) => true
  | _ => false
  end.

(** [[t.strip() for t in text.split(",")]] *)
Definition words_of (text : option string) : list string :=
  map strip (split_commas (or_empty text)).

(** The six steps of [main] that write FILTERS. *)
Definition set_price_min (a : cli_args) (f : filters) : filters :=
  if truthy (a_price_min a)
  then mkFilters (a_price_min a) (price_max f) (mileage_max f)
         (trims_include f) (trims_exclude f) (dealers_include f)
         (dealers_exclude f) (keywords_exclude f) (year_min f) (year_max f)
         (only_price_drops f) (min_discount_percent f)
  else f.

Definition set_price_max (a : cli_args) (f : filters) : filters :=
  if truthy (a_price_max a)
  then mkFilters (price_min f) (a_price_max a) (mileage_max f)
         (trims_include f) (trims_exclude f) (dealers_include f)
         (dealers_exclude f) (keywords_exclude f) (year_min f) (year_max f)
         (only_price_drops f) (min_discount_percent f)
  else f.

Definition set_trims_include (a : cli_args) (f : filters) : filters :=
  if truthy_text (a_trim a)
  then mkFilters (price_min f) (price_max f) (mileage_max f)
         (words_of (a_trim a)) (trims_exclude f) (dealers_include f)
         (dealers_exclude f) (keywords_exclude f) (year_min f) (year_max f)
         (only_price_drops f) (min_discount_percent f)
  else f.

Definition set_dealers_include (a : cli_args) (f : filters) : filters :=
  if truthy_text (a_dealer a)
  then mkFilters (price_min f) (price_max f) (mileage_max f)
         (trims_include f) (trims_exclude f) (words_of (a_dealer a))
         (dealers_exclude f) (keywords_exclude f) (year_min f) (year_max f)
         (only_price_drops f) (min_discount_percent f)
  else f.

Definition set_year_min (a : cli_args) (f : filters) : filters :=
  if truthy (a_year a)
  then mkFilters (price_min f) (price_max f) (mileage_max f)
         (trims_include f) (trims_exclude f) (dealers_include f)
         (dealers_exclude f) (keywords_exclude f) (a_year a) (year_max f)
         (only_price_drops f) (min_discount_percent f)
  else f.

(** [--no-filter]: every list becomes [[]], the flag False, the rest None. *)
Definition clear_filters (a : cli_args) (f : filters) : filters :=
  if a_no_filter a
  then mkFilters None None None [] [] [] [] [] None None false None
  else f.

(** FILTERS after the overrides of [main], from FILTERS before them. *)
Definition cli_overrides (a : cli_args) (FILTERS : filters) : filters :=
  clear_filters a
    (set_year_min a
       (set_dealers_include a
          (set_trims_include a
             (set_price_max a
                (set_price_min a FILTERS))))).

(** No filter argument given. *)
Definition no_args : cli_args := mkArgs None None None None None false.

(* ===================================================================== *)
(** ** The figures at the head of the report *)
(* ===================================================================== *)

(** [rows[0]["price"] if rows else None] *)
Definition first_price (rows : list listing_row) : option Z :=
  match rows with
  | r :: _ => l_price r
  | [] => None
  end.

(** The statistics [generate_html_report] computes before it writes the
    page: [total_listings], [best_tundra] and [best_f150]. *)
Record report_figures : Type := mkFigures {
  total_listings : nat;
  best_tundra : option Z;
  best_f150 : option Z
}.

Definition report_stats (FILTERS : filters) (d : db) : report_figures :=
  let tundras := get_listings FILTERS (Some "toyota") (Some "tundra") true d in
  let f150s := get_listings FILTERS (Some "ford") (Some "f-150") true d in
  mkFigures (List.length tundras + List.length f150s)
            (first_price tundras) (first_price f150s).

(* ===================================================================== *)
(** ** Lemmas on the store *)
(* ===================================================================== *)

Section StoreFacts.

Lemma find_map_stable {A} (p : A -> bool) (f : A -> A) (l : list A) :
  (forall x, p (f x) = p x) ->
  find p (map f l) = option_map f (find p l).
Proof.
  intros Hp. induction l as [|x l IH]; simpl; [reflexivity|].
  rewrite Hp. destruct (p x); [reflexivity | exact IH].
Qed.

Lemma find_none_app {A} (p : A -> bool) (l : list A) (x : A) :
  find p l = None -> p x = true -> find p (l ++ [x]) = Some x.
Proof.
  induction l as [|y l IH]; simpl; intros Hn Hx.
  - now rewrite Hx.
  - destruct (p y); [discriminate | now apply IH].
Qed.

Lemma find_never {A} (p : A -> bool) (l : list A) :
  (forall x, p x = false) -> find p l = None.
Proof.
  intros Hp. induction l as [|y l IH]; simpl; [reflexivity|].
  now rewrite Hp.
Qed.

Lemma same_identity_refl (s l : string) (r : listing_row) :
  l_source r = s -> l_listing_id r = l ->
  same_identity (Some s) (Some l) r = true.
Proof.
  intros <- <-. unfold same_identity; simpl.
  now rewrite !String.eqb_refl.
Qed.

Lemma same_identity_found (s l : string) (rows : list listing_row) (ex : listing_row) :
  find (same_identity (Some s) (Some l)) rows = Some ex ->
  l_source ex = s /\ l_listing_id ex = l.
Proof.
  intros H. apply find_some in H as [_ H].
  unfold same_identity in H; simpl in H.
  apply andb_true_iff in H as [H1 H2].
  now apply String.eqb_eq in H1, H2.
Qed.

(** Every rowid of a table is below the next one. *)
Lemma below_next_rowid (ids : list Z) :
  Forall (fun i => i < next_rowid ids) ids.
Proof.
  unfold next_rowid. induction ids as [|i ids IH]; constructor;
    cbn [fold_right].
  - lia.
  - eapply Forall_impl; [|exact IH]. cbv beta. intros; lia.
Qed.

(** An update by id leaves the rows of other ids alone. *)
Lemma update_other_ids (id : Z) (set : listing_row -> listing_row) rows :
  Forall (fun r => l_id r < id) rows ->
  map (fun r => if l_id r =? id then set r else r) rows = rows.
Proof.
  induction 1 as [|r rows Hr _ IH]; simpl; [reflexivity|].
  rewrite IH. destruct (Z.eqb_spec (l_id r) id); [lia | reflexivity].
Qed.

Lemma last_cons_default {A} (x u : A) (l : list A) :
  last (x :: l) u = last l x.
Proof.
  revert x u. induction l as [|y l IH]; intros x u; [reflexivity|].
  change (last (x :: y :: l) u) with (last (y :: l) u).
  now rewrite !IH.
Qed.

Lemma coalesce_same {A} (v : option A) : coalesce v v = v.
Proof. now destruct v. Qed.

Lemma price_change_detected_iff (old new : option Z) :
  price_change_detected old new = true <->
  exists o n, old = Some o /\ new = Some n /\ o <> 0 /\ n <> 0 /\ o <> n.
Proof.
  unfold price_change_detected, truthy, price_eqb. split.
  - destruct old as [o|], new as [n|]; simpl; try discriminate;
      rewrite ?andb_false_r; try discriminate.
    intros H. apply andb_true_iff in H as [H H3].
    apply andb_true_iff in H as [H1 H2].
    apply negb_true_iff in H1, H2, H3.
    exists o, n. repeat split; auto; intros E; subst;
      rewrite ?Z.eqb_refl in *; discriminate.
  - intros (o & n & -> & -> & Ho & Hn & Hne).
    destruct (Z.eqb_spec o 0), (Z.eqb_spec n 0), (Z.eqb_spec o n);
      simpl; congruence.
Qed.

Lemma price_change_detected_same (p : option Z) :
  price_change_detected p p = false.
Proof.
  destruct (price_change_detected p p) eqn:E; [|reflexivity].
  apply price_change_detected_iff in E as (o & n & -> & H & _ & _ & Hne).
  congruence.
Qed.

End StoreFacts.

(* ===================================================================== *)
(** ** The two paths of [upsert_listing] *)
(* ===================================================================== *)

Section UpsertPaths.

Variables (clk : clock) (c : candidate) (d : db).

(** The merge onto a stored listing. *)
Lemma upsert_listing_existing (s l : string) (ex : listing_row) :
  c_source c = Val s -> c_listing_id c = Val l -> lookup s l d = Some ex ->
  upsert_listing clk c d =
  let now := isoformat (py_now clk) in
  if price_change_detected (l_price ex) (c_price c) then
    (Ok (updated, true),
     mkDb (map (fun r =>
                  if l_id r =? l_id ex
                  then set_price_change (c_price c) now
                         (l_price_history ex ++ [mkPricePoint (l_price ex) now])%list
                         c r
                  else r) (listings d))
          (price_alerts d ++
           [mkAlert (next_rowid (map pa_id (price_alerts d))) (l_id ex)
                    (l_price ex) (c_price c)
                    (current_timestamp (sql_now clk)) 0])%list)
  else
    (Ok (unchanged, false),
     mkDb (map (fun r => if l_id r =? l_id ex then set_last_seen now c r else r)
               (listings d))
          (price_alerts d)).
Proof.
  intros Hs Hl Hf. unfold lookup in Hf.
  unfold upsert_listing, with_commit, bind, select_existing.
  rewrite Hs, Hl. cbn [getitem ret]. rewrite Hf. cbv zeta.
  destruct (price_change_detected (l_price ex) (c_price c)); reflexivity.
Qed.

(** The first merge of a well-formed candidate. *)
Lemma upsert_listing_insert (s l mk md : string) (yr : Z) :
  c_source c = Val s -> c_listing_id c = Val l ->
  c_make c = Val mk -> c_model c = Val md -> c_year c = Val yr ->
  lookup s l d = None ->
  upsert_listing clk c d =
  (Ok (inserted, false),
   mkDb (listings d ++
         [new_row (next_rowid (map l_id (listings d))) s l mk md yr
                  (isoformat (py_now clk)) c])%list
        (price_alerts d)).
Proof.
  intros Hs Hl Hmk Hmd Hyr Hf. unfold lookup in Hf.
  unfold upsert_listing, with_commit, bind, select_existing.
  rewrite Hs, Hl, Hmk, Hmd, Hyr. cbn [getitem ret]. rewrite Hf.
  reflexivity.
Qed.

End UpsertPaths.

(** After an update by the id of the row found, the lookup finds the
    updated row. *)
Lemma lookup_after_update (s l : string) (rows : list listing_row)
    (ex : listing_row) (set : listing_row -> listing_row) :
  find (same_identity (Some s) (Some l)) rows = Some ex ->
  (forall r, l_source (set r) = l_source r) ->
  (forall r, l_listing_id (set r) = l_listing_id r) ->
  find (same_identity (Some s) (Some l))
       (map (fun r => if l_id r =? l_id ex then set r else r) rows)
  = Some (set ex).
Proof.
  intros Hf Hsrc Hlid. rewrite find_map_stable.
  - rewrite Hf. simpl. now rewrite Z.eqb_refl.
  - intros r. destruct (l_id r =? l_id ex); [|reflexivity].
    unfold same_identity. now rewrite Hsrc, Hlid.
Qed.

(** A merge that detects no price change writes neither a price, nor a
    price alert, nor a history entry. *)
Lemma upsert_listing_no_change clk c d s l ex :
  c_source c = Val s -> c_listing_id c = Val l -> lookup s l d = Some ex ->
  price_change_detected (l_price ex) (c_price c) = false ->
  outcome (upsert_listing clk c) d = Ok (unchanged, false)
  /\ price_alerts (db_after (upsert_listing clk c) d) = price_alerts d
  /\ lookup s l (db_after (upsert_listing clk c) d)
     = Some (set_last_seen (isoformat (py_now clk)) c ex).
Proof.
  intros Hs Hl Hf Hno. unfold outcome, db_after.
  rewrite (upsert_listing_existing clk c d s l ex Hs Hl Hf). cbv zeta.
  rewrite Hno. cbn [fst snd price_alerts]. repeat split.
  unfold lookup. cbn [listings]. now apply lookup_after_update.
Qed.

(** A merge that detects a price change. *)
Lemma upsert_listing_change clk c d s l ex :
  c_source c = Val s -> c_listing_id c = Val l -> lookup s l d = Some ex ->
  price_change_detected (l_price ex) (c_price c) = true ->
  let now := isoformat (py_now clk) in
  outcome (upsert_listing clk c) d = Ok (updated, true)
  /\ price_alerts (db_after (upsert_listing clk c) d)
     = (price_alerts d ++
        [mkAlert (next_rowid (map pa_id (price_alerts d))) (l_id ex)
                 (l_price ex) (c_price c) (current_timestamp (sql_now clk)) 0])%list
  /\ lookup s l (db_after (upsert_listing clk c) d)
     = Some (set_price_change (c_price c) now
               (l_price_history ex ++ [mkPricePoint (l_price ex) now])%list c ex).
Proof.
  intros Hs Hl Hf Hyes now. unfold outcome, db_after.
  rewrite (upsert_listing_existing clk c d s l ex Hs Hl Hf). cbv zeta.
  rewrite Hyes. cbn [fst snd price_alerts]. repeat split.
  unfold lookup. cbn [listings]. now apply lookup_after_update.
Qed.

(* ===================================================================== *)
(** ** Price-change detection *)
(* ===================================================================== *)

(** C1, as the code has it.  For every merge of a candidate whose identity
    is already stored, a price change is detected if and only if the stored
    price and the candidate price are both non-null, both different from 0,
    and unequal.  When it is detected the merge returns [('updated', True)],
    appends exactly one price alert with old = stored price and new =
    candidate price, sets the stored price to the candidate price and
    appends exactly one entry (stored price, now) to the price history.
    Otherwise it returns [('unchanged', False)]. *)
Theorem C1_price_change_detection clk c d s l ex :
  c_source c = Val s -> c_listing_id c = Val l -> lookup s l d = Some ex ->
  let now := isoformat (py_now clk) in
  let r := outcome (upsert_listing clk c) d in
  let d' := db_after (upsert_listing clk c) d in
  (r = Ok (updated, true) <->
   exists o n, l_price ex = Some o /\ c_price c = Some n
               /\ o <> 0 /\ n <> 0 /\ o <> n)
  /\ (r = Ok (updated, true) \/ r = Ok (unchanged, false))
  /\ (r = Ok (updated, true) ->
      price_alerts d'
      = (price_alerts d ++
         [mkAlert (next_rowid (map pa_id (price_alerts d))) (l_id ex)
                  (l_price ex) (c_price c)
                  (current_timestamp (sql_now clk)) 0])%list
      /\ exists ex',
           lookup s l d' = Some ex'
           /\ l_price ex' = c_price c
           /\ l_price_history ex'
              = (l_price_history ex ++ [mkPricePoint (l_price ex) now])%list).
Proof.
  intros Hs Hl Hf now r d'. subst r d'.
  rewrite <- price_change_detected_iff.
  destruct (price_change_detected (l_price ex) (c_price c)) eqn:E.
  - destruct (upsert_listing_change clk c d s l ex Hs Hl Hf E) as (Ho & Ha & Hr).
    rewrite Ho. split; [tauto|]. split; [now left|]. intros _. split; [exact Ha|].
    eexists. split; [exact Hr|]. split; reflexivity.
  - destruct (upsert_listing_no_change clk c d s l ex Hs Hl Hf E) as (Ho & _ & _).
    rewrite Ho. split; [|split; [now right | discriminate]].
    split; [discriminate | discriminate].
Qed.

(** The theorem at the example of the specification: 45000, then 43000. *)
Lemma C1_price_change_detection_witness :
  let d := db_after (upsert_listing clk_oct20
                       (tundra (Val 2025) (Some "SR5") (Some 45000) None)) empty_db in
  let c := tundra (Val 2025) None (Some 43000) None in
  outcome (upsert_listing clk_oct27_evening c) d = Ok (updated, true)
  /\ map (fun a => (pa_old_price a, pa_new_price a))
         (price_alerts (db_after (upsert_listing clk_oct27_evening c) d))
     = [(Some 45000, Some 43000)].
Proof.
  intros d c.
  destruct (C1_price_change_detection clk_oct27_evening c d "cars.com" "123"
              (new_row 1 "cars.com" "123" "Toyota" "Tundra" 2025
                 "2026-10-20T09:00:00"
                 (tundra (Val 2025) (Some "SR5") (Some 45000) None))
              eq_refl eq_refl eq_refl) as (Hiff & _ & Heff).
  assert (Hr : outcome (upsert_listing clk_oct27_evening c) d = Ok (updated, true)).
  { apply Hiff. exists 45000, 43000. repeat split; try reflexivity; lia. }
  split; [exact Hr|].
  destruct (Heff Hr) as (Ha & _). rewrite Ha. reflexivity.
Defined.

(** C1 as stated fails when a price is 0: the stored price 0 and the
    candidate price 45000 are both non-null and unequal, and no price change
    is detected. *)
Lemma C1_zero_price_counterexample :
  let d := db_after (upsert_listing clk_oct20
                       (tundra (Val 2025) None (Some 0) None)) empty_db in
  let c := tundra (Val 2025) None (Some 45000) None in
  exists ex,
    lookup "cars.com" "123" d = Some ex
    /\ spec_price_change (l_price ex) (c_price c)
    /\ outcome (upsert_listing clk_oct27_evening c) d = Ok (unchanged, false)
    /\ price_alerts (db_after (upsert_listing clk_oct27_evening c) d) = [].
Proof.
  intros d c. eexists. split; [reflexivity|]. split.
  - exists 0, 45000. repeat split; lia.
  - split; reflexivity.
Qed.

(* ===================================================================== *)
(** ** Null-preserving merge *)
(* ===================================================================== *)

Lemma last_known_coalesce {A} (cand old : option A) :
  last_known cand old (coalesce cand old).
Proof.
  unfold last_known, coalesce.
  destruct cand; split; congruence.
Qed.

(** C4.  For every merge onto an existing listing, whether or not a price
    change occurred, each of trim, msrp, mileage, dealer_name, dealer_phone,
    dealer_address, vin and stock_number is set to the candidate's value
    when that value is non-null and keeps its stored value when the
    candidate's value is null. *)
Theorem C4_null_preserving_merge clk c d s l ex :
  c_source c = Val s -> c_listing_id c = Val l -> lookup s l d = Some ex ->
  exists ex',
    lookup s l (db_after (upsert_listing clk c) d) = Some ex'
    /\ last_known (c_trim c) (l_trim ex) (l_trim ex')
    /\ last_known (c_msrp c) (l_msrp ex) (l_msrp ex')
    /\ last_known (c_mileage c) (l_mileage ex) (l_mileage ex')
    /\ last_known (c_dealer_name c) (l_dealer_name ex) (l_dealer_name ex')
    /\ last_known (c_dealer_phone c) (l_dealer_phone ex) (l_dealer_phone ex')
    /\ last_known (c_dealer_address c) (l_dealer_address ex) (l_dealer_address ex')
    /\ last_known (c_vin c) (l_vin ex) (l_vin ex')
    /\ last_known (c_stock_number c) (l_stock_number ex) (l_stock_number ex').
Proof.
  intros Hs Hl Hf.
  destruct (price_change_detected (l_price ex) (c_price c)) eqn:E.
  - destruct (upsert_listing_change clk c d s l ex Hs Hl Hf E) as (_ & _ & Hr).
    eexists. split; [exact Hr|].
    cbn [set_price_change l_trim l_msrp l_mileage l_dealer_name l_dealer_phone
         l_dealer_address l_vin l_stock_number].
    repeat split; apply last_known_coalesce.
  - destruct (upsert_listing_no_change clk c d s l ex Hs Hl Hf E) as (_ & _ & Hr).
    eexists. split; [exact Hr|].
    cbn [set_last_seen l_trim l_msrp l_mileage l_dealer_name l_dealer_phone
         l_dealer_address l_vin l_stock_number].
    repeat split; apply last_known_coalesce.
Qed.

(** The theorem at the example of the specification: trim "SR5", then a
    candidate of the same identity without a trim. *)
Lemma C4_null_preserving_merge_witness :
  let d := db_after (upsert_listing clk_oct20
                       (tundra (Val 2025) (Some "SR5") (Some 45000) None)) empty_db in
  let c := tundra (Val 2025) None (Some 45000) None in
  exists ex',
    lookup "cars.com" "123" (db_after (upsert_listing clk_oct26 c) d) = Some ex'
    /\ l_trim ex' = Some "SR5".
Proof.
  intros d c.
  destruct (C4_null_preserving_merge clk_oct26 c d "cars.com" "123"
              (new_row 1 "cars.com" "123" "Toyota" "Tundra" 2025
                 "2026-10-20T09:00:00"
                 (tundra (Val 2025) (Some "SR5") (Some 45000) None))
              eq_refl eq_refl eq_refl) as (ex' & Hr & (_ & Htrim) & _).
  exists ex'. split; [exact Hr|]. exact (Htrim eq_refl).
Defined.

(* ===================================================================== *)
(** ** A price of 0 *)
(* ===================================================================== *)

(** With only the price bounds configured, a listing is kept exactly when it
    passes the price check. *)
Lemma keep_price_bounds_only (mn mx : option Z) (r : listing_row) :
  keep (price_bounds_only mn mx) r = price_check (price_bounds_only mn mx) r.
Proof.
  unfold keep, mileage_check, year_check, trim_check, dealer_check,
    keyword_check, discount_check, price_drops_check, price_bounds_only.
  cbn. destruct (l_mileage r); destruct (l_year r =? 0); cbn;
    now rewrite ?andb_true_r.
Qed.

Lemma price_check_zero (f : filters) (r : listing_row) :
  l_price r = Some 0 -> price_check f r = true.
Proof. intros H. unfold price_check. now rewrite H. Qed.

Lemma price_check_null (f : filters) (r : listing_row) :
  l_price r = None -> price_check f r = true.
Proof. intros H. unfold price_check. now rewrite H. Qed.

(** C10.  A price of 0 counts as an absent price.  In a merge where the
    stored price or the candidate price is 0, no price change is detected:
    the outcome is [('unchanged', False)], no price alert is added and the
    price history is as it was.  In filtering, a listing whose price is 0
    passes the price check under every configuration, so no price bound
    excludes it. *)
Theorem C10_zero_price_is_absent :
  (forall clk c d s l ex,
      c_source c = Val s -> c_listing_id c = Val l -> lookup s l d = Some ex ->
      l_price ex = Some 0 \/ c_price c = Some 0 ->
      outcome (upsert_listing clk c) d = Ok (unchanged, false)
      /\ price_alerts (db_after (upsert_listing clk c) d) = price_alerts d
      /\ exists ex',
           lookup s l (db_after (upsert_listing clk c) d) = Some ex'
           /\ l_price_history ex' = l_price_history ex)
  /\ (forall FILTERS f rows r,
         l_price r = Some 0 ->
         price_check f r = true
         /\ (In r rows ->
             forall mn mx,
               In r (apply_filters FILTERS rows (Some (price_bounds_only mn mx))))).
Proof.
  split.
  - intros clk c d s l ex Hs Hl Hf Hz.
    assert (E : price_change_detected (l_price ex) (c_price c) = false).
    { destruct (price_change_detected (l_price ex) (c_price c)) eqn:E;
        [|reflexivity].
      apply price_change_detected_iff in E
        as (o & n & Ho & Hn & Ho0 & Hn0 & _).
      destruct Hz as [Hz|Hz]; congruence. }
    destruct (upsert_listing_no_change clk c d s l ex Hs Hl Hf E)
      as (Ho & Ha & Hr).
    split; [exact Ho|]. split; [exact Ha|].
    eexists. split; [exact Hr | reflexivity].
  - intros G f rows r Hz. split; [now apply price_check_zero|].
    intros Hin mn mx. unfold apply_filters. apply filter_In. split; [exact Hin|].
    rewrite keep_price_bounds_only. now apply price_check_zero.
Qed.

(** The theorem at a stored price of 0 met by a candidate price of 45000,
    and at a listing priced 0 under the bounds 40000 and 50000. *)
Lemma C10_zero_price_is_absent_witness :
  (let d := db_after (upsert_listing clk_oct20
                        (tundra (Val 2025) None (Some 0) None)) empty_db in
   outcome (upsert_listing clk_oct26 (tundra (Val 2025) None (Some 45000) None)) d
   = Ok (unchanged, false))
  /\ In (priced 1 (Some 0))
        (apply_filters FILTERS_default [priced 1 (Some 0)]
           (Some (price_bounds_only (Some 40000) (Some 50000)))).
Proof.
  split.
  - intros d.
    exact (proj1 (proj1 C10_zero_price_is_absent clk_oct26
                    (tundra (Val 2025) None (Some 45000) None) d
                    "cars.com" "123"
                    (new_row 1 "cars.com" "123" "Toyota" "Tundra" 2025
                       "2026-10-20T09:00:00"
                       (tundra (Val 2025) None (Some 0) None))
                    eq_refl eq_refl eq_refl (or_introl eq_refl))).
  - exact (proj2 (proj2 C10_zero_price_is_absent FILTERS_default
                    FILTERS_default [priced 1 (Some 0)] (priced 1 (Some 0))
                    eq_refl)
                 (or_introl eq_refl) (Some 40000) (Some 50000)).
Defined.

(* ===================================================================== *)
(** ** A price that was never known *)
(* ===================================================================== *)

(** Without a detected price change the stored price is not written, what
    ever the candidate's price is. *)
Lemma stored_price_kept_without_detection clk c d s l ex :
  c_source c = Val s -> c_listing_id c = Val l -> lookup s l d = Some ex ->
  price_change_detected (l_price ex) (c_price c) = false ->
  exists ex',
    lookup s l (db_after (upsert_listing clk c) d) = Some ex'
    /\ l_price ex' = l_price ex
    /\ l_price_history ex' = l_price_history ex.
Proof.
  intros Hs Hl Hf E.
  destruct (upsert_listing_no_change clk c d s l ex Hs Hl Hf E) as (_ & _ & Hr).
  eexists. split; [exact Hr|]. split; reflexivity.
Qed.

(** C2 as stated fails.  A listing is first stored without a price; the
    next candidate of the same identity has the price 45000.  No price alert
    and no history entry are created, as C2 says, but the candidate's price
    does not overwrite the null stored price: the update of the no-change
    branch does not write the price column, and the stored price stays
    null. *)
Example C2_null_stored_price_is_not_filled :
  let d := db_after (upsert_listing clk_oct20
                       (tundra (Val 2025) (Some "SR5") None None)) empty_db in
  let c := tundra (Val 2025) (Some "SR5") (Some 45000) None in
  let d' := db_after (upsert_listing clk_oct26 c) d in
  option_map l_price (lookup "cars.com" "123" d) = Some None
  /\ c_price c = Some 45000
  /\ outcome (upsert_listing clk_oct26 c) d = Ok (unchanged, false)
  /\ price_alerts d' = []
  /\ option_map l_price_history (lookup "cars.com" "123" d') = Some []
  /\ option_map l_price (lookup "cars.com" "123" d') = Some None.
Proof. cbv zeta. repeat split. Qed.

(** C2, as the code has it.  In every merge of a candidate into a stored
    listing where the stored price is null or the candidate's price is null,
    the outcome is [('unchanged', False)], no price alert is created and no
    price-history entry is appended, and the price column is left as it
    was: a null stored price stays null whatever price the candidate
    supplies, and a stored price is not erased by a candidate without a
    price. *)
Theorem C2_null_price_transition clk c d s l ex :
  c_source c = Val s -> c_listing_id c = Val l -> lookup s l d = Some ex ->
  l_price ex = None \/ c_price c = None ->
  outcome (upsert_listing clk c) d = Ok (unchanged, false)
  /\ price_alerts (db_after (upsert_listing clk c) d) = price_alerts d
  /\ exists ex',
       lookup s l (db_after (upsert_listing clk c) d) = Some ex'
       /\ l_price_history ex' = l_price_history ex
       /\ l_price ex' = l_price ex.
Proof.
  intros Hs Hl Hf Hnull.
  assert (E : price_change_detected (l_price ex) (c_price c) = false).
  { destruct (price_change_detected (l_price ex) (c_price c)) eqn:E;
      [|reflexivity].
    apply price_change_detected_iff in E as (o & n & Ho & Hn & _).
    destruct Hnull as [H|H]; congruence. }
  destruct (upsert_listing_no_change clk c d s l ex Hs Hl Hf E)
    as (Ho & Ha & _).
  destruct (stored_price_kept_without_detection clk c d s l ex Hs Hl Hf E)
    as (ex' & Hr & Hp & Hh).
  split; [exact Ho|]. split; [exact Ha|].
  exists ex'. repeat split; assumption.
Qed.

(** The theorem at a listing stored without a price that is met by a
    candidate priced 45000. *)
Lemma C2_null_price_transition_witness :
  exists ex',
    lookup "cars.com" "123"
      (db_after (upsert_listing clk_oct26
                   (tundra (Val 2025) (Some "SR5") (Some 45000) None))
         (db_after (upsert_listing clk_oct20
                      (tundra (Val 2025) (Some "SR5") None None)) empty_db))
    = Some ex'
    /\ l_price_history ex' = []
    /\ l_price ex' = None.
Proof.
  exact (proj2 (proj2
    (C2_null_price_transition clk_oct26
       (tundra (Val 2025) (Some "SR5") (Some 45000) None)
       (db_after (upsert_listing clk_oct20
                    (tundra (Val 2025) (Some "SR5") None None)) empty_db)
       "cars.com" "123" _ eq_refl eq_refl eq_refl (or_introl eq_refl)))).
Defined.

(* ===================================================================== *)
(** ** Merging the same candidate again *)
(* ===================================================================== *)

Section MergeAgain.

Variables (c : candidate) (d : db).
Variables (s l mk md : string) (yr : Z).
Hypothesis Hs : c_source c = Val s.
Hypothesis Hl : c_listing_id c = Val l.
Hypothesis Hfresh : lookup s l d = None.

Lemma lookup_new_row (t u : string) :
  lookup s l (seen_at c d s l mk md yr t u)
  = Some (with_last_seen u (first_row c d s l mk md yr t)).
Proof.
  unfold lookup, seen_at. cbn [listings].
  apply find_none_app; [exact Hfresh|].
  now apply same_identity_refl.
Qed.

Lemma set_last_seen_same (t u v : string) :
  set_last_seen v c (with_last_seen u (first_row c d s l mk md yr t))
  = with_last_seen v (first_row c d s l mk md yr t).
Proof.
  unfold set_last_seen, with_last_seen, first_row, new_row. cbn.
  now rewrite !coalesce_same.
Qed.

(** One more merge of [c]: only [last_seen] moves. *)
Lemma merge_again (clk : clock) (t u : string) :
  upsert_listing clk c (seen_at c d s l mk md yr t u)
  = (Ok (unchanged, false),
     seen_at c d s l mk md yr t (isoformat (py_now clk))).
Proof.
  rewrite (upsert_listing_existing clk c _ s l _ Hs Hl (lookup_new_row t u)).
  cbv zeta.
  replace (l_price (with_last_seen u (first_row c d s l mk md yr t)))
    with (c_price c) by reflexivity.
  replace (l_id (with_last_seen u (first_row c d s l mk md yr t)))
    with (next_rowid (map l_id (listings d))) by reflexivity.
  rewrite price_change_detected_same.
  unfold seen_at. cbn [listings price_alerts].
  rewrite map_app, update_other_ids.
  - cbn [map].
    replace (l_id (with_last_seen u (first_row c d s l mk md yr t)))
      with (next_rowid (map l_id (listings d))) by reflexivity.
    rewrite Z.eqb_refl. now rewrite set_last_seen_same.
  - pose proof (below_next_rowid (map l_id (listings d))) as H.
    now rewrite Forall_map in H.
Qed.

(** Any number of further merges of [c]. *)
Lemma merge_again_batch (clks : list clock) (t u : string) (st : stats) :
  process_listings (map (fun k => (k, c)) clks) st
    (seen_at c d s l mk md yr t u)
  = (Ok (mkStats (n_inserted st) (n_updated st)
                 (n_unchanged st + Z.of_nat (List.length clks))
                 (n_price_drops st)),
     seen_at c d s l mk md yr t
       (last (map (fun k => isoformat (py_now k)) clks) u)).
Proof.
  revert u st. induction clks as [|k clks IH]; intros u st.
  - cbn. rewrite Z.add_0_r. now destruct st.
  - cbn [map process_listings]. unfold bind. rewrite merge_again.
    rewrite IH. cbn [count n_inserted n_updated n_unchanged n_price_drops].
    f_equal.
    + do 2 f_equal. cbn [List.length]. lia.
    + f_equal. now rewrite last_cons_default.
Qed.

End MergeAgain.

(** C3, as the code has it.  Merging a candidate whose identity is absent
    returns [('inserted', False)]; every later merge of the identical
    candidate returns [('unchanged', False)] and raises nothing; and the
    store after any number of such merges equals the store after the first
    one except for [last_seen] of the listing, which is the time of the last
    merge. *)
Theorem C3_merge_idempotent clk c d s l mk md yr :
  c_source c = Val s -> c_listing_id c = Val l ->
  c_make c = Val mk -> c_model c = Val md -> c_year c = Val yr ->
  lookup s l d = None ->
  let t := isoformat (py_now clk) in
  let row := new_row (next_rowid (map l_id (listings d))) s l mk md yr t c in
  let d1 := mkDb (listings d ++ [row]) (price_alerts d) in
  upsert_listing clk c d = (Ok (inserted, false), d1)
  /\ (forall clk2,
         upsert_listing clk2 c d1
         = (Ok (unchanged, false),
            mkDb (listings d ++ [with_last_seen (isoformat (py_now clk2)) row])
                 (price_alerts d)))
  /\ (forall clks st,
         process_listings (map (fun k => (k, c)) clks) st d1
         = (Ok (mkStats (n_inserted st) (n_updated st)
                        (n_unchanged st + Z.of_nat (List.length clks))
                        (n_price_drops st)),
            mkDb (listings d ++
                  [with_last_seen
                     (last (map (fun k => isoformat (py_now k)) clks) t) row])
                 (price_alerts d))).
Proof.
  intros Hs Hl Hmk Hmd Hyr Hfresh t row d1. split; [|split].
  - now apply upsert_listing_insert.
  - intros clk2. exact (merge_again c d s l mk md yr Hs Hl Hfresh clk2 t t).
  - intros clks st.
    exact (merge_again_batch c d s l mk md yr Hs Hl Hfresh clks t t st).
Qed.

(** The theorem at the empty store and a Tundra priced 45000. *)
Lemma C3_merge_idempotent_witness :
  let c := tundra (Val 2025) (Some "SR5") (Some 45000) None in
  outcome (upsert_listing clk_oct20 c) empty_db = Ok (inserted, false)
  /\ outcome (upsert_listing clk_oct26 c)
       (db_after (upsert_listing clk_oct20 c) empty_db)
     = Ok (unchanged, false).
Proof.
  intros c.
  destruct (C3_merge_idempotent clk_oct20 c empty_db
              "cars.com" "123" "Toyota" "Tundra" 2025
              eq_refl eq_refl eq_refl eq_refl eq_refl eq_refl)
    as (H1 & H2 & _).
  unfold outcome, db_after. rewrite H1. cbn [fst snd].
  rewrite (H2 clk_oct26). split; reflexivity.
Defined.

(** C3 as stated fails on [last_seen]: after the second merge of the
    identical candidate the stored listing is not the one the first merge
    left. *)
Lemma C3_last_seen_counterexample :
  let c := tundra (Val 2025) (Some "SR5") (Some 45000) None in
  let d1 := db_after (upsert_listing clk_oct20 c) empty_db in
  let d2 := db_after (upsert_listing clk_oct26 c) d1 in
  outcome (upsert_listing clk_oct26 c) d1 = Ok (unchanged, false)
  /\ option_map l_last_seen (lookup "cars.com" "123" d1)
     = Some "2026-10-20T09:00:00"
  /\ option_map l_last_seen (lookup "cars.com" "123" d2)
     = Some "2026-10-26T12:00:00"
  /\ d2 <> d1.
Proof.
  cbv zeta. repeat split.
  intros H. apply (f_equal (fun x => option_map l_last_seen
                                       (lookup "cars.com" "123" x))) in H.
  vm_compute in H. discriminate H.
Qed.

(* ===================================================================== *)
(** ** [ORDER BY] *)
(* ===================================================================== *)

Section OrderByFacts.

Context {A : Type} (leb : A -> A -> bool).
Hypothesis leb_total : forall a b, leb a b = true \/ leb b a = true.

Lemma insert_sorted_perm (x : A) (l : list A) :
  Permutation (x :: l) (insert_sorted leb x l).
Proof.
  induction l as [|y l IH]; cbn [insert_sorted]; [reflexivity|].
  destruct (leb x y); [reflexivity|].
  rewrite perm_swap. now constructor.
Qed.

Lemma order_by_perm (l : list A) : Permutation l (order_by leb l).
Proof.
  induction l as [|x l IH]; cbn; [constructor|].
  rewrite <- insert_sorted_perm. now constructor.
Qed.

Lemma insert_sorted_hd (x y : A) (l : list A) :
  leb y x = true ->
  HdRel (fun a b => leb a b = true) y l ->
  HdRel (fun a b => leb a b = true) y (insert_sorted leb x l).
Proof.
  intros Hyx Hl. destruct l as [|z l]; cbn [insert_sorted].
  - now constructor.
  - destruct (leb x z); constructor; [exact Hyx|].
    now inversion Hl.
Qed.

Lemma insert_sorted_sorted (x : A) (l : list A) :
  Sorted (fun a b => leb a b = true) l ->
  Sorted (fun a b => leb a b = true) (insert_sorted leb x l).
Proof.
  induction 1 as [|y l Hs IH Hhd]; cbn [insert_sorted].
  - repeat constructor.
  - destruct (leb x y) eqn:E.
    + constructor; [now constructor|]. now constructor.
    + constructor; [exact IH|].
      apply insert_sorted_hd; [|exact Hhd].
      destruct (leb_total x y) as [H|H]; [congruence | exact H].
Qed.

Lemma order_by_sorted (l : list A) :
  Sorted (fun a b => leb a b = true) (order_by leb l).
Proof.
  induction l as [|x l IH]; cbn; [constructor|].
  now apply insert_sorted_sorted.
Qed.

End OrderByFacts.

Lemma StronglySorted_filter {A} (R : A -> A -> Prop) (p : A -> bool) (l : list A) :
  StronglySorted R l -> StronglySorted R (filter p l).
Proof.
  induction 1 as [|x l Hs IH Hall]; cbn; [constructor|].
  destruct (p x); [|exact IH].
  constructor; [exact IH|].
  apply Forall_forall. intros y Hy. apply filter_In in Hy as [Hy _].
  rewrite Forall_forall in Hall. now apply Hall.
Qed.

Lemma price_asc_le (a b : listing_row) :
  price_asc (l_price a) (l_price b) = true <-> price_le_nulls_first a b.
Proof.
  unfold price_asc, price_le_nulls_first.
  destruct (l_price a), (l_price b); try tauto.
  - apply Z.leb_le.
  - split; [discriminate | contradiction].
Qed.

Lemma price_asc_total (a b : option Z) :
  price_asc a b = true \/ price_asc b a = true.
Proof.
  destruct a as [x|], b as [y|]; cbn; auto.
  destruct (Z.leb_spec x y); [now left|].
  right. apply Z.leb_le. lia.
Qed.

Lemma price_le_nulls_first_trans (a b c : listing_row) :
  price_le_nulls_first a b -> price_le_nulls_first b c ->
  price_le_nulls_first a c.
Proof.
  unfold price_le_nulls_first.
  destruct (l_price a), (l_price b), (l_price c); try tauto. lia.
Qed.

Lemma Sorted_weaken {A} (R R' : A -> A -> Prop) (l : list A) :
  (forall a b, R a b -> R' a b) -> Sorted R l -> Sorted R' l.
Proof.
  intros HR. induction 1 as [|a l _ IH Hhd]; constructor; [exact IH|].
  destruct Hhd; constructor. now apply HR.
Qed.

(** The rows of [get_listings] before the FILTERS are applied. *)
Lemma get_listings_sorted FILTERS make model d :
  StronglySorted price_le_nulls_first (get_listings FILTERS make model false d).
Proof.
  unfold get_listings.
  apply Sorted_StronglySorted.
  - intros a b c. apply price_le_nulls_first_trans.
  - eapply Sorted_weaken; [intros a b; apply price_asc_le|].
    apply (order_by_sorted (fun a b => price_asc (l_price a) (l_price b))).
    intros a b. apply price_asc_total.
Qed.

(* ===================================================================== *)
(** ** The list query *)
(* ===================================================================== *)

(** C5, as the code has it.  For every store and every optional make and
    model, the list query returns the stored listings that match, in
    ascending order of price with the listings whose price is null placed
    first (SQLite sorts NULL before every integer under ASC); with
    [use_filters] the FILTERS are applied to that sequence, which keeps the
    order. *)
Theorem C5_get_listings_order FILTERS make model d :
  let matching :=
    filter (fun r => lower_matches (l_make r) make
                     && lower_matches (l_model r) model) (listings d) in
  let rows := get_listings FILTERS make model false d in
  Permutation matching rows
  /\ StronglySorted price_le_nulls_first rows
  /\ get_listings FILTERS make model true d = apply_filters FILTERS rows None
  /\ StronglySorted price_le_nulls_first (get_listings FILTERS make model true d).
Proof.
  intros matching rows. split; [|split; [|split]].
  - apply order_by_perm.
  - apply get_listings_sorted.
  - reflexivity.
  - change (get_listings FILTERS make model true d)
      with (apply_filters FILTERS rows None).
    apply StronglySorted_filter, get_listings_sorted.
Qed.

(** C5 as stated fails on the place of the null prices: of a listing
    without a price and one priced 45000, the query returns the one without
    a price first. *)
Lemma C5_nulls_first_counterexample :
  let d := db_after (upsert_listing clk_oct26 (f150 (Some 45000)))
             (db_after (upsert_listing clk_oct20
                          (tundra (Val 2025) None None None)) empty_db) in
  let rows := get_listings FILTERS_default None None true d in
  map l_price rows = [None; Some 45000]
  /\ ~ Sorted spec_price_le_nulls_last rows.
Proof.
  cbv zeta. split; [reflexivity|].
  intros H. vm_compute in H.
  inversion H as [|a l _ Hhd]; subst.
  inversion Hhd as [|b l' Hab]; subst.
  exact Hab.
Qed.

(* ===================================================================== *)
(** ** The price bounds of [apply_filters] *)
(* ===================================================================== *)

Lemma below_true (x : Z) (bound : option Z) :
  below x bound = true <-> exists b, bound = Some b /\ b <> 0 /\ x < b.
Proof.
  unfold below. destruct bound as [b|].
  - rewrite andb_true_iff, negb_true_iff, Z.eqb_neq, Z.ltb_lt. split.
    + intros [H1 H2]. now exists b.
    + intros (b' & [= <-] & H1 & H2). now split.
  - split; [discriminate | now intros (b & [=] & _)].
Qed.

Lemma above_true (x : Z) (bound : option Z) :
  above x bound = true <-> exists b, bound = Some b /\ b <> 0 /\ x > b.
Proof.
  unfold above. destruct bound as [b|].
  - rewrite andb_true_iff, negb_true_iff, Z.eqb_neq, Z.gtb_gt. split.
    + intros [H1 H2]. now exists b.
    + intros (b' & [= <-] & H1 & H2). now split.
  - split; [discriminate | now intros (b & [=] & _)].
Qed.

Lemma price_check_true (f : filters) (r : listing_row) :
  price_check f r = true <->
  ~ (exists p, l_price r = Some p /\ p <> 0
               /\ outside_bounds (price_min f) (price_max f) p).
Proof.
  unfold price_check, outside_bounds.
  destruct (l_price r) as [p|].
  - destruct (Z.eqb_spec p 0) as [->|Hp]; cbn [negb].
    + split; [|reflexivity]. intros _ (p & [= <-] & Hp & _). now apply Hp.
    + destruct (below p (price_min f)) eqn:Eb.
      * apply below_true in Eb. split; [discriminate|].
        intros H. exfalso. apply H. exists p. auto.
      * destruct (above p (price_max f)) eqn:Ea.
        -- apply above_true in Ea. split; [discriminate|].
           intros H. exfalso. apply H. exists p. auto.
        -- split; [|reflexivity]. intros _ (q & [= <-] & _ & [H|H]).
           ++ apply below_true in H. congruence.
           ++ apply above_true in H. congruence.
  - split; [|reflexivity]. now intros _ (p & [=] & _).
Qed.

(** C6, as the code has it.  Under every configuration the filter returns
    no listing whose price is non-null, is not 0, and lies below a
    [price_min] or above a [price_max] that is set and not 0, and its price
    check never rejects a listing whose price is null.  Under a
    configuration that sets nothing but the price bounds it drops exactly
    those listings, and keeps the others in their order.  Of listings priced
    30000, 45000 and 60000, the bounds 40000 and 50000 leave exactly the one
    priced 45000. *)
Theorem C6_price_bounds FILTERS rows :
  (forall f r,
      In r (apply_filters FILTERS rows (Some f)) ->
      In r rows
      /\ ~ (exists p, l_price r = Some p /\ p <> 0
                      /\ outside_bounds (price_min f) (price_max f) p))
  /\ (forall f r, l_price r = None -> price_check f r = true)
  /\ (forall mn mx r,
         In r (apply_filters FILTERS rows (Some (price_bounds_only mn mx))) <->
         In r rows
         /\ ~ (exists p, l_price r = Some p /\ p <> 0 /\ outside_bounds mn mx p))
  /\ (forall mn mx,
         apply_filters FILTERS rows (Some (price_bounds_only mn mx))
         = filter (price_check (price_bounds_only mn mx)) rows)
  /\ apply_filters FILTERS
       [priced 1 (Some 30000); priced 2 (Some 45000); priced 3 (Some 60000)]
       (Some (price_bounds_only (Some 40000) (Some 50000)))
     = [priced 2 (Some 45000)].
Proof.
  split; [|split; [exact price_check_null | split; [|split; [|reflexivity]]]].
  - intros f r H. unfold apply_filters in H. apply filter_In in H as [Hin Hk].
    split; [exact Hin|]. apply price_check_true. unfold keep in Hk.
    repeat (apply andb_true_iff in Hk as [Hk _]). exact Hk.
  - intros mn mx r. unfold apply_filters.
    rewrite filter_In, keep_price_bounds_only, price_check_true.
    reflexivity.
  - intros mn mx. unfold apply_filters. apply filter_ext.
    intros r. apply keep_price_bounds_only.
Qed.

(** The theorem at a listing with a null price under the bounds 40000 and
    50000. *)
Lemma C6_price_bounds_witness :
  price_check (price_bounds_only (Some 40000) (Some 50000)) (priced 1 None)
  = true.
Proof.
  exact (proj1 (proj2 (C6_price_bounds FILTERS_default []))
               (price_bounds_only (Some 40000) (Some 50000)) (priced 1 None)
               eq_refl).
Defined.

(** C6 as stated fails at the price 0: it is a non-null price outside
    [40000, 50000], and the filter keeps the listing. *)
Lemma C6_zero_price_counterexample :
  spec_priced_outside 40000 50000 (priced 1 (Some 0))
  /\ apply_filters FILTERS_default [priced 1 (Some 0)]
       (Some (price_bounds_only (Some 40000) (Some 50000)))
     = [priced 1 (Some 0)].
Proof.
  split; [|reflexivity].
  exists 0. split; [reflexivity | lia].
Qed.

(* ===================================================================== *)
(** ** Price drops since a cutoff *)
(* ===================================================================== *)

Lemma text_ge_total (a b : string) :
  text_ge a b = true \/ text_ge b a = true.
Proof.
  unfold text_ge. rewrite (String.compare_antisym a b).
  destruct (String.compare b a); cbn; auto.
Qed.

(** What the query returns, on the texts as they are stored: the joined rows
    whose [change_date] is not below the text of the cutoff, in descending
    order of [change_date]. *)
Lemma get_price_drops_rows (cutoff : datetime) (d : db) :
  (forall r, In r (get_price_drops cutoff d) <->
             In r (join_alerts d)
             /\ text_ge (d_change_date r) (isoformat cutoff) = true)
  /\ Sorted (fun a b => text_ge (d_change_date a) (d_change_date b) = true)
            (get_price_drops cutoff d).
Proof.
  unfold get_price_drops. split.
  - intros r. split; intros H.
    + apply (proj1 (filter_In
                      (fun x => text_ge (d_change_date x) (isoformat cutoff))
                      r (join_alerts d))).
      eapply Permutation_in; [symmetry; apply order_by_perm | exact H].
    + eapply Permutation_in; [apply order_by_perm|].
      now apply filter_In.
  - apply (order_by_sorted
             (fun a b => text_ge (d_change_date a) (d_change_date b))).
    intros a b. apply text_ge_total.
Qed.

(** The joined rows carry the listing as it is stored when the query runs. *)
Lemma join_alerts_current (d : db) (r : drop_row) :
  In r (join_alerts d) <->
  exists pa l, In pa (price_alerts d) /\ In l (listings d)
               /\ pa_listing_id pa = l_id l /\ r = join_row pa l.
Proof.
  unfold join_alerts. rewrite in_flat_map. split.
  - intros (pa & Hpa & Hr). apply in_map_iff in Hr as (l & <- & Hl).
    apply filter_In in Hl as [Hl Hid]. apply Z.eqb_eq in Hid.
    now exists pa, l.
  - intros (pa & l & Hpa & Hl & Hid & ->). exists pa. split; [exact Hpa|].
    apply in_map, filter_In. split; [exact Hl|]. now apply Z.eqb_eq.
Qed.

Lemma compare_common_prefix (p a b : string) :
  String.compare (p ++ a) (p ++ b) = String.compare a b.
Proof.
  induction p as [|ch p IH]; cbn; [reflexivity|].
  unfold Ascii.compare. now rewrite N.compare_refl.
Qed.

(** An event of the calendar day of the cutoff is below the cutoff as a
    text, whatever the two times of day are. *)
Lemma cutoff_day_text_below (event cutoff : datetime) :
  date_text event = date_text cutoff ->
  text_ge (current_timestamp event) (isoformat cutoff) = false.
Proof.
  intros H. unfold text_ge, current_timestamp, isoformat.
  rewrite H, compare_common_prefix. reflexivity.
Qed.

(** So the query returns no event of the calendar day of its cutoff. *)
Lemma get_price_drops_skips_cutoff_day (cutoff event : datetime) (d : db)
    (r : drop_row) :
  In r (get_price_drops cutoff d) ->
  d_change_date r = current_timestamp event ->
  date_text event <> date_text cutoff.
Proof.
  intros Hin Hdate Hday.
  apply (proj1 (get_price_drops_rows cutoff d)) in Hin as [_ Hge].
  rewrite Hdate, (cutoff_day_text_below event cutoff Hday) in Hge.
  discriminate Hge.
Qed.

(** The window of the specification on [window_store], queried with the
    cutoff 27 October 12:00:00: the change of 26 October (8 days before
    3 November) is left out and the change of 2 November (1 day before) is
    returned, with the trim the listing has now; the change of 27 October at
    18:00 is left out with the rest of the cutoff day.  With a cutoff before
    all three changes they come newest first. *)
Example get_price_drops_window :
  map (fun r => (d_change_date r, d_new_price r, d_trim r))
      (get_price_drops cutoff_oct27_noon window_store)
  = [("2026-11-02 12:00:00", Some 42000, Some "Limited")]
  /\ map (fun r => (d_change_date r, d_new_price r, d_trim r))
         (get_price_drops (mkDatetime 2026 10 21 0 0 0 0) window_store)
     = [("2026-11-02 12:00:00", Some 42000, Some "Limited");
        ("2026-10-27 18:00:00", Some 43000, Some "Limited");
        ("2026-10-26 12:00:00", Some 44000, Some "Limited")].
Proof. split; reflexivity. Qed.

(** C7, at the failing input.  The price of a listing changes on
    27 October 2026 at 18:00:00; the query runs with the cutoff 27 October
    2026 12:00:00 (seven days before noon of 3 November).  The event is
    after the cutoff and is not returned: SQLite stored its [change_date]
    as "2026-10-27 18:00:00", the cutoff is the text "2026-10-27T12:00:00",
    and the two are compared as texts, where the space is below the "T".
    With a cutoff one day earlier the event is returned. *)
Example C7_event_on_cutoff_day_is_excluded :
  let d := db_after (upsert_listing clk_oct27_evening
                       (tundra (Val 2025) None (Some 43000) None))
             (db_after (upsert_listing clk_oct20
                          (tundra (Val 2025) (Some "SR5") (Some 45000) None))
                       empty_db) in
  map pa_change_date (price_alerts d) = ["2026-10-27 18:00:00"]
  /\ isoformat cutoff_oct27_noon = "2026-10-27T12:00:00"
  /\ dt_leb cutoff_oct27_noon (sql_now clk_oct27_evening) = true
  /\ get_price_drops cutoff_oct27_noon d = []
  /\ map d_change_date (get_price_drops (mkDatetime 2026 10 26 12 0 0 0) d)
     = ["2026-10-27 18:00:00"].
Proof. cbv zeta. repeat split. Qed.

(* ===================================================================== *)
(** ** The minimum discount *)
(* ===================================================================== *)

(** With the option set and both MSRP and price truthy, the listing is
    dropped exactly when its discount is below the threshold. *)
Lemma discount_check_known (f : filters) (r : listing_row)
    (threshold : Q) (msrp price : Z) :
  min_discount_percent f = Some threshold -> ~ (threshold == 0)%Q ->
  l_msrp r = Some msrp -> l_price r = Some price ->
  msrp <> 0 -> price <> 0 ->
  (discount_check f r = false <-> (discount_pct msrp price < threshold)%Q).
Proof.
  intros Hf Ht Hm Hp Hm0 Hp0. unfold discount_check, Qltb.
  rewrite Hf, Hm, Hp.
  destruct (Qeq_bool threshold 0) eqn:E0;
    [apply Qeq_bool_iff in E0; contradiction|].
  destruct (Z.eqb_spec msrp 0); [contradiction|].
  destruct (Z.eqb_spec price 0); [contradiction|].
  cbn [negb andb].
  destruct (Qle_bool threshold (discount_pct msrp price)) eqn:E; cbn [negb].
  - apply Qle_bool_iff in E. split; [discriminate|].
    intros H. exfalso. now apply (Qlt_not_le _ _ H).
  - split; [|reflexivity]. intros _. apply Qnot_le_lt.
    intros H. apply Qle_bool_iff in H. congruence.
Qed.

(** The rounding is that of the source.  The float nearest to one tenth is
    3602879701896397 / 2 ^ 55.  At an MSRP of 50000 and a price of 35500 the
    quotient 0.29 is not a float, the percentage comes out as
    28.999999999999996 (8162774324609023 / 2 ^ 48) and a threshold of 29
    drops the listing, where a discount of 2 percent and one of 10 percent
    are computed exactly. *)
Example discount_pct_is_rounded :
  (binary64 (1 # 10) == 3602879701896397 # 36028797018963968)%Q
  /\ (discount_pct 50000 35500 == 8162774324609023 # 281474976710656)%Q
  /\ (discount_pct 50000 35500 < 29)%Q
  /\ apply_filters FILTERS_default [listed 1 (Some 35500) (Some 50000)]
       (Some (mkFilters None None None [] [] [] [] [] None None false
                (Some 29%Q)))
     = []
  /\ (discount_pct 50000 49000 == 2)%Q
  /\ (discount_pct 50000 45000 == 10)%Q.
Proof. repeat apply conj; vm_compute; reflexivity. Qed.

(** With the option set, a listing without an MSRP passes the check. *)
Lemma discount_check_without_msrp (f : filters) (r : listing_row) :
  l_msrp r = None -> discount_check f r = true.
Proof.
  intros H. unfold discount_check. rewrite H.
  destruct (min_discount_percent f) as [t|]; [|reflexivity].
  now destruct (negb (Qeq_bool t 0)).
Qed.

(** C8, at the failing input.  With [min_discount_percent] set to 5, a
    listing priced 45000 that has no MSRP is returned by the filter: the
    branch for a missing MSRP does nothing.  (Of listings with an MSRP of
    50000, the one priced 49000, 2 percent off, is dropped and the one
    priced 45000, 10 percent off, is kept.) *)
Example C8_listing_without_msrp_is_kept :
  l_msrp (listed 1 (Some 45000) None) = None
  /\ apply_filters FILTERS_default [listed 1 (Some 45000) None]
       (Some five_percent_off)
     = [listed 1 (Some 45000) None]
  /\ apply_filters FILTERS_default
       [listed 2 (Some 49000) (Some 50000); listed 3 (Some 45000) (Some 50000)]
       (Some five_percent_off)
     = [listed 3 (Some 45000) (Some 50000)].
Proof. repeat split. Qed.

(* ===================================================================== *)
(** ** Candidates that lack a required field *)
(* ===================================================================== *)

Lemma select_without_source (lid : option string) (rows : list listing_row) :
  find (same_identity None lid) rows = None.
Proof. apply find_never. intros r. reflexivity. Qed.

Lemma select_without_listing_id (src : option string) (rows : list listing_row) :
  find (same_identity src None) rows = None.
Proof.
  apply find_never. intros r. unfold same_identity. cbn.
  apply andb_false_r.
Qed.

(** An exception of [upsert_listing] leaves the database as it was. *)
Lemma upsert_listing_raise_unchanged clk c d e d' :
  upsert_listing clk c d = (Raise e, d') -> d' = d.
Proof.
  unfold upsert_listing, with_commit.
  match goal with
  | |- context [match ?b d with _ => _ end] => destruct (b d) as [[a|e0] d0]
  end; intros [= ]; congruence.
Qed.

(** The loop over a batch in two parts. *)
Lemma process_listings_app pre rest st d :
  process_listings (pre ++ rest) st d =
  match process_listings pre st d with
  | (Ok st', d') => process_listings rest st' d'
  | (Raise e, d') => (Raise e, d')
  end.
Proof.
  revert st d. induction pre as [|[clk c] pre IH]; intros st d; [reflexivity|].
  cbn [app process_listings]. unfold bind.
  destruct (upsert_listing clk c d) as [[r|e] d']; [apply IH | reflexivity].
Qed.

(** A malformed candidate whose identity is not stored makes
    [upsert_listing] raise. *)
Lemma upsert_listing_malformed_raises clk c d :
  malformed c -> ~ stored c d ->
  exists e, upsert_listing clk c d = (Raise e, d).
Proof.
  intros Hmal Hns.
  assert (Hfind : forall s l,
             c_source c = Val s -> c_listing_id c = Val l ->
             find (same_identity (Some s) (Some l)) (listings d) = None).
  { intros s l Hs Hl.
    destruct (find (same_identity (Some s) (Some l)) (listings d)) as [ex|] eqn:E;
      [|reflexivity].
    exfalso. apply Hns. now exists s, l, ex. }
  unfold malformed, missing in Hmal.
  unfold upsert_listing, with_commit, bind, select_existing, insert_listing, bind.
  destruct (c_source c) as [| |s] eqn:Hs; cbn [getitem raise ret];
    [eexists; reflexivity | | ];
    (destruct (c_listing_id c) as [| |l] eqn:Hl; cbn [getitem raise ret];
     [eexists; reflexivity | | ]);
    rewrite ?select_without_source, ?select_without_listing_id,
      ?(Hfind _ _ eq_refl eq_refl);
    destruct (c_make c) as [| |mk]; cbn [getitem raise ret not_null];
    try (eexists; reflexivity);
    destruct (c_model c) as [| |md]; cbn [getitem raise ret not_null];
    try (eexists; reflexivity);
    destruct (c_year c) as [| |yr]; cbn [getitem raise ret not_null];
    try (eexists; reflexivity).
  exfalso. intuition discriminate.
Qed.

(** C9, as the code has it.  A candidate that lacks a required field and
    whose identity is not stored makes the merge raise an exception and
    leaves the store as it was; the loop of [run_full_scrape] does not catch
    it, so the exception ends the batch: the candidates after it are not
    merged, those before it stay merged.  A candidate that lacks make, model
    or year and whose identity is stored is merged as an update. *)
Theorem C9_malformed_candidate clk c d :
  malformed c ->
  (stored c d ->
   outcome (upsert_listing clk c) d = Ok (updated, true)
   \/ outcome (upsert_listing clk c) d = Ok (unchanged, false))
  /\ (~ stored c d ->
      exists e,
        upsert_listing clk c d = (Raise e, d)
        /\ forall pre rest st0 st d0,
             process_listings pre st0 d0 = (Ok st, d) ->
             process_listings (pre ++ (clk, c) :: rest) st0 d0 = (Raise e, d)).
Proof.
  intros Hmal. split.
  - intros (s & l & ex & Hs & Hl & Hf).
    destruct (price_change_detected (l_price ex) (c_price c)) eqn:E.
    + left. now apply (upsert_listing_change clk c d s l ex).
    + right. now apply (upsert_listing_no_change clk c d s l ex).
  - intros Hns.
    destruct (upsert_listing_malformed_raises clk c d Hmal Hns) as [e He].
    exists e. split; [exact He|].
    intros pre rest st0 st d0 Hpre.
    rewrite process_listings_app, Hpre.
    cbn [process_listings]. unfold bind. now rewrite He.
Qed.

(** The theorem at a Tundra whose year the scraper could not read, merged
    into the empty store. *)
Lemma C9_malformed_candidate_witness :
  exists e,
    upsert_listing clk_oct20 (tundra PyNone None (Some 45000) None) empty_db
    = (Raise e, empty_db).
Proof.
  assert (Hmal : malformed (tundra PyNone None (Some 45000) None)).
  { right; right; right; right; right. reflexivity. }
  assert (Hns : ~ stored (tundra PyNone None (Some 45000) None) empty_db).
  { intros (s & l & ex & _ & _ & H). discriminate H. }
  destruct (proj2 (C9_malformed_candidate clk_oct20 _ empty_db Hmal) Hns)
    as (e & He & _).
  exists e. exact He.
Defined.

(** C9 as stated fails: the candidate without a year is not reported as a
    rejection, its exception ends the batch, and the well-formed candidate
    after it is never merged. *)
Lemma C9_batch_abort_counterexample :
  let bad := tundra PyNone None (Some 45000) None in
  let good := f150 (Some 50000) in
  malformed bad
  /\ outcome (upsert_listing clk_oct26 good) empty_db = Ok (inserted, false)
  /\ process_listings [(clk_oct20, bad); (clk_oct26, good)] no_stats empty_db
     = (Raise (IntegrityError "year"), empty_db).
Proof.
  cbv zeta. split; [|split; reflexivity].
  right; right; right; right; right. reflexivity.
Qed.

(* ===================================================================== *)
(** ** The three ways a merge can end *)
(* ===================================================================== *)

(** Every call of [upsert_listing] raises and leaves the store as it was, or
    merges onto the stored listing of the candidate's identity, or inserts a
    candidate that has its five required fields and whose identity is not
    stored. *)
Lemma upsert_listing_cases clk c d :
  (exists e, upsert_listing clk c d = (Raise e, d))
  \/ (exists s l ex,
        c_source c = Val s /\ c_listing_id c = Val l
        /\ lookup s l d = Some ex)
  \/ (exists s l mk md yr,
        c_source c = Val s /\ c_listing_id c = Val l
        /\ c_make c = Val mk /\ c_model c = Val md /\ c_year c = Val yr
        /\ lookup s l d = None).
Proof.
  assert (Hraise : malformed c -> ~ stored c d ->
                   exists e, upsert_listing clk c d = (Raise e, d))
    by apply upsert_listing_malformed_raises.
  destruct (c_source c) as [| |s] eqn:Hs;
    [left; apply Hraise;
     [left; unfold missing; rewrite Hs; auto
     | intros (s' & l' & ex & H & _); congruence] ..|].
  destruct (c_listing_id c) as [| |l] eqn:Hl;
    [left; apply Hraise;
     [right; left; unfold missing; rewrite Hl; auto
     | intros (s' & l' & ex & _ & H & _); congruence] ..|].
  destruct (lookup s l d) as [ex|] eqn:Hf;
    [right; left; now exists s, l, ex|].
  assert (Hns : ~ stored c d).
  { intros (s' & l' & ex & H1 & H2 & H3).
    rewrite Hs in H1. rewrite Hl in H2.
    injection H1 as <-. injection H2 as <-. congruence. }
  destruct (c_make c) as [| |mk] eqn:Hmk;
    [left; apply Hraise; [|exact Hns];
     right; right; left; unfold missing; rewrite Hmk; auto ..|].
  destruct (c_model c) as [| |md] eqn:Hmd;
    [left; apply Hraise; [|exact Hns];
     right; right; right; left; unfold missing; rewrite Hmd; auto ..|].
  destruct (c_year c) as [| |yr] eqn:Hyr;
    [left; apply Hraise; [|exact Hns];
     right; right; right; right; unfold missing; rewrite Hyr; auto ..|].
  right; right. now exists s, l, mk, md, yr.
Qed.

(** The pair [upsert_listing] returns is one of three. *)
Lemma upsert_listing_returns clk c d r :
  outcome (upsert_listing clk c) d = Ok r ->
  r = (inserted, false) \/ r = (updated, true) \/ r = (unchanged, false).
Proof.
  unfold outcome.
  destruct (upsert_listing_cases clk c d)
    as [[e He] | [(s & l & ex & Hs & Hl & Hf)
                 | (s & l & mk & md & yr & Hs & Hl & Hmk & Hmd & Hyr & Hf)]].
  - rewrite He. discriminate.
  - rewrite (upsert_listing_existing clk c d s l ex Hs Hl Hf). cbv zeta.
    destruct (price_change_detected (l_price ex) (c_price c));
      cbn [fst]; intros [= <-]; auto.
  - rewrite (upsert_listing_insert clk c d s l mk md yr Hs Hl Hmk Hmd Hyr Hf).
    cbn [fst]. intros [= <-]; auto.
Qed.

(* ===================================================================== *)
(** ** What every store the program builds satisfies *)
(* ===================================================================== *)

Lemma first_rowids_S (n : nat) :
  first_rowids (S n) = (first_rowids n ++ [Z.of_nat (S n)])%list.
Proof. unfold first_rowids. now rewrite seq_S, map_app. Qed.

Lemma fold_max_upper (m : Z) (ids : list Z) :
  0 <= m -> Forall (fun i => i <= m) ids -> fold_right Z.max 0 ids <= m.
Proof.
  intros Hm. induction 1 as [|i ids Hi _ IH]; cbn [fold_right]; lia.
Qed.

Lemma fold_max_lower (i : Z) (ids : list Z) :
  In i ids -> i <= fold_right Z.max 0 ids.
Proof.
  induction ids as [|j ids IH]; cbn [fold_right In]; [contradiction|].
  intros [->|H]; [lia|]. specialize (IH H). lia.
Qed.

Lemma first_rowids_bound (n : nat) :
  Forall (fun i => i <= Z.of_nat n) (first_rowids n).
Proof.
  unfold first_rowids. apply Forall_map, Forall_forall.
  intros k Hk. apply in_seq in Hk. lia.
Qed.

(** After rowids 1..n the next rowid is n+1. *)
Lemma next_rowid_first_rowids (n : nat) :
  next_rowid (first_rowids n) = Z.of_nat (S n).
Proof.
  unfold next_rowid.
  assert (fold_right Z.max 0 (first_rowids n) = Z.of_nat n); [|lia].
  apply Z.le_antisymm.
  - apply fold_max_upper; [lia | apply first_rowids_bound].
  - destruct n as [|n]; [cbn; lia|].
    apply fold_max_lower. rewrite first_rowids_S.
    apply in_or_app. right. now left.
Qed.

Lemma first_rowids_NoDup (n : nat) : NoDup (first_rowids n).
Proof.
  unfold first_rowids. apply Finite.Injective_map_NoDup.
  - intros a b. apply Nat2Z.inj.
  - apply seq_NoDup.
Qed.

(** In a consistent store a rowid names one row. *)
Lemma consistent_id_inj d r r' :
  consistent d -> In r (listings d) -> In r' (listings d) ->
  l_id r = l_id r' -> r = r'.
Proof.
  intros Hc. pose proof (first_rowids_NoDup (List.length (listings d))) as Hnd.
  rewrite <- (listing_ids d Hc) in Hnd. clear Hc.
  induction (listings d) as [|x rows IH]; cbn [In map]; [contradiction|].
  inversion Hnd as [|? ? Hx Hrest]; subst.
  intros [->|Hr] [->|Hr'] Hid; auto.
  - exfalso. apply Hx. rewrite Hid. now apply in_map.
  - exfalso. apply Hx. rewrite <- Hid. now apply in_map.
Qed.

Lemma lookup_none_fresh s l d :
  lookup s l d = None -> ~ In (s, l) (map identity (listings d)).
Proof.
  unfold lookup. intros Hf Hin. apply in_map_iff in Hin as (r & Hr & Hin).
  pose proof (find_none _ _ Hf r Hin) as H.
  unfold identity in Hr. injection Hr as Hs Hl.
  now rewrite (same_identity_refl s l r Hs Hl) in H.
Qed.

Lemma lookup_In s l d ex :
  lookup s l d = Some ex -> In ex (listings d) /\ identity ex = (s, l).
Proof.
  unfold lookup. intros H. split.
  - now apply find_some in H.
  - apply same_identity_found in H as [H1 H2]. unfold identity.
    now rewrite H1, H2.
Qed.

(** In a consistent store the lookup of an identity finds the one row that
    has it. *)
Lemma consistent_lookup d r :
  consistent d -> In r (listings d) ->
  lookup (l_source r) (l_listing_id r) d = Some r.
Proof.
  intros Hc. pose proof (identities d Hc) as Hnd. clear Hc.
  unfold lookup. induction (listings d) as [|x rows IH]; cbn [In map find];
    [contradiction|].
  inversion Hnd as [|? ? Hx Hrest]; subst.
  intros [->|Hr].
  - now rewrite same_identity_refl.
  - destruct (same_identity (Some (l_source r)) (Some (l_listing_id r)) x) eqn:E;
      [|now apply IH].
    exfalso. apply Hx.
    unfold same_identity in E. cbn in E.
    apply andb_true_iff in E as [E1 E2].
    apply String.eqb_eq in E1, E2.
    replace (identity x) with (identity r)
      by (unfold identity; now rewrite E1, E2).
    now apply in_map.
Qed.

Section ConsistentSteps.

Variable d : db.
Hypothesis Hd : consistent d.

(** An update by id that keeps id and identity. *)
Variables (id : Z) (set : listing_row -> listing_row).
Hypothesis set_id : forall r, l_id (set r) = l_id r.
Hypothesis set_identity : forall r, identity (set r) = identity r.

Lemma updated_ids :
  map l_id (map (fun r => if l_id r =? id then set r else r) (listings d))
  = map l_id (listings d).
Proof.
  rewrite map_map. apply map_ext. intros r.
  now destruct (l_id r =? id).
Qed.

Lemma updated_identities :
  map identity (map (fun r => if l_id r =? id then set r else r) (listings d))
  = map identity (listings d).
Proof.
  rewrite map_map. apply map_ext. intros r.
  now destruct (l_id r =? id).
Qed.

Lemma updated_alert_ok alerts' pa :
  alert_ok d pa ->
  alert_ok (mkDb (map (fun r => if l_id r =? id then set r else r) (listings d))
                 alerts') pa.
Proof.
  intros [(r & Hr & Hid) Hprices]. split; [|exact Hprices].
  exists (if l_id r =? id then set r else r). split.
  - cbn [listings].
    exact (in_map (fun r => if l_id r =? id then set r else r) _ _ Hr).
  - now destruct (l_id r =? id); rewrite ?set_id.
Qed.

(** The update of the branch without a price change. *)
Lemma consistent_no_change :
  (forall r, l_price_history (set r) = l_price_history r) ->
  consistent (mkDb (map (fun r => if l_id r =? id then set r else r) (listings d))
                   (price_alerts d)).
Proof.
  intros set_history. constructor; cbn [listings price_alerts].
  - rewrite updated_ids, length_map. apply (listing_ids d Hd).
  - apply (alert_ids d Hd).
  - rewrite updated_identities. apply (identities d Hd).
  - eapply Forall_impl; [|apply (alerts_ok d Hd)].
    intros pa. apply updated_alert_ok.
  - apply Forall_map. eapply Forall_impl; [|apply (histories_ok d Hd)].
    intros r Hr. unfold history_ok, alerts_of in *. cbn [price_alerts].
    destruct (l_id r =? id); [|exact Hr].
    now rewrite set_history, set_id.
Qed.

(** The alert and the update of the branch with a price change. *)
Lemma consistent_change (ex : listing_row) (o n : Z) (now date : string) :
  In ex (listings d) -> id = l_id ex ->
  (forall r, l_price_history (set r)
             = (l_price_history ex ++ [mkPricePoint (Some o) now])%list) ->
  o <> 0 -> n <> 0 -> o <> n ->
  consistent
    (mkDb (map (fun r => if l_id r =? id then set r else r) (listings d))
          (price_alerts d ++
           [mkAlert (next_rowid (map pa_id (price_alerts d))) id
                    (Some o) (Some n) date 0])%list).
Proof.
  intros Hex Hid set_history Ho Hn Hon.
  constructor; cbn [listings price_alerts].
  - rewrite updated_ids, length_map. apply (listing_ids d Hd).
  - rewrite map_app, length_app, (alert_ids d Hd). cbn [map pa_id List.length].
    rewrite next_rowid_first_rowids, Nat.add_1_r.
    symmetry. apply first_rowids_S.
  - rewrite updated_identities. apply (identities d Hd).
  - apply Forall_app. split.
    + eapply Forall_impl; [|apply (alerts_ok d Hd)].
      intros pa. apply updated_alert_ok.
    + constructor; [|constructor]. split.
      * exists (set ex). split.
        -- cbn [listings]. apply in_map_iff. exists ex.
           now rewrite <- Hid, Z.eqb_refl.
        -- cbn [pa_listing_id]. now rewrite set_id.
      * exists o, n. cbn. auto.
  - apply Forall_map. apply Forall_forall. intros r Hr.
    pose proof (histories_ok d Hd) as Hh. rewrite Forall_forall in Hh.
    specialize (Hh ex Hex) as Hhex.
    unfold history_ok, alerts_of in *. cbn [price_alerts].
    rewrite filter_app. cbn [filter pa_listing_id].
    destruct (Z.eqb_spec (l_id r) id) as [E|E].
    + rewrite set_history, set_id, E, Z.eqb_refl, !map_app.
      rewrite <- Hid in Hhex. now rewrite Hhex.
    + destruct (Z.eqb_spec id (l_id r)); [congruence|].
      rewrite app_nil_r. now apply Hh.
Qed.

End ConsistentSteps.

(** The insert. *)
Lemma consistent_insert (d : db) (row : listing_row) :
  consistent d ->
  l_id row = next_rowid (map l_id (listings d)) ->
  ~ In (identity row) (map identity (listings d)) ->
  l_price_history row = [] ->
  consistent (mkDb (listings d ++ [row]) (price_alerts d)).
Proof.
  intros Hd Hid Hfresh Hhist. constructor; cbn [listings price_alerts].
  - rewrite map_app, length_app. cbn [map List.length].
    rewrite Hid, (listing_ids d Hd), next_rowid_first_rowids, Nat.add_1_r.
    symmetry. apply first_rowids_S.
  - apply (alert_ids d Hd).
  - rewrite map_app. apply NoDup_app.
    + apply (identities d Hd).
    + repeat constructor. intros [].
    + intros a Ha [<-|[]]. now apply Hfresh.
  - eapply Forall_impl; [|apply (alerts_ok d Hd)].
    intros pa [(r & Hr & Hrid) Hprices]. split; [|exact Hprices].
    exists r. split; [|exact Hrid]. cbn [listings]. apply in_or_app. now left.
  - apply Forall_app. split.
    + eapply Forall_impl; [|apply (histories_ok d Hd)]. intros r Hr. exact Hr.
    + constructor; [|constructor].
      unfold history_ok, alerts_of. cbn [price_alerts]. rewrite Hhist, Hid.
      cbn [map].
      assert (Hnone : filter (fun pa => pa_listing_id pa
                                        =? next_rowid (map l_id (listings d)))
                             (price_alerts d) = []); [|now rewrite Hnone].
      pose proof (alerts_ok d Hd) as Ha.
      pose proof (below_next_rowid (map l_id (listings d))) as Hb.
      rewrite Forall_map in Hb. rewrite Forall_forall in Hb.
      induction Ha as [|pa alerts [(r & Hr & Hrid) _] _ IH]; cbn [filter];
        [reflexivity|].
      specialize (Hb r Hr). cbv beta in Hb.
      destruct (Z.eqb_spec (pa_listing_id pa)
                           (next_rowid (map l_id (listings d)))); [lia|].
      exact IH.
Qed.

(** [upsert_listing] keeps a store consistent. *)
Lemma upsert_listing_consistent clk c d :
  consistent d -> consistent (db_after (upsert_listing clk c) d).
Proof.
  intros Hd. unfold db_after.
  destruct (upsert_listing_cases clk c d)
    as [[e He] | [(s & l & ex & Hs & Hl & Hf)
                 | (s & l & mk & md & yr & Hs & Hl & Hmk & Hmd & Hyr & Hf)]].
  - now rewrite He.
  - rewrite (upsert_listing_existing clk c d s l ex Hs Hl Hf). cbv zeta.
    destruct (price_change_detected (l_price ex) (c_price c)) eqn:E;
      cbn [snd].
    + apply price_change_detected_iff in E
        as (o & n & Ho & Hn & Ho0 & Hn0 & Hon).
      rewrite Ho, Hn.
      apply (consistent_change d Hd (l_id ex)
               (set_price_change (Some n) (isoformat (py_now clk))
                  (l_price_history ex
                   ++ [mkPricePoint (Some o) (isoformat (py_now clk))])%list c)
               (fun r => eq_refl) (fun r => eq_refl) ex o n
               (isoformat (py_now clk)) (current_timestamp (sql_now clk)));
        try assumption; try reflexivity.
      now apply lookup_In in Hf.
    + now apply (consistent_no_change d Hd (l_id ex)
                   (set_last_seen (isoformat (py_now clk)) c)).
  - rewrite (upsert_listing_insert clk c d s l mk md yr Hs Hl Hmk Hmd Hyr Hf).
    cbn [snd]. apply consistent_insert; try assumption; try reflexivity.
    now apply lookup_none_fresh.
Qed.

Lemma empty_db_consistent : consistent empty_db.
Proof. constructor; cbn; try reflexivity; constructor. Qed.

Lemma reachable_consistent d : reachable d -> consistent d.
Proof.
  induction 1 as [|clk c d _ IH].
  - apply empty_db_consistent.
  - now apply upsert_listing_consistent.
Qed.

Lemma find_app_last {A} (p : A -> bool) (l : list A) (x : A) :
  find p (l ++ [x]) =
  match find p l with
  | Some y => Some y
  | None => if p x then Some x else None
  end.
Proof.
  induction l as [|y l IH]; cbn [app find]; [reflexivity|].
  now destruct (p y).
Qed.

Lemma same_identity_iff s l r :
  same_identity (Some s) (Some l) r = true <-> identity r = (s, l).
Proof.
  unfold same_identity, identity. cbn [text_eq_param].
  rewrite andb_true_iff, !String.eqb_eq. split.
  - now intros [-> ->].
  - now intros [= -> ->].
Qed.

Lemma filter_absent_id (rows : list listing_row) (id : Z) :
  ~ In id (map l_id rows) -> filter (fun x => id =? l_id x) rows = [].
Proof.
  induction rows as [|x rows IH]; cbn [map In filter]; [reflexivity|].
  intros H. destruct (Z.eqb_spec id (l_id x)) as [E|E].
  - exfalso. apply H. now left.
  - apply IH. intros Hin. apply H. now right.
Qed.

Lemma filter_unique_id (rows : list listing_row) (r : listing_row) :
  NoDup (map l_id rows) -> In r rows ->
  filter (fun x => l_id r =? l_id x) rows = [r].
Proof.
  induction rows as [|x rows IH]; cbn [map In filter]; [contradiction|].
  intros Hnd Hin. inversion Hnd as [|? ? Hx Hrest]; subst.
  destruct Hin as [->|Hin].
  - rewrite Z.eqb_refl. f_equal. now apply filter_absent_id.
  - destruct (Z.eqb_spec (l_id r) (l_id x)) as [E|E].
    + exfalso. apply Hx. rewrite <- E. now apply in_map.
    + now apply IH.
Qed.

Lemma window_store_reachable : reachable window_store.
Proof. unfold window_store. repeat apply reachable_upsert. constructor. Qed.

(** In a consistent store [get_listing_by_id] finds each row by its id. *)
Lemma get_listing_by_id_In d r :
  consistent d -> In r (listings d) -> get_listing_by_id (l_id r) d = Some r.
Proof.
  intros Hd Hr. unfold get_listing_by_id.
  destruct (find (fun x => l_id x =? l_id r) (listings d)) as [x|] eqn:E.
  - apply find_some in E as [Hx Hid]. apply Z.eqb_eq in Hid.
    f_equal. now apply (consistent_id_inj d x r Hd).
  - pose proof (find_none _ _ E r Hr) as H. cbv beta in H.
    now rewrite Z.eqb_refl in H.
Qed.

(** X1.  In every store the program builds, the listings carry the rowids
    1, 2, ..., n in the order of their insertion, the price alerts likewise,
    and no two listings have the same (source, listing_id): the UNIQUE
    constraint of the table is never put to the test. *)
Theorem X1_rowids_and_identities d :
  reachable d ->
  map l_id (listings d) = first_rowids (List.length (listings d))
  /\ map pa_id (price_alerts d) = first_rowids (List.length (price_alerts d))
  /\ NoDup (map identity (listings d))
  /\ (forall r r', In r (listings d) -> In r' (listings d) ->
                   identity r = identity r' -> r = r').
Proof.
  intros Hr. apply reachable_consistent in Hr as Hd.
  split; [apply (listing_ids d Hd)|].
  split; [apply (alert_ids d Hd)|].
  split; [apply (identities d Hd)|].
  intros r r' Hin Hin' Hid.
  pose proof (consistent_lookup d r Hd Hin) as H.
  pose proof (consistent_lookup d r' Hd Hin') as H'.
  unfold identity in Hid. injection Hid as Hs Hl.
  rewrite Hs, Hl in H. congruence.
Qed.

(** The theorem at the store of four merges of one Tundra. *)
Lemma X1_rowids_and_identities_witness :
  map l_id (listings window_store) = [1]
  /\ map pa_id (price_alerts window_store) = [1; 2; 3].
Proof.
  destruct (X1_rowids_and_identities window_store window_store_reachable)
    as (H1 & H2 & _).
  split; [exact H1 | exact H2].
Defined.

(** X2.  In every store the program builds, each price alert points to a
    stored listing, which [get_listing_by_id] returns, and holds an old and
    a new price that are non-null, not 0 and different; the join of
    [get_price_drops] therefore has exactly one row for each alert, in the
    order of the alerts. *)
Theorem X2_alerts_point_to_listings d :
  reachable d ->
  (forall pa, In pa (price_alerts d) ->
     (exists r, get_listing_by_id (pa_listing_id pa) d = Some r
                /\ In r (listings d))
     /\ exists o n, pa_old_price pa = Some o /\ pa_new_price pa = Some n
                    /\ o <> 0 /\ n <> 0 /\ o <> n)
  /\ map d_id (join_alerts d) = map pa_id (price_alerts d).
Proof.
  intros Hr. apply reachable_consistent in Hr as Hd.
  pose proof (alerts_ok d Hd) as Ha. split.
  - rewrite Forall_forall in Ha. intros pa Hpa.
    destruct (Ha pa Hpa) as [(r & Hin & Hid) Hprices].
    split; [|exact Hprices]. exists r. split; [|exact Hin].
    rewrite <- Hid. now apply get_listing_by_id_In.
  - unfold join_alerts.
    assert (Hnd : NoDup (map l_id (listings d))).
    { rewrite (listing_ids d Hd). apply first_rowids_NoDup. }
    induction Ha as [|pa alerts [(r & Hin & Hid) _] _ IH]; cbn [flat_map map];
      [reflexivity|].
    rewrite map_app, IH. rewrite <- Hid.
    now rewrite (filter_unique_id (listings d) r Hnd Hin).
Qed.

(** The theorem at the store of four merges of one Tundra. *)
Lemma X2_alerts_point_to_listings_witness :
  map d_id (join_alerts window_store) = [1; 2; 3].
Proof.
  exact (proj2 (X2_alerts_point_to_listings window_store
                  window_store_reachable)).
Defined.

(* ===================================================================== *)
(** ** What a merge leaves alone *)
(* ===================================================================== *)

Lemma lookup_other_after_update d ex set s l :
  consistent d -> In ex (listings d) -> identity ex <> (s, l) ->
  (forall r, identity (set r) = identity r) ->
  find (same_identity (Some s) (Some l))
       (map (fun r => if l_id r =? l_id ex then set r else r) (listings d))
  = find (same_identity (Some s) (Some l)) (listings d).
Proof.
  intros Hd Hex Hne Hset. rewrite find_map_stable.
  - destruct (find (same_identity (Some s) (Some l)) (listings d))
      as [r|] eqn:E; [|reflexivity].
    apply find_some in E as [Hr Hid]. apply same_identity_iff in Hid.
    cbn [option_map]. destruct (Z.eqb_spec (l_id r) (l_id ex)) as [Eid|];
      [|reflexivity].
    exfalso. apply Hne.
    now rewrite <- (consistent_id_inj d r ex Hd Hr Hex Eid).
  - intros r. destruct (l_id r =? l_id ex); [|reflexivity].
    destruct (same_identity (Some s) (Some l) (set r)) eqn:E1,
             (same_identity (Some s) (Some l) r) eqn:E2; try reflexivity.
    + apply same_identity_iff in E1. rewrite Hset in E1.
      apply same_identity_iff in E1. congruence.
    + apply same_identity_iff in E2. rewrite <- Hset in E2.
      apply same_identity_iff in E2. congruence.
Qed.

(** In a consistent store a merge leaves the listings of the other
    identities as they were. *)
Lemma upsert_listing_frame clk c d s l :
  consistent d ->
  c_source c <> Val s \/ c_listing_id c <> Val l ->
  lookup s l (db_after (upsert_listing clk c) d) = lookup s l d.
Proof.
  intros Hd Hother. unfold db_after.
  destruct (upsert_listing_cases clk c d)
    as [[e He] | [(s0 & l0 & ex & Hs & Hl & Hf)
                 | (s0 & l0 & mk & md & yr & Hs & Hl & Hmk & Hmd & Hyr & Hf)]].
  - now rewrite He.
  - assert (Hne : identity ex <> (s, l)).
    { apply lookup_In in Hf as [_ Hid]. rewrite Hid. intros [= -> ->].
      destruct Hother; congruence. }
    apply lookup_In in Hf as Hin. destruct Hin as [Hin _].
    rewrite (upsert_listing_existing clk c d s0 l0 ex Hs Hl Hf). cbv zeta.
    destruct (price_change_detected (l_price ex) (c_price c));
      cbn [snd]; unfold lookup; cbn [listings];
      now apply lookup_other_after_update.
  - rewrite (upsert_listing_insert clk c d s0 l0 mk md yr Hs Hl Hmk Hmd Hyr Hf).
    cbn [snd]. unfold lookup. cbn [listings]. rewrite find_app_last.
    destruct (find (same_identity (Some s) (Some l)) (listings d));
      [reflexivity|].
    destruct (same_identity (Some s) (Some l) _) eqn:E; [|reflexivity].
    apply same_identity_iff in E. unfold identity, new_row in E. cbn in E.
    injection E as -> ->. destruct Hother; congruence.
Qed.

(** X3.  In a store the program built, a merge changes the stored listing of
    the candidate's identity at most: the listing of every other identity is
    after the call what it was before. *)
Theorem X3_other_listings_untouched clk c d s l :
  reachable d ->
  c_source c <> Val s \/ c_listing_id c <> Val l ->
  lookup s l (db_after (upsert_listing clk c) d) = lookup s l d.
Proof.
  intros Hr Hother. apply upsert_listing_frame; [|exact Hother].
  now apply reachable_consistent.
Qed.

(** The theorem at [window_store] and a first merge of an F-150: the Tundra
    is as it was. *)
Lemma X3_other_listings_untouched_witness :
  lookup "cars.com" "123"
    (db_after (upsert_listing clk_nov02 (f150 (Some 50000))) window_store)
  = lookup "cars.com" "123" window_store.
Proof.
  apply (X3_other_listings_untouched clk_nov02 (f150 (Some 50000))
           window_store "cars.com" "123" window_store_reachable).
  left. discriminate.
Defined.

(** X4.  A merge onto a stored listing never changes its id, source,
    listing_id, make, model, year, listing_url or first_seen, whatever the
    candidate holds for them, and always sets last_seen to the time of the
    call. *)
Theorem X4_insert_time_columns_are_kept clk c d s l ex :
  c_source c = Val s -> c_listing_id c = Val l -> lookup s l d = Some ex ->
  exists ex',
    lookup s l (db_after (upsert_listing clk c) d) = Some ex'
    /\ l_id ex' = l_id ex
    /\ l_source ex' = l_source ex /\ l_listing_id ex' = l_listing_id ex
    /\ l_make ex' = l_make ex /\ l_model ex' = l_model ex
    /\ l_year ex' = l_year ex
    /\ l_listing_url ex' = l_listing_url ex
    /\ l_first_seen ex' = l_first_seen ex
    /\ l_last_seen ex' = isoformat (py_now clk).
Proof.
  intros Hs Hl Hf.
  destruct (price_change_detected (l_price ex) (c_price c)) eqn:E.
  - destruct (upsert_listing_change clk c d s l ex Hs Hl Hf E) as (_ & _ & Hr).
    eexists. split; [exact Hr|]. repeat split.
  - destruct (upsert_listing_no_change clk c d s l ex Hs Hl Hf E) as (_ & _ & Hr).
    eexists. split; [exact Hr|]. repeat split.
Qed.

(** The theorem at a stored Tundra and a candidate of its identity that says
    it is a Ford F-150 of 1999. *)
Lemma X4_insert_time_columns_are_kept_witness :
  let d := db_after (upsert_listing clk_oct20
                       (tundra (Val 2025) (Some "SR5") (Some 45000) None))
                    empty_db in
  exists ex',
    lookup "cars.com" "123" (db_after (upsert_listing clk_oct26 relabelled) d)
    = Some ex'
    /\ l_make ex' = "Toyota" /\ l_model ex' = "Tundra" /\ l_year ex' = 2025
    /\ l_listing_url ex' = None.
Proof.
  intros d.
  destruct (X4_insert_time_columns_are_kept clk_oct26 relabelled d
              "cars.com" "123"
              (new_row 1 "cars.com" "123" "Toyota" "Tundra" 2025
                 "2026-10-20T09:00:00"
                 (tundra (Val 2025) (Some "SR5") (Some 45000) None))
              eq_refl eq_refl eq_refl)
    as (ex' & Hr & _ & _ & _ & Hmk & Hmd & Hyr & Hurl & _).
  exists ex'. repeat split; assumption.
Defined.

(* ===================================================================== *)
(** ** What a merge adds *)
(* ===================================================================== *)

Lemma update_keeps_identity (id : Z) (set : listing_row -> listing_row)
    (s l : string) (r : listing_row) :
  (forall x, identity (set x) = identity x) ->
  same_identity (Some s) (Some l) (if l_id r =? id then set r else r)
  = same_identity (Some s) (Some l) r.
Proof.
  intros Hset. destruct (l_id r =? id); [|reflexivity].
  destruct (same_identity (Some s) (Some l) (set r)) eqn:E1,
           (same_identity (Some s) (Some l) r) eqn:E2; try reflexivity.
  - apply same_identity_iff in E1. rewrite Hset in E1.
    apply same_identity_iff in E1. congruence.
  - apply same_identity_iff in E2. rewrite <- Hset in E2.
    apply same_identity_iff in E2. congruence.
Qed.

(** X5.  A call of [upsert_listing] removes nothing: the number of listings
    grows by one when it returns 'inserted' and is unchanged otherwise, the
    price alerts are extended by exactly one alert when it reports a price
    change and are unchanged otherwise, a price change is reported exactly
    with 'updated', and every identity that was stored is still stored,
    under the same id and with the same first_seen. *)
Theorem X5_tables_only_grow clk c d :
  let r := outcome (upsert_listing clk c) d in
  let d' := db_after (upsert_listing clk c) d in
  List.length (listings d')
  = (List.length (listings d)
     + match r with Ok (inserted, _) => 1 | _ => 0 end)%nat
  /\ (exists more,
         price_alerts d' = (price_alerts d ++ more)%list
         /\ List.length more = match r with Ok (_, true) => 1%nat | _ => 0%nat end)
  /\ (forall a b, r = Ok (a, b) -> (b = true <-> a = updated))
  /\ (forall s l row,
         lookup s l d = Some row ->
         exists row',
           lookup s l d' = Some row' /\ l_id row' = l_id row
           /\ l_first_seen row' = l_first_seen row).
Proof.
  intros r d'. subst r d'. unfold outcome, db_after.
  destruct (upsert_listing_cases clk c d)
    as [[e He] | [(s0 & l0 & ex & Hs & Hl & Hf)
                 | (s0 & l0 & mk & md & yr & Hs & Hl & Hmk & Hmd & Hyr & Hf)]].
  - rewrite He. cbn [fst snd]. split; [lia|]. split.
    + exists []. now rewrite app_nil_r.
    + split; [discriminate|]. intros s l row H. now exists row.
  - rewrite (upsert_listing_existing clk c d s0 l0 ex Hs Hl Hf). cbv zeta.
    destruct (price_change_detected (l_price ex) (c_price c));
      cbn [fst snd listings price_alerts]; rewrite length_map;
      (split; [lia|]); (split; [|split]).
    + eexists. split; reflexivity.
    + intros a b [= <- <-]. tauto.
    + intros s l row H. unfold lookup in *. cbn [listings].
      rewrite find_map_stable, H
        by (intros x; now apply update_keeps_identity).
      cbn [option_map]. eexists. split; [reflexivity|].
      now destruct (l_id row =? l_id ex).
    + exists []. now rewrite app_nil_r.
    + intros a b [= <- <-]. split; discriminate.
    + intros s l row H. unfold lookup in *. cbn [listings].
      rewrite find_map_stable, H
        by (intros x; now apply update_keeps_identity).
      cbn [option_map]. eexists. split; [reflexivity|].
      now destruct (l_id row =? l_id ex).
  - rewrite (upsert_listing_insert clk c d s0 l0 mk md yr Hs Hl Hmk Hmd Hyr Hf).
    cbn [fst snd listings price_alerts]. rewrite length_app. cbn [List.length].
    split; [lia|]. split; [|split].
    + exists []. now rewrite app_nil_r.
    + intros a b [= <- <-]. split; discriminate.
    + intros s l row H. unfold lookup in *. cbn [listings].
      rewrite find_app_last, H. now exists row.
Qed.

(** The theorem at [window_store] and a candidate that lowers the price of
    the Tundra once more. *)
Lemma X5_tables_only_grow_witness :
  exists row',
    lookup "cars.com" "123"
      (db_after (upsert_listing clk_nov02
                   (tundra (Val 2025) None (Some 41000) None)) window_store)
    = Some row'
    /\ l_id row' = 1.
Proof.
  destruct (proj2 (proj2 (proj2
              (X5_tables_only_grow clk_nov02
                 (tundra (Val 2025) None (Some 41000) None) window_store)))
              "cars.com" "123" _ eq_refl) as (row' & H & Hid & _).
  exists row'. split; [exact H | exact Hid].
Defined.

(** X6.  In a store the program built, after every call of [upsert_listing]
    that returns, the candidate's identity is stored, last_seen of its
    listing is the time of the call, and [get_listing_by_id] returns that
    listing for its id; after 'inserted' the id is the number of listings,
    first_seen is the time of the call, the price is the candidate's and
    the price history is empty. *)
Theorem X6_merged_candidate_is_stored clk c d a b :
  reachable d ->
  outcome (upsert_listing clk c) d = Ok (a, b) ->
  let d' := db_after (upsert_listing clk c) d in
  exists s l row,
    c_source c = Val s /\ c_listing_id c = Val l
    /\ lookup s l d' = Some row
    /\ l_last_seen row = isoformat (py_now clk)
    /\ get_listing_by_id (l_id row) d' = Some row
    /\ (a = inserted ->
        l_id row = Z.of_nat (List.length (listings d'))
        /\ l_first_seen row = isoformat (py_now clk)
        /\ l_price row = c_price c
        /\ l_price_history row = []).
Proof.
  intros Hr Hout d'.
  assert (Hd' : consistent d')
    by (apply upsert_listing_consistent; now apply reachable_consistent).
  apply reachable_consistent in Hr as Hd.
  subst d'. revert Hout Hd'. unfold outcome, db_after.
  destruct (upsert_listing_cases clk c d)
    as [[e He] | [(s & l & ex & Hs & Hl & Hf)
                 | (s & l & mk & md & yr & Hs & Hl & Hmk & Hmd & Hyr & Hf)]].
  - rewrite He. discriminate.
  - rewrite (upsert_listing_existing clk c d s l ex Hs Hl Hf). cbv zeta.
    unfold lookup in Hf.
    destruct (price_change_detected (l_price ex) (c_price c));
      cbn [fst snd]; intros [= <- <-] Hd';
      (eexists s, l, _; split; [exact Hs|]; split; [exact Hl|];
       split; [unfold lookup; cbn [listings];
               now apply lookup_after_update|];
       split; [reflexivity|];
       split; [|discriminate];
       apply get_listing_by_id_In; [exact Hd'|];
       cbn [listings]; apply in_map_iff; exists ex;
       rewrite Z.eqb_refl; split; [reflexivity|];
       now apply find_some in Hf).
  - rewrite (upsert_listing_insert clk c d s l mk md yr Hs Hl Hmk Hmd Hyr Hf).
    cbn [fst snd]. intros _ Hd'.
    set (row := new_row (next_rowid (map l_id (listings d))) s l mk md yr
                  (isoformat (py_now clk)) c) in *.
    assert (Hrow : lookup s l (mkDb (listings d ++ [row]) (price_alerts d))
                   = Some row).
    { unfold lookup. cbn [listings]. apply find_none_app; [exact Hf|].
      now apply same_identity_refl. }
    exists s, l, row.
    split; [exact Hs|]. split; [exact Hl|]. split; [exact Hrow|].
    split; [reflexivity|]. split.
    + apply get_listing_by_id_In; [exact Hd'|]. now apply lookup_In in Hrow.
    + intros _. split; [|repeat split].
      cbn [listings]. rewrite length_app. cbn [List.length].
      unfold row. cbn [new_row l_id].
      rewrite (listing_ids d Hd), next_rowid_first_rowids. f_equal. lia.
Qed.

(** The theorem at the first merge of a Tundra into the empty store. *)
Lemma X6_merged_candidate_is_stored_witness :
  exists row,
    lookup "cars.com" "123"
      (db_after (upsert_listing clk_oct20
                   (tundra (Val 2025) (Some "SR5") (Some 45000) None)) empty_db)
    = Some row
    /\ l_id row = 1 /\ l_price_history row = [].
Proof.
  destruct (X6_merged_candidate_is_stored clk_oct20
              (tundra (Val 2025) (Some "SR5") (Some 45000) None) empty_db
              inserted false reachable_empty eq_refl)
    as (s & l & row & [= <-] & [= <-] & Hrow & _ & _ & Hins).
  destruct (Hins eq_refl) as (Hid & _ & _ & Hhist).
  exists row. repeat split; assumption.
Defined.

(* ===================================================================== *)
(** ** Price history, price alerts and the stored price *)
(* ===================================================================== *)

(** X7.  In every store the program builds, the price history of a listing
    holds, in order, the old prices of the listing's price alerts; so a
    listing has a non-empty price history, which is what the
    [only_price_drops] filter tests, exactly when it has a price alert. *)
Theorem X7_history_matches_alerts d r :
  reachable d -> In r (listings d) ->
  map pp_price (l_price_history r) = map pa_old_price (alerts_of (l_id r) d)
  /\ (forall f, only_price_drops f = true ->
        (price_drops_check f r = true <->
         exists pa, In pa (price_alerts d) /\ pa_listing_id pa = l_id r)).
Proof.
  intros Hr Hin. apply reachable_consistent in Hr as Hd.
  pose proof (histories_ok d Hd) as Hh. rewrite Forall_forall in Hh.
  specialize (Hh r Hin). unfold history_ok in Hh. split; [exact Hh|].
  intros f Hf. unfold price_drops_check. rewrite Hf.
  unfold alerts_of in Hh. split.
  - intros Hne.
    destruct (filter (fun pa => pa_listing_id pa =? l_id r) (price_alerts d))
      as [|pa rest] eqn:E.
    + destruct (l_price_history r); [discriminate Hne | discriminate Hh].
    + exists pa.
      assert (Hpa : In pa (filter (fun pa => pa_listing_id pa =? l_id r)
                                  (price_alerts d)))
        by (rewrite E; now left).
      apply filter_In in Hpa as [Hpa Hid]. now apply Z.eqb_eq in Hid.
  - intros (pa & Hpa & Hid).
    assert (Hin' : In pa (filter (fun pa => pa_listing_id pa =? l_id r)
                                 (price_alerts d))).
    { apply filter_In. split; [exact Hpa|]. now apply Z.eqb_eq. }
    destruct (filter (fun pa => pa_listing_id pa =? l_id r) (price_alerts d));
      [contradiction|].
    destruct (l_price_history r); [discriminate Hh | reflexivity].
Qed.

(** The theorem at the Tundra of [window_store]. *)
Lemma X7_history_matches_alerts_witness :
  exists r,
    lookup "cars.com" "123" window_store = Some r
    /\ map pp_price (l_price_history r)
       = [Some 45000; Some 44000; Some 43000].
Proof.
  eexists. split; [reflexivity|].
  match goal with
  | |- map pp_price (l_price_history ?r) = _ =>
      destruct (X7_history_matches_alerts window_store r
                  window_store_reachable) as [Hh _];
        [now left | rewrite Hh; reflexivity]
  end.
Defined.

(** X8.  When the stored price and the candidate's price are both non-null
    and not 0, the stored price after the merge is the candidate's price,
    whether or not the two differ: of two candidates of one identity the
    price of the one applied last is the one stored. *)
Theorem X8_last_applied_price_is_stored clk c d s l ex o n :
  c_source c = Val s -> c_listing_id c = Val l -> lookup s l d = Some ex ->
  l_price ex = Some o -> o <> 0 -> c_price c = Some n -> n <> 0 ->
  exists ex',
    lookup s l (db_after (upsert_listing clk c) d) = Some ex'
    /\ l_price ex' = Some n.
Proof.
  intros Hs Hl Hf Ho Ho0 Hn Hn0.
  destruct (price_change_detected (l_price ex) (c_price c)) eqn:E.
  - destruct (upsert_listing_change clk c d s l ex Hs Hl Hf E) as (_ & _ & Hr).
    eexists. split; [exact Hr|]. exact Hn.
  - destruct (upsert_listing_no_change clk c d s l ex Hs Hl Hf E) as (_ & _ & Hr).
    eexists. split; [exact Hr|]. cbn [set_last_seen l_price].
    rewrite Ho. f_equal.
    destruct (Z.eq_dec o n) as [|Hne]; [assumption|].
    assert (price_change_detected (l_price ex) (c_price c) = true);
      [|congruence].
    apply price_change_detected_iff. exists o, n. auto.
Qed.

(** The theorem at a Tundra stored at 45000 and a candidate priced 43000. *)
Lemma X8_last_applied_price_is_stored_witness :
  let d := db_after (upsert_listing clk_oct20
                       (tundra (Val 2025) (Some "SR5") (Some 45000) None))
                    empty_db in
  exists ex',
    lookup "cars.com" "123"
      (db_after (upsert_listing clk_oct26
                   (tundra (Val 2025) None (Some 43000) None)) d)
    = Some ex'
    /\ l_price ex' = Some 43000.
Proof.
  intros d.
  apply (X8_last_applied_price_is_stored clk_oct26
           (tundra (Val 2025) None (Some 43000) None) d "cars.com" "123"
           (new_row 1 "cars.com" "123" "Toyota" "Tundra" 2025
              "2026-10-20T09:00:00"
              (tundra (Val 2025) (Some "SR5") (Some 45000) None))
           45000 43000 eq_refl eq_refl eq_refl eq_refl);
    [lia | reflexivity | lia].
Defined.

(** The sizes of the two tables after a call that returns. *)
Lemma upsert_listing_lengths clk c d a b d1 :
  upsert_listing clk c d = (Ok (a, b), d1) ->
  List.length (listings d1)
  = (List.length (listings d) + match a with inserted => 1 | _ => 0 end)%nat
  /\ List.length (price_alerts d1)
     = (List.length (price_alerts d) + if b then 1 else 0)%nat
  /\ (b = true <-> a = updated).
Proof.
  destruct (upsert_listing_cases clk c d)
    as [[e He] | [(s & l & ex & Hs & Hl & Hf)
                 | (s & l & mk & md & yr & Hs & Hl & Hmk & Hmd & Hyr & Hf)]].
  - rewrite He. discriminate.
  - rewrite (upsert_listing_existing clk c d s l ex Hs Hl Hf). cbv zeta.
    destruct (price_change_detected (l_price ex) (c_price c));
      intros [= <- <- <-]; cbn [listings price_alerts];
      rewrite length_map, ?length_app; cbn [List.length];
      (split; [lia|]); (split; [lia|]); split; try reflexivity; discriminate.
  - rewrite (upsert_listing_insert clk c d s l mk md yr Hs Hl Hmk Hmd Hyr Hf).
    intros [= <- <- <-]. cbn [listings price_alerts].
    rewrite length_app. cbn [List.length].
    split; [lia|]. split; [lia|]. split; discriminate.
Qed.

(** X9.  When the loop of [run_full_scrape] ends without an exception, the
    three action counters together grew by the number of candidates, the
    price_drops counter grew exactly as the updated counter did, the number
    of stored listings grew by the inserted counter and the number of price
    alerts by the updated counter. *)
Theorem X9_stats_count_the_writes batch st d st' d' :
  process_listings batch st d = (Ok st', d') ->
  n_inserted st' + n_updated st' + n_unchanged st'
  = n_inserted st + n_updated st + n_unchanged st
    + Z.of_nat (List.length batch)
  /\ n_price_drops st' - n_price_drops st = n_updated st' - n_updated st
  /\ Z.of_nat (List.length (listings d'))
     = Z.of_nat (List.length (listings d)) + (n_inserted st' - n_inserted st)
  /\ Z.of_nat (List.length (price_alerts d'))
     = Z.of_nat (List.length (price_alerts d)) + (n_updated st' - n_updated st).
Proof.
  revert st d. induction batch as [|[clk c] batch IH]; intros st d.
  - cbn. intros [= <- <-]. lia.
  - cbn [process_listings]. unfold bind.
    destruct (upsert_listing clk c d) as [[[a b]|e] d1] eqn:E; [|discriminate].
    intros H. specialize (IH _ _ H).
    destruct (upsert_listing_lengths clk c d a b d1 E) as (Hl & Ha & Hab).
    rewrite Hl, Ha in IH. cbn [List.length].
    destruct a, b; cbn [count n_inserted n_updated n_unchanged n_price_drops]
      in IH; try (destruct Hab as [H1 H2];
                  (discriminate (H1 eq_refl) || discriminate (H2 eq_refl)));
      lia.
Qed.

(** The theorem at a batch of three candidates merged into the empty store:
    a Tundra, the same Tundra 2000 cheaper, and an F-150. *)
Lemma X9_stats_count_the_writes_witness :
  exists st' d',
    process_listings
      [(clk_oct20, tundra (Val 2025) (Some "SR5") (Some 45000) None);
       (clk_oct26, tundra (Val 2025) None (Some 43000) None);
       (clk_nov02, f150 (Some 50000))] no_stats empty_db = (Ok st', d')
    /\ n_price_drops st' - 0 = n_updated st' - 0
    /\ Z.of_nat (List.length (listings d')) = 0 + (n_inserted st' - 0).
Proof.
  eexists _, _. split; [reflexivity|].
  match goal with
  | |- context [n_updated ?st] =>
      match goal with
      | |- context [listings ?d] =>
          destruct (X9_stats_count_the_writes
                      [(clk_oct20, tundra (Val 2025) (Some "SR5") (Some 45000) None);
                       (clk_oct26, tundra (Val 2025) None (Some 43000) None);
                       (clk_nov02, f150 (Some 50000))]
                      no_stats empty_db st d eq_refl) as (_ & H2 & H3 & _)
      end
  end.
  split; [exact H2 | exact H3].
Defined.

Lemma price_path_snoc p q al a :
  price_path p al q -> pa_old_price a = q ->
  price_path p (al ++ [a]) (pa_new_price a).
Proof.
  induction 1 as [p|p q b al Hb _ IH]; intros Ha; cbn [app].
  - constructor; [exact Ha | constructor].
  - constructor; [exact Hb | now apply IH].
Qed.

Lemma price_path_last p q al a0 :
  price_path p al q -> al <> [] -> q = pa_new_price (last al a0).
Proof.
  induction 1 as [p|p q b al Hb Hpath IH]; intros Hne; [congruence|].
  destruct al as [|b' al]; [now inversion Hpath|].
  change (last (b :: b' :: al) a0) with (last (b' :: al) a0).
  now apply IH.
Qed.

(** No alert points to the id the next insert will use. *)
Lemma alerts_of_next_rowid d :
  consistent d -> alerts_of (next_rowid (map l_id (listings d))) d = [].
Proof.
  intros Hd. unfold alerts_of.
  pose proof (alerts_ok d Hd) as Ha.
  pose proof (below_next_rowid (map l_id (listings d))) as Hb.
  rewrite Forall_map in Hb. rewrite Forall_forall in Hb.
  induction Ha as [|pa alerts [(r & Hr & Hrid) _] _ IH]; cbn [filter];
    [reflexivity|].
  specialize (Hb r Hr). cbv beta in Hb.
  destruct (Z.eqb_spec (pa_listing_id pa)
                       (next_rowid (map l_id (listings d)))); [lia|].
  exact IH.
Qed.

Lemma upsert_listing_paths clk c d :
  consistent d -> paths_ok d -> paths_ok (db_after (upsert_listing clk c) d).
Proof.
  intros Hd Hp. unfold db_after.
  destruct (upsert_listing_cases clk c d)
    as [[e He] | [(s & l & ex & Hs & Hl & Hf)
                 | (s & l & mk & md & yr & Hs & Hl & Hmk & Hmd & Hyr & Hf)]].
  - now rewrite He.
  - apply lookup_In in Hf as Hin. destruct Hin as [Hin _].
    rewrite (upsert_listing_existing clk c d s l ex Hs Hl Hf). cbv zeta.
    destruct (price_change_detected (l_price ex) (c_price c)) eqn:E;
      cbn [snd]; intros r' Hr'; cbn [listings] in Hr';
      apply in_map_iff in Hr' as (r & <- & Hr);
      destruct (Hp r Hr) as [p Hpath]; unfold alerts_of in *;
      cbn [price_alerts].
    + rewrite filter_app. cbn [filter pa_listing_id].
      destruct (Z.eqb_spec (l_id r) (l_id ex)) as [Eid|Eid].
      * pose proof (consistent_id_inj d r ex Hd Hr Hin Eid) as ->.
        cbn [set_price_change l_id l_price]. rewrite Z.eqb_refl.
        exists p.
        exact (price_path_snoc p (l_price ex) _
                 (mkAlert _ (l_id ex) (l_price ex) (c_price c) _ 0)
                 Hpath eq_refl).
      * destruct (Z.eqb_spec (l_id ex) (l_id r)); [congruence|].
        rewrite app_nil_r. now exists p.
    + exists p. now destruct (l_id r =? l_id ex).
  - rewrite (upsert_listing_insert clk c d s l mk md yr Hs Hl Hmk Hmd Hyr Hf).
    cbn [snd]. intros r Hr. cbn [listings] in Hr. unfold alerts_of.
    cbn [price_alerts]. apply in_app_or in Hr as [Hr|[<-|[]]].
    + now apply Hp.
    + cbn [new_row l_id l_price].
      pose proof (alerts_of_next_rowid d Hd) as H. unfold alerts_of in H.
      rewrite H. exists (c_price c). constructor.
Qed.

Lemma reachable_paths d : reachable d -> paths_ok d.
Proof.
  induction 1 as [|clk c d Hr IH].
  - intros r [].
  - apply upsert_listing_paths; [now apply reachable_consistent | exact IH].
Qed.

(** X10.  In every store the program builds, the price alerts of a listing
    form a gapless chain: the old price of each alert is the new price of
    the alert before it, and the stored price of a listing that has alerts
    is the new price of its latest alert. *)
Theorem X10_alerts_lead_to_stored_price d r :
  reachable d -> In r (listings d) ->
  (exists p, price_path p (alerts_of (l_id r) d) (l_price r))
  /\ (forall a0, alerts_of (l_id r) d <> [] ->
                 l_price r = pa_new_price (last (alerts_of (l_id r) d) a0)).
Proof.
  intros Hr Hin. destruct (reachable_paths d Hr r Hin) as [p Hpath].
  split; [now exists p|].
  intros a0. now apply (price_path_last p).
Qed.

(** The theorem at the Tundra of [window_store]: its price is the new price
    of its third alert. *)
Lemma X10_alerts_lead_to_stored_price_witness :
  exists r,
    lookup "cars.com" "123" window_store = Some r
    /\ l_price r = Some 42000.
Proof.
  eexists. split; [reflexivity|].
  match goal with
  | |- l_price ?r = _ =>
      destruct (X10_alerts_lead_to_stored_price window_store r
                  window_store_reachable) as [_ Hlast];
        [now left|];
        rewrite (Hlast (mkAlert 0 0 None None "" 0));
        [reflexivity | discriminate]
  end.
Defined.

(* ===================================================================== *)
(** ** Substrings and letter case *)
(* ===================================================================== *)

(** [needle] occurs in [hay]. *)
Lemma prefix_iff (needle hay : string) :
  String.prefix needle hay = true <-> exists post, hay = needle ++ post.
Proof.
  revert hay. induction needle as [|c needle IH]; intros hay.
  - split; [intros _; now exists hay | intros _; now destruct hay].
  - destruct hay as [|c' hay]; cbn;
      [split; [discriminate | now intros [post [=]]]|].
    destruct (Ascii.ascii_dec c c') as [<-|Hne].
    + rewrite IH. split; intros [post H]; exists post; [now rewrite H|].
      now injection H.
    + split; [discriminate|]. intros [post [= H _]]. congruence.
Qed.

Lemma lower_app (a b : string) : lower (a ++ b) = lower a ++ lower b.
Proof. induction a as [|c a IH]; cbn; [reflexivity | now rewrite IH]. Qed.

Lemma lower_ascii_idempotent (c : ascii) :
  lower_ascii (lower_ascii c) = lower_ascii c.
Proof.
  unfold lower_ascii.
  destruct ((65 <=? N_of_ascii c) && (N_of_ascii c <=? 90))%N eqn:E;
    [|now rewrite E].
  apply andb_true_iff in E as [E1 E2].
  apply N.leb_le in E1, E2.
  rewrite N_ascii_embedding by lia.
  destruct (N.leb_spec (N_of_ascii c + 32) 90); [lia|].
  now rewrite andb_false_r.
Qed.

Lemma lower_idempotent (s : string) : lower (lower s) = lower s.
Proof.
  induction s as [|c s IH]; cbn; [reflexivity|].
  now rewrite lower_ascii_idempotent, IH.
Qed.

Lemma contains_occurs (needle hay : string) :
  contains needle hay = true <-> occurs_in needle hay.
Proof.
  unfold occurs_in. induction hay as [|c hay IH]; cbn [contains].
  - rewrite orb_false_r, prefix_iff. split.
    + intros [post H]. now exists "", post.
    + intros (pre & post & H). destruct pre; [|discriminate H].
      now exists post.
  - rewrite orb_true_iff, prefix_iff, IH. split.
    + intros [[post H] | (pre & post & H)].
      * now exists "", post.
      * exists (String c pre), post. cbn. now rewrite H.
    + intros (pre & post & H). destruct pre as [|c' pre].
      * left. now exists post.
      * right. cbn in H. injection H as _ H. now exists pre, post.
Qed.

Lemma any_in_iff (words : list string) (text : string) :
  any_in words text = true <-> some_word_in words text.
Proof.
  unfold any_in, any, some_word_in. rewrite existsb_exists.
  split; intros (w & Hin & H); exists w; (split; [exact Hin|]);
    now apply contains_occurs.
Qed.

(** The include and exclude lists of one text. *)
Lemma word_lists_check (include exclude : list string) (text : string) :
  (if nonempty include then any_in include text else true)
  && (if nonempty exclude then negb (any_in exclude text) else true) = true
  <-> (include = [] \/ some_word_in include text)
      /\ ~ some_word_in exclude text.
Proof.
  assert (H1 : (if nonempty include then any_in include text else true) = true
               <-> include = [] \/ some_word_in include text).
  { destruct include as [|w ws]; cbn [nonempty].
    - split; auto.
    - rewrite any_in_iff. split; [auto|]. now intros [H|H]. }
  assert (H2 : (if nonempty exclude then negb (any_in exclude text) else true)
               = true <-> ~ some_word_in exclude text).
  { destruct exclude as [|w ws]; cbn [nonempty].
    - split; [|reflexivity]. intros _ (w & [] & _).
    - rewrite negb_true_iff, <- not_true_iff_false, any_in_iff. reflexivity. }
  rewrite andb_true_iff, H1, H2. reflexivity.
Qed.

Lemma keep_checks f r :
  keep f r = true ->
  price_check f r = true /\ mileage_check f r = true /\ year_check f r = true
  /\ trim_check f r = true /\ dealer_check f r = true
  /\ keyword_check f r = true /\ discount_check f r = true
  /\ price_drops_check f r = true.
Proof.
  unfold keep. rewrite !andb_true_iff. tauto.
Qed.



Lemma nonempty_map {A B} (g : A -> B) (l : list A) :
  nonempty (map g l) = nonempty l.
Proof. now destruct l. Qed.

Lemma any_in_lower (words : list string) (text : string) :
  any_in (map lower words) text = any_in words text.
Proof.
  unfold any_in, any. induction words as [|w ws IH]; cbn; [reflexivity|].
  now rewrite lower_idempotent, IH.
Qed.

Lemma or_empty_lower (s : option string) :
  or_empty (option_map lower s) = lower (or_empty s).
Proof. now destruct s. Qed.

(** X12.  The filter does not look at letter case: a listing is kept under a
    configuration exactly when the listing with its trim, dealer name, make
    and model in lower case is kept under the configuration with all its
    words in lower case. *)
Theorem X12_filters_ignore_case FILTERS rows f :
  (forall r, keep (lower_words f) (lower_texts r) = keep f r)
  /\ apply_filters FILTERS (map lower_texts rows) (Some (lower_words f))
     = map lower_texts (apply_filters FILTERS rows (Some f)).
Proof.
  assert (Hkeep : forall r, keep (lower_words f) (lower_texts r) = keep f r).
  { intros r.
    assert (Ht : trim_check (lower_words f) (lower_texts r) = trim_check f r).
    { unfold trim_check. cbn [lower_words lower_texts trims_include
                              trims_exclude l_trim].
      now rewrite !nonempty_map, !any_in_lower, or_empty_lower,
        lower_idempotent. }
    assert (Hdl : dealer_check (lower_words f) (lower_texts r)
                  = dealer_check f r).
    { unfold dealer_check. cbn [lower_words lower_texts dealers_include
                                dealers_exclude l_dealer_name].
      now rewrite !nonempty_map, !any_in_lower, or_empty_lower,
        lower_idempotent. }
    assert (Hk : keyword_check (lower_words f) (lower_texts r)
                 = keyword_check f r).
    { unfold keyword_check. cbn [lower_words lower_texts keywords_exclude
                                 l_trim l_make l_model].
      rewrite nonempty_map, any_in_lower, or_empty_lower.
      now rewrite !lower_app, !lower_idempotent. }
    unfold keep. rewrite Ht, Hdl, Hk. reflexivity. }
  split; [exact Hkeep|].
  unfold apply_filters.
  induction rows as [|r rows IH]; cbn [map filter]; [reflexivity|].
  rewrite Hkeep, IH. now destruct (keep f r).
Qed.

(** A listing fails the mileage check exactly when its mileage is non-null,
    not 0, and above a [mileage_max] that is set and not 0. *)
Lemma mileage_check_false f r :
  mileage_check f r = false <->
  exists m b, l_mileage r = Some m /\ mileage_max f = Some b
              /\ m <> 0 /\ b <> 0 /\ m > b.
Proof.
  unfold mileage_check, truthy, above.
  destruct (l_mileage r) as [m|], (mileage_max f) as [b|];
    try (split; [discriminate | now intros (m' & b' & [=] & [=] & _)]).
  destruct (Z.eqb_spec b 0), (Z.eqb_spec m 0), (Z.gtb_spec m b); cbn;
    split; try discriminate; try reflexivity;
    try (intros (m' & b' & [= <-] & [= <-] & ? & ? & ?); lia).
  intros _. exists m, b. repeat split; auto; lia.
Qed.

(** A listing fails the year check exactly when its year is not 0 and is
    below a [year_min] or above a [year_max] that is set and not 0. *)
Lemma year_check_false f r :
  year_check f r = false <->
  l_year r <> 0 /\ outside_bounds (year_min f) (year_max f) (l_year r).
Proof.
  unfold year_check, outside_bounds.
  destruct (Z.eqb_spec (l_year r) 0) as [E|E]; cbn [negb].
  - split; [discriminate | tauto].
  - destruct (below (l_year r) (year_min f)) eqn:Eb.
    + apply below_true in Eb. tauto.
    + destruct (above (l_year r) (year_max f)) eqn:Ea.
      * apply above_true in Ea. tauto.
      * split; [discriminate|]. intros [_ [H|H]].
        -- apply below_true in H. congruence.
        -- apply above_true in H. congruence.
Qed.

(** With only the mileage and year bounds configured, a listing is kept
    exactly when it passes the mileage check and the year check. *)
Lemma keep_mileage_year_only (mileage ymin ymax : option Z) (r : listing_row) :
  keep (mileage_year_only mileage ymin ymax) r
  = mileage_check (mileage_year_only mileage ymin ymax) r
    && year_check (mileage_year_only mileage ymin ymax) r.
Proof.
  unfold keep, price_check, trim_check, dealer_check, keyword_check,
    discount_check, price_drops_check.
  cbn [mileage_year_only price_min price_max trims_include trims_exclude
       dealers_include dealers_exclude keywords_exclude only_price_drops
       min_discount_percent nonempty below above].
  rewrite !andb_true_r.
  destruct (l_price r) as [p|]; [destruct (negb (p =? 0))|]; reflexivity.
Qed.

(** X13.  The mileage and year bounds.  Under every configuration
    [apply_filters] returns no listing whose mileage is non-null, not 0 and
    above a [mileage_max] that is set and not 0, and no listing whose year
    is not 0 and is below a [year_min] or above a [year_max] that is set and
    not 0.  Under a configuration that sets nothing but these bounds it
    returns exactly the other listings, so a listing without a mileage (or
    with the mileage 0) is never dropped by [mileage_max].  Of five listings
    under the bounds 30000 miles and 2023 to 2025, the one with 45000 miles
    and the one of 2021 are dropped. *)
Theorem X13_mileage_and_year_bounds FILTERS rows :
  (forall f r,
      In r (apply_filters FILTERS rows (Some f)) ->
      ~ (exists m b, l_mileage r = Some m /\ mileage_max f = Some b
                     /\ m <> 0 /\ b <> 0 /\ m > b)
      /\ ~ (l_year r <> 0
            /\ outside_bounds (year_min f) (year_max f) (l_year r)))
  /\ (forall mileage ymin ymax r,
         In r (apply_filters FILTERS rows
                 (Some (mileage_year_only mileage ymin ymax))) <->
         In r rows
         /\ ~ (exists m b, l_mileage r = Some m /\ mileage = Some b
                           /\ m <> 0 /\ b <> 0 /\ m > b)
         /\ ~ (l_year r <> 0 /\ outside_bounds ymin ymax (l_year r)))
  /\ apply_filters FILTERS
       [used 1 2024 (Some 12000); used 2 2024 (Some 45000);
        used 3 2021 (Some 10); used 4 2024 None; used 5 0 (Some 0)]
       (Some (mileage_year_only (Some 30000) (Some 2023) (Some 2025)))
     = [used 1 2024 (Some 12000); used 4 2024 None; used 5 0 (Some 0)].
Proof.
  split; [|split; [|reflexivity]].
  - intros f r H. unfold apply_filters in H. apply filter_In in H as [_ Hk].
    unfold keep in Hk. rewrite !andb_true_iff in Hk.
    destruct Hk as [[[[[[[_ Hm] Hy] _] _] _] _] _].
    split; intros H.
    + apply mileage_check_false in H. congruence.
    + apply year_check_false in H. congruence.
  - intros mileage ymin ymax r. unfold apply_filters.
    rewrite filter_In, keep_mileage_year_only, andb_true_iff.
    rewrite <- (not_false_iff_true (mileage_check _ r)).
    rewrite <- (not_false_iff_true (year_check _ r)).
    rewrite mileage_check_false, year_check_false. reflexivity.
Qed.

Lemma string_app_assoc (a b c : string) : (a ++ b) ++ c = a ++ b ++ c.
Proof. induction a as [|ch a IH]; cbn; [reflexivity | now rewrite IH]. Qed.





Lemma round_half_even_nonneg (n d : Z) :
  0 <= n -> 0 < d -> 0 <= round_half_even n d.
Proof.
  intros Hn Hd. unfold round_half_even.
  assert (H : 0 <= n / d) by (apply Z.div_pos; lia).
  destruct (2 * (n mod d) ?= d); [destruct (Z.even (n / d))|..]; lia.
Qed.

(** Rounding keeps the sign: the float nearest to a number that is not
    positive is not positive. *)
Lemma binary64_nonpos (x : Q) : (x <= 0)%Q -> (binary64 x <= 0)%Q.
Proof.
  intros Hx.
  assert (Hn : Qnum x <= 0) by (unfold Qle in Hx; cbn in Hx; lia).
  unfold binary64.
  destruct (Z.abs (Qnum x) =? 0); [apply Qle_refl|].
  set (q := Z.max (floor_log2 (Z.abs (Qnum x)) (Z.pos (Qden x)) - 52) (-1074)).
  set (m := round_half_even _ _).
  assert (Hm : 0 <= m).
  { apply round_half_even_nonneg.
    - apply Z.mul_nonneg_nonneg; [lia | apply Z.pow_nonneg; lia].
    - apply Z.mul_pos_pos; [lia | apply Z.pow_pos_nonneg; lia]. }
  assert (Hs : Z.sgn (Qnum x) <= 0) by (apply Z.sgn_nonpos; exact Hn).
  assert (Hsm : Z.sgn (Qnum x) * m <= 0) by nia.
  destruct (0 <=? q).
  - assert (Hp : 0 <= 2 ^ q) by (apply Z.pow_nonneg; lia).
    unfold Qle, inject_Z. cbn [Qnum Qden]. nia.
  - unfold Qle. cbn [Qnum Qden]. lia.
Qed.

(** A price at or above a positive MSRP gives a discount that is not
    positive. *)
Lemma discount_pct_nonpos (msrp price : Z) :
  0 < msrp -> msrp <= price -> (discount_pct msrp price <= 0)%Q.
Proof.
  intros Hm Hp. unfold discount_pct.
  apply binary64_nonpos.
  assert (H : (binary64 (inject_Z (msrp - price) / inject_Z msrp) <= 0)%Q).
  { apply binary64_nonpos.
    destruct msrp as [|pm|pm]; try lia.
    unfold Qle, Qdiv, Qmult, Qinv, inject_Z. cbn [Qnum Qden]. lia. }
  unfold Qle in *. cbn [Qnum Qden Qmult] in *. lia.
Qed.

(** X15.  No discount, no deal: with [min_discount_percent] set to a
    positive number, a listing whose price is at or above its positive MSRP
    has a computed discount that is not positive, fails the discount check,
    and is never returned by [apply_filters], whatever the rounding of the
    float operations. *)
Theorem X15_no_discount_is_dropped FILTERS f r t msrp price :
  min_discount_percent f = Some t -> (0 < t)%Q ->
  l_msrp r = Some msrp -> l_price r = Some price ->
  0 < msrp -> msrp <= price ->
  (discount_pct msrp price <= 0)%Q
  /\ discount_check f r = false
  /\ forall rows, ~ In r (apply_filters FILTERS rows (Some f)).
Proof.
  intros Hf Ht Hm Hp Hm0 Hle.
  pose proof (discount_pct_nonpos msrp price Hm0 Hle) as Hd.
  assert (Hc : discount_check f r = false).
  { apply (discount_check_known f r t msrp price Hf); try assumption; try lia.
    - intros E. rewrite E in Ht. now apply (Qlt_irrefl 0).
    - now apply (Qle_lt_trans _ 0). }
  split; [exact Hd|]. split; [exact Hc|].
  intros rows Hin. unfold apply_filters in Hin.
  apply filter_In in Hin as [_ Hk].
  apply keep_checks in Hk as (_ & _ & _ & _ & _ & _ & Hdc & _).
  congruence.
Qed.

(** The theorem at an MSRP of 50000, a price of 51000 and a threshold of
    5 percent. *)
Lemma X15_no_discount_is_dropped_witness :
  In (listed 2 (Some 51000) (Some 50000))
     [listed 2 (Some 51000) (Some 50000)]
  /\ ~ In (listed 2 (Some 51000) (Some 50000))
        (apply_filters FILTERS_default [listed 2 (Some 51000) (Some 50000)]
           (Some five_percent_off)).
Proof.
  split; [now left|].
  exact (proj2 (proj2
    (X15_no_discount_is_dropped FILTERS_default five_percent_off
       (listed 2 (Some 51000) (Some 50000)) 5%Q 50000 51000
       eq_refl eq_refl eq_refl eq_refl ltac:(lia) ltac:(lia)))
    [listed 2 (Some 51000) (Some 50000)]).
Defined.

(** A configuration with no option in force keeps every listing. *)
Lemma inactive_keeps (g : filters) (r : listing_row) :
  inactive g -> keep g r = true.
Proof.
  intros (Hpmin & Hpmax & Hmil & Hti & Hte & Hdi & Hde & Hkw & Hymin
          & Hymax & Hdrops & Hdisc).
  assert (Hb : forall x b, truthy b = false -> below x b = false).
  { intros x [b|] H; cbn in *; [|reflexivity].
    destruct (b =? 0); [reflexivity | discriminate]. }
  assert (Ha : forall x b, truthy b = false -> above x b = false).
  { intros x [b|] H; cbn in *; [|reflexivity].
    destruct (b =? 0); [reflexivity | discriminate]. }
  unfold keep, price_check, mileage_check, year_check, trim_check,
    dealer_check, keyword_check, discount_check, price_drops_check.
  rewrite Hti, Hte, Hdi, Hde, Hkw, Hdrops, Hmil. cbn [nonempty andb].
  destruct (l_price r) as [p|];
    rewrite ?(Hb _ _ Hpmin), ?(Ha _ _ Hpmax);
    rewrite (Hb _ _ Hymin), (Ha _ _ Hymax);
    destruct (min_discount_percent g) as [q'|];
    cbn in Hdisc; try rewrite Hdisc;
    repeat match goal with
           | |- context [if ?b then _ else _] => destruct b
           | |- context [match ?x with Some _ => _ | None => _ end] =>
               destruct x
           end; reflexivity.
Qed.

Lemma filter_all {A} (p : A -> bool) (l : list A) :
  (forall x, p x = true) -> filter p l = l.
Proof.
  intros H. induction l as [|x l IH]; cbn [filter]; [reflexivity|].
  now rewrite H, IH.
Qed.

Lemma FILTERS_default_inactive : inactive FILTERS_default.
Proof. repeat split. Qed.

(** X16.  A configuration in which no option is in force, because each is
    None, 0, an empty list or False, filters nothing: [apply_filters]
    returns its input.  FILTERS as the file ships it is such a
    configuration, so with it [get_listings] returns the same rows with and
    without [use_filters]. *)
Theorem X16_inactive_filters_keep_everything FILTERS f rows :
  inactive f ->
  apply_filters FILTERS rows (Some f) = rows
  /\ (inactive FILTERS -> apply_filters FILTERS rows None = rows)
  /\ (forall make model d,
         get_listings FILTERS_default make model true d
         = get_listings FILTERS_default make model false d).
Proof.
  intros Hf. split; [|split].
  - unfold apply_filters. apply filter_all. intros r.
    now apply inactive_keeps.
  - intros HF. unfold apply_filters. apply filter_all. intros r.
    now apply inactive_keeps.
  - intros make model d. unfold get_listings, apply_filters.
    apply filter_all. intros r.
    apply inactive_keeps, FILTERS_default_inactive.
Qed.

(** The theorem at a configuration whose bounds are all 0. *)
Lemma X16_inactive_filters_keep_everything_witness :
  apply_filters FILTERS_default [trd_pro; priced 2 None]
    (Some (mkFilters (Some 0) (Some 0) (Some 0) [] [] [] [] [] (Some 0)
             (Some 0) false (Some 0%Q)))
  = [trd_pro; priced 2 None].
Proof.
  apply (X16_inactive_filters_keep_everything FILTERS_default).
  repeat split.
Defined.

(* ===================================================================== *)
(** ** Timestamps as texts *)
(* ===================================================================== *)

Lemma digit_compare (a b : Z) :
  Ascii.compare (digit a) (digit b) = (a mod 10 ?= b mod 10).
Proof.
  unfold Ascii.compare, digit.
  pose proof (Z.mod_pos_bound a 10 ltac:(lia)).
  pose proof (Z.mod_pos_bound b 10 ltac:(lia)).
  rewrite !N_ascii_embedding by lia.
  rewrite Z2N.inj_compare by lia.
  apply Z.add_compare_mono_l.
Qed.

Lemma compare_by_digits (a b : Z) (rest : comparison) :
  match a / 10 ?= b / 10 with
  | Eq => match a mod 10 ?= b mod 10 with Eq => rest | c => c end
  | c => c
  end
  = match a ?= b with Eq => rest | c => c end.
Proof.
  pose proof (Z.div_mod a 10 ltac:(lia)).
  pose proof (Z.div_mod b 10 ltac:(lia)).
  pose proof (Z.mod_pos_bound a 10 ltac:(lia)).
  pose proof (Z.mod_pos_bound b 10 ltac:(lia)).
  destruct (Z.compare_spec (a / 10) (b / 10));
    destruct (Z.compare_spec (a mod 10) (b mod 10));
    destruct (Z.compare_spec a b); try reflexivity; lia.
Qed.

(** Numbers padded to the same width compare as texts the way they compare
    as numbers. *)
Lemma zpad_compare (w : nat) (a b : Z) (x y : string) :
  0 <= a < 10 ^ Z.of_nat w -> 0 <= b < 10 ^ Z.of_nat w ->
  String.compare (zpad w a ++ x) (zpad w b ++ y)
  = match a ?= b with Eq => String.compare x y | c => c end.
Proof.
  revert a b x y. induction w as [|w IH]; intros a b x y Ha Hb.
  - cbn in Ha, Hb. assert (a = 0) by lia. assert (b = 0) by lia. now subst.
  - rewrite Nat2Z.inj_succ, Z.pow_succ_r in Ha, Hb by lia.
    cbn [zpad]. rewrite !string_app_assoc. cbn [append].
    rewrite IH.
    + cbn [String.compare]. rewrite digit_compare.
      apply compare_by_digits.
    + split; [apply Z.div_pos; lia | apply Z.div_lt_upper_bound; lia].
    + split; [apply Z.div_pos; lia | apply Z.div_lt_upper_bound; lia].
Qed.

Lemma zpad4_compare (a b : Z) (x y : string) :
  0 <= a <= 9999 -> 0 <= b <= 9999 ->
  String.compare (zpad 4 a ++ x) (zpad 4 b ++ y)
  = match a ?= b with Eq => String.compare x y | c => c end.
Proof.
  intros Ha Hb. apply zpad_compare;
    change (10 ^ Z.of_nat 4) with 10000; lia.
Qed.

Lemma zpad2_compare (a b : Z) (x y : string) :
  0 <= a <= 99 -> 0 <= b <= 99 ->
  String.compare (zpad 2 a ++ x) (zpad 2 b ++ y)
  = match a ?= b with Eq => String.compare x y | c => c end.
Proof.
  intros Ha Hb. apply zpad_compare;
    change (10 ^ Z.of_nat 2) with 100; lia.
Qed.

Lemma compare_cons_same (c : ascii) (x y : string) :
  String.compare (String c x) (String c y) = String.compare x y.
Proof.
  cbn [String.compare]. unfold Ascii.compare. now rewrite N.compare_refl.
Qed.

Lemma string_app_nil_r (a : string) : a ++ "" = a.
Proof. induction a as [|c a IH]; cbn; [reflexivity | now rewrite IH]. Qed.

(** Two CURRENT_TIMESTAMP texts compare the way their instants do. *)
Lemma current_timestamp_compare (a b : datetime) :
  valid_datetime a -> valid_datetime b ->
  String.compare (current_timestamp a) (current_timestamp b)
  = lex_compare (second_of a) (second_of b).
Proof.
  intros (Hy & Hm & Hd & Hh & Hmi & Hs & _) (Hy' & Hm' & Hd' & Hh' & Hmi' & Hs' & _).
  unfold current_timestamp, date_text, time_text, second_of.
  cbn [lex_compare].
  rewrite <- (string_app_nil_r (zpad 2 (dt_second a))),
          <- (string_app_nil_r (zpad 2 (dt_second b))).
  rewrite !string_app_assoc. cbn [append].
  rewrite zpad4_compare by lia.
  destruct (dt_year a ?= dt_year b); try reflexivity.
  rewrite compare_cons_same, zpad2_compare by lia.
  destruct (dt_month a ?= dt_month b); try reflexivity.
  rewrite compare_cons_same, zpad2_compare by lia.
  destruct (dt_day a ?= dt_day b); try reflexivity.
  rewrite compare_cons_same, zpad2_compare by lia.
  destruct (dt_hour a ?= dt_hour b); try reflexivity.
  rewrite compare_cons_same, zpad2_compare by lia.
  destruct (dt_minute a ?= dt_minute b); try reflexivity.
  rewrite compare_cons_same, zpad2_compare by lia.
  destruct (dt_second a ?= dt_second b); reflexivity.
Qed.

(** A CURRENT_TIMESTAMP text against an isoformat text: the calendar days
    decide, and on the same day the isoformat text is the larger. *)
Lemma current_timestamp_vs_isoformat (event cutoff : datetime) :
  valid_datetime event -> valid_datetime cutoff ->
  String.compare (current_timestamp event) (isoformat cutoff)
  = match lex_compare (day_of event) (day_of cutoff) with
    | Eq => Lt
    | c => c
    end.
Proof.
  intros (Hy & Hm & Hd & _) (Hy' & Hm' & Hd' & _).
  unfold current_timestamp, isoformat, date_text, day_of.
  cbn [lex_compare].
  rewrite !string_app_assoc. cbn [append].
  rewrite zpad4_compare by lia.
  destruct (dt_year event ?= dt_year cutoff); try reflexivity.
  rewrite compare_cons_same, zpad2_compare by lia.
  destruct (dt_month event ?= dt_month cutoff); try reflexivity.
  rewrite compare_cons_same, zpad2_compare by lia.
  destruct (dt_day event ?= dt_day cutoff); reflexivity.
Qed.

(** X17.  The window of [get_price_drops] goes by calendar days: an alert
    whose change_date is the CURRENT_TIMESTAMP text of a valid instant is
    returned exactly when its listing is stored and the calendar day of that
    instant is after the calendar day of the cutoff; the times of day play
    no part. *)
Theorem X17_window_is_by_calendar_day cutoff d r event :
  valid_datetime event -> valid_datetime cutoff ->
  d_change_date r = current_timestamp event ->
  (In r (get_price_drops cutoff d) <->
   In r (join_alerts d) /\ lex_compare (day_of event) (day_of cutoff) = Gt).
Proof.
  intros Hev Hcut Hdate.
  rewrite (proj1 (get_price_drops_rows cutoff d) r).
  unfold text_ge. rewrite Hdate, current_timestamp_vs_isoformat by assumption.
  destruct (lex_compare (day_of event) (day_of cutoff));
    split; intros [H1 H2]; split; try assumption; try reflexivity;
    discriminate.
Qed.

(** The theorem at [window_store] and the cutoff of 27 October, noon: the
    alert of 2 November is returned, the alert of 27 October, 18:00, is
    not. *)
Lemma X17_window_is_by_calendar_day_witness :
  (exists r, In r (get_price_drops cutoff_oct27_noon window_store)
             /\ d_change_date r = "2026-11-02 12:00:00")
  /\ forall r, d_change_date r = "2026-10-27 18:00:00" ->
               ~ In r (get_price_drops cutoff_oct27_noon window_store).
Proof.
  assert (Hv : forall y mo dd h mi, 1 <= y <= 9999 -> 1 <= mo <= 12 ->
                 1 <= dd <= 31 -> 0 <= h <= 23 -> 0 <= mi <= 59 ->
                 valid_datetime (mkDatetime y mo dd h mi 0 0)).
  { intros. unfold valid_datetime. cbn. lia. }
  split.
  - exists (join_row (mkAlert 3 1 (Some 43000) (Some 42000)
                        "2026-11-02 12:00:00" 0)
              (new_row 1 "cars.com" "123" "Toyota" "Tundra" 2025 ""
                 (tundra (Val 2025) (Some "Limited") None None))).
    split; [|reflexivity].
    apply (X17_window_is_by_calendar_day cutoff_oct27_noon window_store _
             (sql_now clk_nov02)).
    + apply Hv; lia.
    + apply Hv; lia.
    + reflexivity.
    + split; [|reflexivity]. cbn. right. right. now left.
  - intros r Hr Hin.
    apply (X17_window_is_by_calendar_day cutoff_oct27_noon window_store r
             (sql_now clk_oct27_evening)) in Hin as [_ Hgt].
    + discriminate Hgt.
    + apply Hv; lia.
    + apply Hv; lia.
    + exact Hr.
Defined.

(** X18.  [get_price_drops] returns the newest alert first: of two rows that
    follow one another, whose change_dates are the CURRENT_TIMESTAMP texts
    of two valid instants, the first is not the earlier one, to the
    second. *)
Theorem X18_price_drops_newest_first cutoff d :
  Sorted (fun a b =>
            forall ta tb,
              valid_datetime ta -> valid_datetime tb ->
              d_change_date a = current_timestamp ta ->
              d_change_date b = current_timestamp tb ->
              lex_compare (second_of ta) (second_of tb) <> Lt)
         (get_price_drops cutoff d).
Proof.
  eapply Sorted_weaken; [|apply (proj2 (get_price_drops_rows cutoff d))].
  intros a b Hge ta tb Hta Htb Ha Hb Hlt. cbv beta in Hge.
  unfold text_ge in Hge. rewrite Ha, Hb in Hge.
  rewrite current_timestamp_compare in Hge by assumption.
  rewrite Hlt in Hge. discriminate.
Qed.

(* ===================================================================== *)
(** ** The make and model of the list query, and the query by id *)
(* ===================================================================== *)

Lemma lower_matches_ext (col : string) (p p' : option string) :
  option_map lower p = option_map lower p' ->
  lower_matches col p = lower_matches col p'.
Proof.
  destruct p as [[|c s]|], p' as [[|c' s']|]; intros H;
    try reflexivity; try discriminate H.
  pose proof (f_equal or_empty H) as E.
  change (lower (String c s) = lower (String c' s')) in E.
  unfold lower_matches. now rewrite E.
Qed.

Lemma get_listings_In FILTERS make model use d r :
  In r (get_listings FILTERS make model use d) ->
  In r (listings d)
  /\ lower_matches (l_make r) make = true
  /\ lower_matches (l_model r) model = true.
Proof.
  unfold get_listings. intros H.
  assert (Hin : In r (order_by
                        (fun a b => price_asc (l_price a) (l_price b))
                        (filter (fun r => lower_matches (l_make r) make
                                          && lower_matches (l_model r) model)
                                (listings d)))).
  { destruct use; [|exact H].
    unfold apply_filters in H. now apply filter_In in H. }
  eapply Permutation_in in Hin; [|symmetry; apply order_by_perm].
  apply filter_In in Hin as [Hin Hm]. apply andb_true_iff in Hm. tauto.
Qed.

(** X19.  The make and model of [get_listings] are matched without regard
    to letter case, and an empty make or model restricts nothing: two calls
    whose makes and models agree in lower case return the same rows, a call
    with the make "" returns what a call without a make returns, and every
    row returned for a non-empty make has that make in lower case. *)
Theorem X19_make_and_model_ignore_case FILTERS use d :
  (forall make make' model model',
      option_map lower make = option_map lower make' ->
      option_map lower model = option_map lower model' ->
      get_listings FILTERS make model use d
      = get_listings FILTERS make' model' use d)
  /\ (forall model,
         get_listings FILTERS (Some "") model use d
         = get_listings FILTERS None model use d)
  /\ (forall make model r c m,
         make = Some (String c m) ->
         In r (get_listings FILTERS make model use d) ->
         lower (l_make r) = lower (String c m)).
Proof.
  split; [|split].
  - intros make make' model model' Hmk Hmd. unfold get_listings.
    replace (filter (fun r => lower_matches (l_make r) make
                              && lower_matches (l_model r) model) (listings d))
      with (filter (fun r => lower_matches (l_make r) make'
                             && lower_matches (l_model r) model') (listings d));
      [reflexivity|].
    apply filter_ext. intros r.
    now rewrite (lower_matches_ext _ _ _ Hmk), (lower_matches_ext _ _ _ Hmd).
  - reflexivity.
  - intros make model r c m -> Hin.
    apply get_listings_In in Hin as (_ & Hm & _).
    cbn [lower_matches] in Hm. now apply String.eqb_eq in Hm.
Qed.

(** The theorem at [window_store] and the make "TOYOTA". *)
Lemma X19_make_and_model_ignore_case_witness :
  get_listings FILTERS_default (Some "TOYOTA") (Some "tundra") true window_store
  = get_listings FILTERS_default (Some "toyota") (Some "TUNDRA") true
      window_store.
Proof.
  apply (proj1 (X19_make_and_model_ignore_case FILTERS_default true
                  window_store)); reflexivity.
Defined.

(** X20.  [get_listing_by_id] returns a stored listing that has the id asked
    for, or None; in a store the program built it returns None exactly for
    the ids outside 1..n, n the number of listings, and the listing it
    returns is the only one with that id. *)
Theorem X20_get_listing_by_id d i :
  (forall r, get_listing_by_id i d = Some r -> In r (listings d) /\ l_id r = i)
  /\ (reachable d ->
      (get_listing_by_id i d = None <->
       ~ (1 <= i <= Z.of_nat (List.length (listings d))))
      /\ forall r, In r (listings d) -> l_id r = i ->
                   get_listing_by_id i d = Some r).
Proof.
  split.
  - intros r H. unfold get_listing_by_id in H. apply find_some in H as [Hin Hid].
    split; [exact Hin | now apply Z.eqb_eq].
  - intros Hr. apply reachable_consistent in Hr as Hd.
    assert (Hids : In i (map l_id (listings d))
                   <-> 1 <= i <= Z.of_nat (List.length (listings d))).
    { rewrite (listing_ids d Hd). unfold first_rowids.
      rewrite in_map_iff. split.
      - intros (k & <- & Hk). apply in_seq in Hk. lia.
      - intros Hi. exists (Z.to_nat i). split; [lia|]. apply in_seq. lia. }
    split.
    + rewrite <- Hids. split.
      * intros Hnone Hin. apply in_map_iff in Hin as (r & Hid & Hin).
        pose proof (find_none _ _ Hnone r Hin) as H. cbv beta in H.
        rewrite Hid, Z.eqb_refl in H. discriminate.
      * intros Hnot.
        destruct (get_listing_by_id i d) as [r|] eqn:E; [|reflexivity].
        exfalso. apply Hnot. unfold get_listing_by_id in E.
        apply find_some in E as [Hin Hid]. apply Z.eqb_eq in Hid.
        rewrite <- Hid. now apply in_map.
    + intros r Hin <-. now apply get_listing_by_id_In.
Qed.

(** The theorem at [window_store], which has one listing: the id 2 is not
    found. *)
Lemma X20_get_listing_by_id_witness :
  get_listing_by_id 2 window_store = None.
Proof.
  apply (proj1 (proj2 (X20_get_listing_by_id window_store 2)
                  window_store_reachable)).
  cbn. lia.
Defined.

(* ===================================================================== *)
(** ** The summary of the active filters *)
(* ===================================================================== *)

Section Summary.

Variable str_number : Q -> string.

Lemma when_int_nil v render : when_int v render = [] <-> truthy v = false.
Proof.
  unfold when_int, truthy. destruct v as [n|]; [|tauto].
  destruct (negb (n =? 0)); split; (discriminate || reflexivity).
Qed.

Lemma when_words_nil v render : when_words v render = [] <-> v = [].
Proof.
  unfold when_words. destruct v; cbn [nonempty];
    split; (discriminate || reflexivity).
Qed.

Lemma when_int_ok v c text fmt :
  c <> "N"%char ->
  Forall entry_ok (when_int v (fun n => String c text ++ fmt n)).
Proof.
  intros Hc. unfold when_int. destruct v as [n|]; [|constructor].
  destruct (negb (n =? 0)); repeat constructor.
  now exists c, (text ++ fmt n).
Qed.

Lemma when_words_ok v c text fmt :
  c <> "N"%char ->
  Forall entry_ok (when_words v (fun l => String c text ++ fmt l)).
Proof.
  intros Hc. unfold when_words. destruct (nonempty v); repeat constructor.
  now exists c, (text ++ fmt v).
Qed.

Lemma concat_entries_not_None (l : list string) :
  l <> [] -> Forall entry_ok l -> String.concat " | " l <> "None".
Proof.
  intros Hne Hall. destruct l as [|s l]; [congruence|].
  inversion Hall as [|? ? (c & rest & -> & Hc) _]; subst.
  destruct l; cbn; intros [= H _]; now apply Hc.
Qed.

(** X21.  The summary of the active filters is the text "None" exactly when
    no option of FILTERS is in force, and then [apply_filters] with FILTERS
    returns its input: what the summary shows as no filter filters
    nothing. *)
Theorem X21_summary_None_means_no_filter FILTERS :
  (get_active_filters_summary str_number FILTERS = "None" <-> inactive FILTERS)
  /\ (get_active_filters_summary str_number FILTERS = "None" ->
      forall rows, apply_filters FILTERS rows None = rows).
Proof.
  assert (Hiff : get_active_filters_summary str_number FILTERS = "None"
                 <-> inactive FILTERS).
  { unfold get_active_filters_summary.
    match goal with
    | |- context [nonempty ?l] => set (active := l)
    end.
    assert (Hnil : active = [] <-> inactive FILTERS).
    { unfold active, inactive. split.
      - intros H.
        repeat match type of H with
               | (_ ++ _)%list = [] =>
                   apply app_eq_nil in H; destruct H as [?H H]
               end.
        repeat match goal with
               | Hx : when_int _ _ = [] |- _ => apply when_int_nil in Hx
               | Hx : when_words _ _ = [] |- _ => apply when_words_nil in Hx
               end.
        repeat split; try assumption.
        + now destruct (only_price_drops FILTERS).
        + unfold truthyQ. destruct (min_discount_percent FILTERS) as [q|];
            [|reflexivity].
          now destruct (negb (Qeq_bool q 0)).
      - intros (H1 & H2 & H3 & H4 & H5 & H6 & H7 & H8 & H9 & H10 & H11 & H12).
        rewrite H4, H5, H6, H7, H8, H11.
        rewrite (proj2 (when_int_nil (price_min FILTERS) _) H1),
          (proj2 (when_int_nil (price_max FILTERS) _) H2),
          (proj2 (when_int_nil (mileage_max FILTERS) _) H3),
          (proj2 (when_int_nil (year_min FILTERS) _) H9),
          (proj2 (when_int_nil (year_max FILTERS) _) H10).
        unfold truthyQ in H12.
        destruct (min_discount_percent FILTERS) as [q|]; [|reflexivity].
        now rewrite H12. }
    assert (Hok : Forall entry_ok active).
    { unfold active.
      repeat (apply Forall_app; split);
        try (apply when_int_ok; discriminate);
        try (apply when_words_ok; discriminate).
      - destruct (min_discount_percent FILTERS) as [q|]; [|constructor].
        destruct (negb (Qeq_bool q 0)); repeat constructor.
        eexists _, _. split; [reflexivity | discriminate].
      - destruct (only_price_drops FILTERS); repeat constructor.
        eexists _, _. split; [reflexivity | discriminate]. }
    rewrite <- Hnil. destruct active as [|s l] eqn:E; cbn [nonempty].
    - tauto.
    - split; [|discriminate]. intros H. exfalso.
      now apply (concat_entries_not_None (s :: l)). }
  split; [exact Hiff|].
  intros H rows. unfold apply_filters. apply filter_all. intros r.
  now apply inactive_keeps, Hiff.
Qed.

End Summary.

(* ===================================================================== *)
(** ** The filter arguments of the command line *)
(* ===================================================================== *)

Lemma split_commas_cons (s : string) :
  exists piece pieces, split_commas s = piece :: pieces.
Proof.
  destruct s as [|c s]; cbn [split_commas]; [now eexists _, _|].
  destruct (Ascii.eqb c ","); [now eexists _, _|].
  destruct (split_commas s); now eexists _, _.
Qed.

Lemma concat_cons_char (sep : string) (c : ascii) (p : string)
    (ps : list string) :
  String.concat sep (String c p :: ps) = String c (String.concat sep (p :: ps)).
Proof. destruct ps; reflexivity. Qed.

Lemma concat_split_commas (s : string) :
  String.concat "," (split_commas s) = s.
Proof.
  induction s as [|c s IH]; [reflexivity|]. cbn [split_commas].
  destruct (split_commas_cons s) as (p & ps & E). rewrite E in *.
  destruct (Ascii.eqb c ",") eqn:Ec.
  - apply Ascii.eqb_eq in Ec as ->.
    change (String.concat "," ("" :: p :: ps))
      with ("" ++ "," ++ String.concat "," (p :: ps)).
    now rewrite IH.
  - now rewrite concat_cons_char, IH.
Qed.

Lemma split_commas_trailing (s : string) :
  split_commas (s ++ ",") = (split_commas s ++ [""])%list.
Proof.
  induction s as [|c s IH]; [reflexivity|].
  cbn [append split_commas]. rewrite IH.
  destruct (Ascii.eqb c ","); [reflexivity|].
  destruct (split_commas_cons s) as (p & ps & ->). reflexivity.
Qed.

Lemma rstrip_idempotent (s : string) : rstrip (rstrip s) = rstrip s.
Proof.
  induction s as [|c s IH]; [reflexivity|]. cbn [rstrip].
  destruct (rstrip s) as [|k ks] eqn:E.
  - destruct (is_space c) eqn:Ec; cbn [rstrip]; [reflexivity|].
    now rewrite Ec.
  - cbn [rstrip]. cbn [rstrip] in IH. now rewrite IH.
Qed.

Lemma lstrip_head (s : string) :
  lstrip s = "" \/ exists c r, lstrip s = String c r /\ is_space c = false.
Proof.
  induction s as [|c s IH]; [now left|]. cbn [lstrip].
  destruct (is_space c) eqn:Ec; [exact IH|]. right. now exists c, s.
Qed.

Lemma strip_idempotent (s : string) : strip (strip s) = strip s.
Proof.
  unfold strip.
  assert (H : lstrip (rstrip (lstrip s)) = rstrip (lstrip s)).
  { destruct (lstrip_head s) as [->|(c & r & -> & Hc)]; [reflexivity|].
    cbn [rstrip]. destruct (rstrip r); rewrite ?Hc; cbn [lstrip];
      now rewrite Hc. }
  now rewrite H, rstrip_idempotent.
Qed.

(** X22.  The words of a [--trim] or [--dealer] argument: joining the pieces
    of [split(",")] with commas gives the argument back; every word of the
    resulting list is stripped, so stripping it again changes nothing; and
    an argument that ends in a comma yields a list that holds the empty
    word. *)
Theorem X22_comma_separated_words (s : string) :
  String.concat "," (split_commas s) = s
  /\ (forall w, In w (words_of (Some s)) -> strip w = w)
  /\ In "" (words_of (Some (s ++ ","))).
Proof.
  split; [apply concat_split_commas|]. split.
  - intros w Hw. unfold words_of in Hw. apply in_map_iff in Hw as (p & <- & _).
    apply strip_idempotent.
  - unfold words_of. cbn [or_empty]. rewrite split_commas_trailing, map_app.
    apply in_or_app. right. now left.
Qed.

Lemma occurs_in_empty (text : string) : occurs_in "" text.
Proof. now exists "", text. Qed.

Lemma filter_none {A} (p : A -> bool) (l : list A) :
  (forall x, p x = false) -> filter p l = [].
Proof.
  intros H. induction l as [|x l IH]; cbn [filter]; [reflexivity|].
  now rewrite H.
Qed.

(** X23.  The empty word occurs in every text.  When [trims_include] holds
    it, the include list restricts nothing, not even listings without a
    trim; when an exclude list or [keywords_exclude] holds it,
    [apply_filters] returns no listing at all. *)
Theorem X23_empty_word_matches_everything FILTERS f rows :
  (In "" (trims_include f) ->
   forall r, trim_check f r = true
             <-> ~ some_word_in (trims_exclude f)
                   (lower (or_empty (l_trim r))))
  /\ (In "" (trims_exclude f) \/ In "" (dealers_exclude f)
      \/ In "" (keywords_exclude f) ->
      apply_filters FILTERS rows (Some f) = []).
Proof.
  assert (Hempty : forall words text, In "" words -> some_word_in words text).
  { intros words text H. exists "". split; [exact H | apply occurs_in_empty]. }
  split.
  - intros Hin r. unfold trim_check. rewrite word_lists_check.
    split; [tauto|]. intros H. split; [|exact H]. right. now apply Hempty.
  - intros H. unfold apply_filters. apply filter_none. intros r.
    destruct (keep f r) eqn:E; [|reflexivity]. exfalso.
    apply keep_checks in E as (_ & _ & _ & Ht & Hdl & Hk & _).
    destruct H as [H|[H|H]].
    + unfold trim_check in Ht. apply word_lists_check in Ht as [_ Ht].
      apply Ht. now apply Hempty.
    + unfold dealer_check in Hdl. apply word_lists_check in Hdl as [_ Hdl].
      apply Hdl. now apply Hempty.
    + unfold keyword_check in Hk.
      destruct (keywords_exclude f) as [|w ws] eqn:Ew; [contradiction|].
      cbn [nonempty] in Hk. apply negb_true_iff in Hk.
      apply not_true_iff_false in Hk. apply Hk, any_in_iff.
      now apply Hempty.
Qed.

(** The theorem at the argument [--trim "Limited,"]: the Tundra TRD Pro
    passes the trim filter. *)
Lemma X23_empty_word_matches_everything_witness :
  trim_check
    (cli_overrides (mkArgs None None (Some "Limited,") None None false)
       FILTERS_default) trd_pro = true.
Proof.
  apply (proj1 (X23_empty_word_matches_everything FILTERS_default
                  (cli_overrides
                     (mkArgs None None (Some "Limited,") None None false)
                     FILTERS_default) [])).
  - right. now left.
  - intros (w & [] & _).
Defined.

(** The fields that no step of the overrides writes. *)
Lemma set_price_min_keeps a f :
  mileage_max (set_price_min a f) = mileage_max f
  /\ trims_exclude (set_price_min a f) = trims_exclude f
  /\ dealers_exclude (set_price_min a f) = dealers_exclude f
  /\ keywords_exclude (set_price_min a f) = keywords_exclude f
  /\ year_max (set_price_min a f) = year_max f
  /\ only_price_drops (set_price_min a f) = only_price_drops f
  /\ min_discount_percent (set_price_min a f) = min_discount_percent f.
Proof. unfold set_price_min. destruct (truthy (a_price_min a)); repeat split. Qed.

Lemma set_price_max_keeps a f :
  mileage_max (set_price_max a f) = mileage_max f
  /\ trims_exclude (set_price_max a f) = trims_exclude f
  /\ dealers_exclude (set_price_max a f) = dealers_exclude f
  /\ keywords_exclude (set_price_max a f) = keywords_exclude f
  /\ year_max (set_price_max a f) = year_max f
  /\ only_price_drops (set_price_max a f) = only_price_drops f
  /\ min_discount_percent (set_price_max a f) = min_discount_percent f.
Proof. unfold set_price_max. destruct (truthy (a_price_max a)); repeat split. Qed.

Lemma set_trims_include_keeps a f :
  mileage_max (set_trims_include a f) = mileage_max f
  /\ trims_exclude (set_trims_include a f) = trims_exclude f
  /\ dealers_exclude (set_trims_include a f) = dealers_exclude f
  /\ keywords_exclude (set_trims_include a f) = keywords_exclude f
  /\ year_max (set_trims_include a f) = year_max f
  /\ only_price_drops (set_trims_include a f) = only_price_drops f
  /\ min_discount_percent (set_trims_include a f) = min_discount_percent f.
Proof.
  unfold set_trims_include. destruct (truthy_text (a_trim a)); repeat split.
Qed.

Lemma set_dealers_include_keeps a f :
  mileage_max (set_dealers_include a f) = mileage_max f
  /\ trims_exclude (set_dealers_include a f) = trims_exclude f
  /\ dealers_exclude (set_dealers_include a f) = dealers_exclude f
  /\ keywords_exclude (set_dealers_include a f) = keywords_exclude f
  /\ year_max (set_dealers_include a f) = year_max f
  /\ only_price_drops (set_dealers_include a f) = only_price_drops f
  /\ min_discount_percent (set_dealers_include a f) = min_discount_percent f.
Proof.
  unfold set_dealers_include. destruct (truthy_text (a_dealer a)); repeat split.
Qed.

Lemma set_year_min_keeps a f :
  mileage_max (set_year_min a f) = mileage_max f
  /\ trims_exclude (set_year_min a f) = trims_exclude f
  /\ dealers_exclude (set_year_min a f) = dealers_exclude f
  /\ keywords_exclude (set_year_min a f) = keywords_exclude f
  /\ year_max (set_year_min a f) = year_max f
  /\ only_price_drops (set_year_min a f) = only_price_drops f
  /\ min_discount_percent (set_year_min a f) = min_discount_percent f.
Proof. unfold set_year_min. destruct (truthy (a_year a)); repeat split. Qed.

(** X24.  The overrides of [main]: with [--no-filter] no option of FILTERS
    is in force after them, whatever the other arguments and whatever
    FILTERS held, and [apply_filters] returns its input; without it, an
    argument that is absent, 0 or empty leaves FILTERS as it was, and no
    argument ever changes [mileage_max], the exclude lists, the keywords,
    [year_max], [only_price_drops] or [min_discount_percent]. *)
Theorem X24_cli_overrides a FILTERS :
  (a_no_filter a = true ->
   inactive (cli_overrides a FILTERS)
   /\ forall rows, apply_filters (cli_overrides a FILTERS) rows None = rows)
  /\ (a_no_filter a = false ->
      (truthy (a_price_min a) = false -> truthy (a_price_max a) = false ->
       truthy_text (a_trim a) = false -> truthy_text (a_dealer a) = false ->
       truthy (a_year a) = false ->
       cli_overrides a FILTERS = FILTERS)
      /\ mileage_max (cli_overrides a FILTERS) = mileage_max FILTERS
      /\ trims_exclude (cli_overrides a FILTERS) = trims_exclude FILTERS
      /\ dealers_exclude (cli_overrides a FILTERS) = dealers_exclude FILTERS
      /\ keywords_exclude (cli_overrides a FILTERS) = keywords_exclude FILTERS
      /\ year_max (cli_overrides a FILTERS) = year_max FILTERS
      /\ only_price_drops (cli_overrides a FILTERS) = only_price_drops FILTERS
      /\ min_discount_percent (cli_overrides a FILTERS)
         = min_discount_percent FILTERS).
Proof.
  unfold cli_overrides, clear_filters. split.
  - intros ->. assert (H : inactive FILTERS_default) by repeat split.
    split; [exact H|]. intros rows. unfold apply_filters.
    apply filter_all. intros r. now apply inactive_keeps.
  - intros ->. split.
    + intros H1 H2 H3 H4 H5.
      unfold set_year_min, set_dealers_include, set_trims_include,
        set_price_max, set_price_min.
      now rewrite H1, H2, H3, H4, H5.
    + cbv iota.
      destruct (set_price_min_keeps a FILTERS)
        as (A1 & A2 & A3 & A4 & A5 & A6 & A7).
      destruct (set_price_max_keeps a (set_price_min a FILTERS))
        as (B1 & B2 & B3 & B4 & B5 & B6 & B7).
      destruct (set_trims_include_keeps a
                  (set_price_max a (set_price_min a FILTERS)))
        as (C1 & C2 & C3 & C4 & C5 & C6 & C7).
      destruct (set_dealers_include_keeps a
                  (set_trims_include a
                     (set_price_max a (set_price_min a FILTERS))))
        as (D1 & D2 & D3 & D4 & D5 & D6 & D7).
      destruct (set_year_min_keeps a
                  (set_dealers_include a
                     (set_trims_include a
                        (set_price_max a (set_price_min a FILTERS)))))
        as (E1 & E2 & E3 & E4 & E5 & E6 & E7).
      repeat split; congruence.
Qed.

(** The theorem at [--price-min 40000 --trim SR5 --no-filter]. *)
Lemma X24_cli_overrides_witness :
  apply_filters
    (cli_overrides (mkArgs (Some 40000) None (Some "SR5") None None true)
       five_percent_off)
    [trd_pro; priced 2 None] None
  = [trd_pro; priced 2 None].
Proof.
  apply (proj1 (X24_cli_overrides
                  (mkArgs (Some 40000) None (Some "SR5") None None true)
                  five_percent_off) eq_refl).
Defined.

(* ===================================================================== *)
(** ** The price history only grows, and what the price drops show *)
(* ===================================================================== *)

(** X25.  In a store the program built, a merge never rewrites the price
    history of a listing: after the call the history of every stored
    listing is its history before, followed by nothing or by one entry, the
    price it had with the time of the call. *)
Theorem X25_history_is_append_only clk c d s l row :
  reachable d -> lookup s l d = Some row ->
  exists row' more,
    lookup s l (db_after (upsert_listing clk c) d) = Some row'
    /\ l_price_history row' = (l_price_history row ++ more)%list
    /\ (more = []
        \/ more = [mkPricePoint (l_price row) (isoformat (py_now clk))]).
Proof.
  intros Hr Hrow. apply reachable_consistent in Hr as Hd.
  assert (Hsame : forall s0 l0 ex,
             c_source c = Val s0 -> c_listing_id c = Val l0 ->
             lookup s0 l0 d = Some ex ->
             exists row' more,
               lookup s0 l0 (db_after (upsert_listing clk c) d) = Some row'
               /\ l_price_history row' = (l_price_history ex ++ more)%list
               /\ (more = []
                   \/ more = [mkPricePoint (l_price ex)
                                (isoformat (py_now clk))])).
  { intros s0 l0 ex Hs Hl Hf.
    destruct (price_change_detected (l_price ex) (c_price c)) eqn:E.
    - destruct (upsert_listing_change clk c d s0 l0 ex Hs Hl Hf E)
        as (_ & _ & Hl').
      eexists _, _. split; [exact Hl'|]. split; [reflexivity | now right].
    - destruct (upsert_listing_no_change clk c d s0 l0 ex Hs Hl Hf E)
        as (_ & _ & Hl').
      eexists _, []. split; [exact Hl'|].
      split; [now rewrite app_nil_r | now left]. }
  destruct (c_source c) as [| |s0] eqn:Hs;
    [exists row, []; rewrite app_nil_r;
     (split; [|split; [reflexivity | now left]]);
     rewrite <- Hrow; apply upsert_listing_frame;
     [exact Hd | left; congruence] ..|].
  destruct (c_listing_id c) as [| |l0] eqn:Hl;
    [exists row, []; rewrite app_nil_r;
     (split; [|split; [reflexivity | now left]]);
     rewrite <- Hrow; apply upsert_listing_frame;
     [exact Hd | right; congruence] ..|].
  destruct (String.eqb_spec s0 s) as [->|Hns];
    [destruct (String.eqb_spec l0 l) as [->|Hnl]|].
  - now apply (Hsame s l row).
  - exists row, []. rewrite app_nil_r.
    split; [|split; [reflexivity | now left]].
    rewrite <- Hrow. apply upsert_listing_frame; [exact Hd|].
    right. congruence.
  - exists row, []. rewrite app_nil_r.
    split; [|split; [reflexivity | now left]].
    rewrite <- Hrow. apply upsert_listing_frame; [exact Hd|].
    left. congruence.
Qed.

(** The theorem at [window_store] and one more change of price. *)
Lemma X25_history_is_append_only_witness :
  exists row',
    lookup "cars.com" "123"
      (db_after (upsert_listing clk_nov02
                   (tundra (Val 2025) None (Some 41000) None)) window_store)
    = Some row'
    /\ (List.length (l_price_history row') >= 3)%nat.
Proof.
  destruct (X25_history_is_append_only clk_nov02
              (tundra (Val 2025) None (Some 41000) None) window_store
              "cars.com" "123" _ window_store_reachable eq_refl)
    as (row' & more & Hrow & Hh & _).
  exists row'. split; [exact Hrow|].
  rewrite Hh, length_app. cbn. lia.
Defined.

Lemma NoDup_map_filter {A B} (g : A -> B) (p : A -> bool) (l : list A) :
  NoDup (map g l) -> NoDup (map g (filter p l)).
Proof.
  induction l as [|x l IH]; cbn [map filter]; [trivial|].
  intros H. inversion H as [|? ? Hx Hrest]; subst.
  destruct (p x); [|now apply IH].
  cbn [map]. constructor; [|now apply IH].
  intros Hin. apply Hx. apply in_map_iff in Hin as (y & Hy & Hin).
  apply filter_In in Hin as [Hin _]. rewrite <- Hy. now apply in_map.
Qed.

(** X26.  In a store the program built, every row [get_price_drops] returns
    belongs to one price alert and shows make, model, year, trim, dealer
    name and URL of the listing as [get_listing_by_id] returns it when the
    query runs; no alert gives two rows. *)
Theorem X26_price_drops_show_current_listing cutoff d :
  reachable d ->
  (forall r, In r (get_price_drops cutoff d) ->
     exists pa l,
       In pa (price_alerts d)
       /\ get_listing_by_id (pa_listing_id pa) d = Some l
       /\ r = join_row pa l)
  /\ NoDup (map d_id (get_price_drops cutoff d)).
Proof.
  intros Hr. apply reachable_consistent in Hr as Hd. split.
  - intros r Hin.
    apply (proj1 (get_price_drops_rows cutoff d)) in Hin as [Hin _].
    apply join_alerts_current in Hin as (pa & l & Hpa & Hl & Hid & ->).
    exists pa, l. split; [exact Hpa|]. split; [|reflexivity].
    rewrite Hid. now apply get_listing_by_id_In.
  - unfold get_price_drops.
    eapply Permutation_NoDup.
    + apply Permutation_map, order_by_perm.
    + apply NoDup_map_filter.
      assert (Hj : map d_id (join_alerts d) = map pa_id (price_alerts d)).
      { unfold join_alerts.
        assert (Hnd : NoDup (map l_id (listings d))).
        { rewrite (listing_ids d Hd). apply first_rowids_NoDup. }
        pose proof (alerts_ok d Hd) as Ha.
        induction Ha as [|pa alerts [(r & Hin & Hid) _] _ IH];
          cbn [flat_map map]; [reflexivity|].
        rewrite map_app, IH. rewrite <- Hid.
        now rewrite (filter_unique_id (listings d) r Hnd Hin). }
      rewrite Hj, (alert_ids d Hd). apply first_rowids_NoDup.
Qed.

(** The theorem at [window_store] and the cutoff of 27 October, noon. *)
Lemma X26_price_drops_show_current_listing_witness :
  NoDup (map d_id (get_price_drops cutoff_oct27_noon window_store)).
Proof.
  exact (proj2 (X26_price_drops_show_current_listing cutoff_oct27_noon
                  window_store window_store_reachable)).
Defined.

(* ===================================================================== *)
(** ** The best price of the report *)
(* ===================================================================== *)

Lemma get_listings_sorted_filtered FILTERS make model use d :
  StronglySorted price_le_nulls_first (get_listings FILTERS make model use d).
Proof.
  destruct use; [|apply get_listings_sorted].
  change (get_listings FILTERS make model true d)
    with (apply_filters FILTERS (get_listings FILTERS make model false d) None).
  apply StronglySorted_filter, get_listings_sorted.
Qed.

(** X27.  The best price of the report is the price of the first row of
    [get_listings]: it is null as soon as one of the rows has no price, and
    otherwise, when there are rows, it is the lowest price among them. *)
Theorem X27_best_price_of_the_report FILTERS d :
  let tundras := get_listings FILTERS (Some "toyota") (Some "tundra") true d in
  best_tundra (report_stats FILTERS d) = first_price tundras
  /\ ((exists r, In r tundras /\ l_price r = None) ->
      best_tundra (report_stats FILTERS d) = None)
  /\ (tundras <> [] -> (forall r, In r tundras -> l_price r <> None) ->
      exists p,
        best_tundra (report_stats FILTERS d) = Some p
        /\ (exists r, In r tundras /\ l_price r = Some p)
        /\ forall r q, In r tundras -> l_price r = Some q -> p <= q).
Proof.
  intros tundras. cbn [report_stats best_tundra]. fold tundras.
  pose proof (get_listings_sorted_filtered FILTERS (Some "toyota")
                (Some "tundra") true d) as Hs.
  fold tundras in Hs. clearbody tundras.
  split; [reflexivity|]. split.
  - intros (r & Hin & Hnull).
    destruct tundras as [|x rows]; [reflexivity|]. cbn [first_price].
    destruct Hin as [->|Hin]; [exact Hnull|].
    inversion Hs as [|? ? _ Hall]; subst. rewrite Forall_forall in Hall.
    specialize (Hall r Hin). unfold price_le_nulls_first in Hall.
    rewrite Hnull in Hall. now destruct (l_price x).
  - intros Hne Hall. destruct tundras as [|x rows]; [congruence|].
    cbn [first_price].
    destruct (l_price x) as [p|] eqn:Ex;
      [|exfalso; now apply (Hall x (or_introl eq_refl))].
    exists p. split; [reflexivity|]. split; [exists x; split; [now left | exact Ex]|].
    intros r q [->|Hin] Hq; [rewrite Ex in Hq; injection Hq; lia|].
    inversion Hs as [|? ? _ Hle]; subst. rewrite Forall_forall in Hle.
    specialize (Hle r Hin). unfold price_le_nulls_first in Hle.
    now rewrite Ex, Hq in Hle.
Qed.

(** The theorem at a store that holds a Tundra without a price and one
    priced 45000: the best price is null. *)
Lemma X27_best_price_of_the_report_witness :
  best_tundra
    (report_stats FILTERS_default
       (mkDb [new_row 1 "cars.com" "1" "Toyota" "Tundra" 2025 ""
                (tundra (Val 2025) None (Some 45000) None);
              new_row 2 "cars.com" "2" "Toyota" "Tundra" 2025 ""
                (tundra (Val 2025) None None None)] []))
  = None.
Proof.
  apply (proj1 (proj2 (X27_best_price_of_the_report FILTERS_default _))).
  eexists. split; [now left | reflexivity].
Defined.
